(** * storybox: the dashboard control plane (app/api/dashboard.py, app/main.py)

    A shallow embedding of the configuration-update handler, the dashboard
    snapshot handler and the startup sequence, with the properties the
    specification states about them.

    Layout: Python values and the builtins the handlers call; the
    collaborators that live outside the four source files; the process
    state and the handlers; a concrete instance of the collaborators; the
    theorems. *)

From Stdlib Require Import ZArith String Ascii List Bool Lia.
From Corelib Require Import SpecFloat.
From stdpp Require Import base option gmap strings.
Import ListNotations.

Set Warnings "-register-all".

Local Open Scope string_scope.
Local Open Scope Z_scope.

(** ** Python values

    What a JSON request body or a module attribute can hold.  A [str] is
    modelled by its UTF-8 bytes, a [float] by an IEEE binary64 value, a
    [dict] by its items in insertion order. *)

Inductive pyval : Type :=
| VNone
| VBool (b : bool)
| VInt (n : Z)
| VFloat (f : spec_float)
| VStr (s : string)
| VList (l : list pyval)
| VDict (d : list (string * pyval)).

(** The exceptions the handlers raise, catch or let through.  All of them
    are subclasses of [Exception]; [JSONDecodeError] is a subclass of
    [ValueError]. *)
Inductive exn : Type :=
| HTTPException (status_code : Z) (detail : string)
| ValueError (msg : string)
| TypeError (msg : string)
| OverflowError (msg : string)
| JSONDecodeError (msg : string)
| AttributeError (msg : string)
| KeyError (msg : string)
| OtherError (cls msg : string).

Inductive result (A : Type) : Type :=
| Ok (a : A)
| Raise (e : exn).
Arguments Ok {A} a.
Arguments Raise {A} e.

(** [str(e)] *)
Definition exn_str (e : exn) : string :=
  match e with
  | HTTPException _ d => d
  | ValueError m | TypeError m | OverflowError m | JSONDecodeError m
  | AttributeError m | KeyError m | OtherError _ m => m
  end.

(** [isinstance(e, ValueError)] *)
Definition is_ValueError (e : exn) : bool :=
  match e with ValueError _ | JSONDecodeError _ => true | _ => false end.

Definition is_JSONDecodeError (e : exn) : bool :=
  match e with JSONDecodeError _ => true | _ => false end.

Definition is_HTTPException (e : exn) : bool :=
  match e with HTTPException _ _ => true | _ => false end.

Definition float_is_zero (f : spec_float) : bool :=
  match f with S754_zero _ => true | _ => false end.

(** Truth value testing: [bool(v)], [if v], [not v]. *)
Definition truthy (v : pyval) : bool :=
  match v with
  | VNone => false
  | VBool b => b
  | VInt n => negb (n =? 0)
  | VFloat f => negb (float_is_zero f)
  | VStr s => negb (String.eqb s "")
  | VList l => match l with [] => false | _ => true end
  | VDict d => match d with [] => false | _ => true end
  end.

(** [type(v).__name__] *)
Definition type_name (v : pyval) : string :=
  match v with
  | VNone => "NoneType"
  | VBool _ => "bool"
  | VInt _ => "int"
  | VFloat _ => "float"
  | VStr _ => "str"
  | VList _ => "list"
  | VDict _ => "dict"
  end.

(** [v == "literal"]: only a [str] equals a [str]. *)
Definition py_eq_str (v : pyval) (lit : string) : bool :=
  match v with VStr s => String.eqb s lit | _ => false end.

(** [d.get(k)] on the items of a dict. *)
Fixpoint dict_get (k : string) (d : list (string * pyval)) : pyval :=
  match d with
  | [] => VNone
  | (k', v) :: d' => if String.eqb k' k then v else dict_get k d'
  end.

(** [d[k]]: [KeyError] when the key is absent. *)
Fixpoint dict_getitem (k : string) (d : list (string * pyval)) : result pyval :=
  match d with
  | [] => Raise (KeyError k)
  | (k', v) :: d' => if String.eqb k' k then Ok v else dict_getitem k d'
  end.

(** [d[k] = v]: the value is replaced in place, a new key goes last. *)
Fixpoint dict_setitem (k : string) (v : pyval) (d : list (string * pyval))
  : list (string * pyval) :=
  match d with
  | [] => [(k, v)]
  | (k', v') :: d' =>
      if String.eqb k' k then (k', v) :: d' else (k', v') :: dict_setitem k v d'
  end.

(** [v[k]] for a string key. *)
Definition py_getitem (v : pyval) (k : string) : result pyval :=
  match v with
  | VDict d => dict_getitem k d
  | _ => Raise (TypeError "object is not subscriptable with a str key")
  end.

(** [v[k] = x] for a string key. *)
Definition py_setitem (v : pyval) (k : string) (x : pyval) : result pyval :=
  match v with
  | VDict d => Ok (VDict (dict_setitem k x d))
  | _ => Raise (TypeError "object does not support item assignment")
  end.

(** ** Strings: bytes, ASCII classes, [lower], [strip], [split] *)

Definition byte := Z.

Definition bytes_of (s : string) : list byte :=
  map (fun c => Z.of_N (N_of_ascii c)) (list_ascii_of_string s).

Definition string_of_bytes (l : list byte) : string :=
  string_of_list_ascii (map (fun z => ascii_of_N (Z.to_N z)) l).

Definition is_digit (c : byte) : bool := (48 <=? c) && (c <=? 57).
Definition digit_val (c : byte) : Z := c - 48.

(** C's [isspace] in the "C" locale, which [int()] and [float()] use on an
    ASCII string: space, [\t], [\n], [\v], [\f], [\r]. *)
Definition is_c_space (c : byte) : bool :=
  (c =? 32) || ((9 <=? c) && (c <=? 13)).

Definition is_ascii_string (l : list byte) : bool := forallb (fun c => c <? 128) l.

Definition lower_byte (c : byte) : byte :=
  if (65 <=? c) && (c <=? 90) then c + 32 else c.

(** [s.lower()] on the ASCII letters.  No character outside ASCII lowers
    to one of [t], [r], [u], [e], so the test [s.lower() == "true"] is
    exact on every string. *)
Definition py_lower (s : string) : string :=
  string_of_bytes (map lower_byte (bytes_of s)).

(** The white space [str.strip()] removes: the ASCII ones (with the four
    separators 0x1c-0x1f) and, in UTF-8, U+0085, U+00A0, U+1680,
    U+2000-U+200A, U+2028, U+2029, U+202F, U+205F and U+3000.  [space_prefix l]
    is the length of the white space character [l] starts with, if any. *)
Definition space_prefix (l : list byte) : option nat :=
  match l with
  | c :: l1 =>
      if (c =? 32) || ((9 <=? c) && (c <=? 13)) || ((28 <=? c) && (c <=? 31))
      then Some 1%nat
      else match l1 with
           | c1 :: l2 =>
               if (c =? 194) && ((c1 =? 133) || (c1 =? 160)) then Some 2%nat
               else match l2 with
                    | c2 :: _ =>
                        if ((c =? 225) && (c1 =? 154) && (c2 =? 128))
                           || ((c =? 226) && (c1 =? 128)
                               && (((128 <=? c2) && (c2 <=? 138))
                                   || (c2 =? 168) || (c2 =? 169) || (c2 =? 175)))
                           || ((c =? 226) && (c1 =? 129) && (c2 =? 159))
                           || ((c =? 227) && (c1 =? 128) && (c2 =? 128))
                        then Some 3%nat else None
                    | [] => None
                    end
           | [] => None
           end
  | [] => None
  end.

(** The same read from the end of the string ([l] is reversed): the last
    character is one ASCII byte, or two or three bytes that are together
    one of the white space characters above.  The bytes of another
    character are never taken apart. *)
Definition space_suffix (l : list byte) : option nat :=
  match l with
  | c :: _ =>
      if (c <? 128) then space_prefix [c]
      else match l with
           | c2 :: c1 :: rest =>
               match space_prefix [c1; c2] with
               | Some 2%nat => Some 2%nat
               | _ =>
                   match rest with
                   | c0 :: _ =>
                       match space_prefix [c0; c1; c2] with
                       | Some 3%nat => Some 3%nat
                       | _ => None
                       end
                   | [] => None
                   end
               end
           | _ => None
           end
  | [] => None
  end.

Fixpoint lstrip_fuel (prefix : list byte -> option nat) (n : nat) (l : list byte)
  : list byte :=
  match n with
  | O => l
  | S n' =>
      match prefix l with
      | Some k => lstrip_fuel prefix n' (skipn k l)
      | None => l
      end
  end.

(** [s.strip()] *)
Definition py_strip (s : string) : string :=
  let l := bytes_of s in
  let l1 := lstrip_fuel space_prefix (length l) l in
  let r := lstrip_fuel space_suffix (length l1) (rev l1) in
  string_of_bytes (rev r).

Fixpoint split_comma_aux (l : list byte) (cur : list byte) : list (list byte) :=
  match l with
  | [] => [rev cur]
  | c :: l' =>
      if c =? 44 then rev cur :: split_comma_aux l' []
      else split_comma_aux l' (c :: cur)
  end.

(** [s.split(",")] *)
Definition py_split_comma (s : string) : list string :=
  map string_of_bytes (split_comma_aux (bytes_of s) []).

(** ** [int()]

    [int(v)] for the values a request can carry.  A string is read in base
    10: optional white space, an optional sign, digits with single
    underscores between them, optional white space; more than 4300 digits
    are refused (the interpreter's default limit).  A string with bytes
    outside ASCII goes through the interpreter's Unicode tables (decimal
    digits and white space of other scripts), which [int_nonascii] stands
    for. *)

Definition max_str_digits : nat := 4300.

(** Digits with single underscores between them, from the first digit on;
    the rest is what follows the numeral.  [acc] is the value and [nd] the
    number of digits read so far. *)
Fixpoint digits_us (l : list byte) (acc : Z) (nd : nat) : Z * nat * list byte :=
  match l with
  | c :: l' =>
      if is_digit c then digits_us l' (10 * acc + digit_val c) (S nd)
      else if c =? 95 then
        match l' with
        | c' :: _ => if is_digit c' then digits_us l' acc nd else (acc, nd, l)
        | [] => (acc, nd, l)
        end
      else (acc, nd, l)
  | [] => (acc, nd, l)
  end.

Fixpoint skip_c_space (l : list byte) : list byte :=
  match l with
  | c :: l' => if is_c_space c then skip_c_space l' else l
  | [] => []
  end.

Definition split_sign (l : list byte) : bool * list byte :=
  match l with
  | c :: l' => if c =? 45 then (true, l') else if c =? 43 then (false, l') else (false, l)
  | [] => (false, l)
  end.

Definition int_of_ascii (l : list byte) : option Z :=
  let '(neg, l1) := split_sign (skip_c_space l) in
  match l1 with
  | c :: _ =>
      if is_digit c then
        let '(n, nd, rest) := digits_us l1 0 0%nat in
        match skip_c_space rest with
        | [] => if (max_str_digits <? nd)%nat then None
                else Some (if neg then - n else n)
        | _ => None
        end
      else None
  | [] => None
  end.

(** The integer part of a finite float, towards zero. *)
Definition float_trunc (f : spec_float) : option Z :=
  match f with
  | S754_zero _ => Some 0
  | S754_finite s m e =>
      let a := if 0 <=? e then Z.pos m * 2 ^ e else Z.pos m / 2 ^ (- e) in
      Some (if s then - a else a)
  | S754_infinity _ | S754_nan => None
  end.

Definition py_int (int_nonascii : string -> option Z) (v : pyval) : result Z :=
  match v with
  | VInt n => Ok n
  | VBool b => Ok (if b then 1 else 0)
  | VFloat f =>
      match f with
      | S754_nan => Raise (ValueError "cannot convert float NaN to integer")
      | S754_infinity _ => Raise (OverflowError "cannot convert float infinity to integer")
      | _ => match float_trunc f with
             | Some n => Ok n
             | None => Raise (OverflowError "cannot convert float infinity to integer")
             end
      end
  | VStr s =>
      let l := bytes_of s in
      match (if is_ascii_string l then int_of_ascii l else int_nonascii s) with
      | Some n => Ok n
      | None => Raise (ValueError "invalid literal for int() with base 10")
      end
  | VNone | VList _ | VDict _ =>
      Raise (TypeError ("int() argument must be a string, a bytes-like object or a real number, not '"
                        ++ type_name v ++ "'"))
  end.

(** ** [float()]

    Binary64: 53 bits of precision, exponents below 1024. *)

Definition prec64 : Z := 53.
Definition emax64 : Z := 1024.

(** The binary64 value nearest to [n * 10 ^ e10] (ties to even), for
    [n > 0]: an integer is rounded as it is; a quotient is first cut to at
    least 64 significant bits with a sticky last bit, which rounds the same
    way. *)
Definition round_decimal (neg : bool) (n : positive) (e10 : Z) : spec_float :=
  if 0 <=? e10 then
    match Z.pos n * 10 ^ e10 with
    | Zpos m => binary_round prec64 emax64 neg m 0
    | _ => S754_zero neg
    end
  else
    let den := 10 ^ (- e10) in
    let s := Z.max 0 (64 + Z.log2 den - Z.log2 (Z.pos n)) in
    let num := Z.pos n * 2 ^ s in
    let q := num / den in
    let sticky := if num mod den =? 0 then 0 else 1 in
    match 2 * q + sticky with
    | Zpos m => binary_round prec64 emax64 neg m (- s - 1)
    | _ => S754_zero neg
    end.

(** The float a decimal numeral denotes: [digits] are the digits of the
    integer and fraction parts together, [nfrac] the number of fraction
    digits, [e] the exponent.  Exponents far outside the range of binary64
    are cut off, which changes nothing in the result (zero or infinity). *)
Definition float_of_decimal (neg : bool) (mant : Z) (nd nfrac : Z) (e : Z) : spec_float :=
  match mant with
  | Zpos n =>
      let e10 := e - nfrac in
      if 400 <? e10 then S754_infinity neg
      else if e10 + nd <? -400 then S754_zero neg
      else round_decimal neg n e10
  | _ => S754_zero neg
  end.

(** The value of an integer as a float: [OverflowError] past the largest
    finite float. *)
Definition float_of_Z (n : Z) : result spec_float :=
  match binary_normalize prec64 emax64 n 0 false with
  | S754_infinity _ => Raise (OverflowError "int too large to convert to float")
  | f => Ok f
  end.

(** Underscores in a float literal stand between two digits. *)
Fixpoint underscores_ok (prev : byte) (l : list byte) : bool :=
  match l with
  | [] => negb (prev =? 95)
  | c :: l' =>
      (if c =? 95 then is_digit prev
       else if prev =? 95 then is_digit c else true)
      && underscores_ok c l'
  end.

Fixpoint digits_plain (l : list byte) (acc : Z) (nd : Z) : Z * Z * list byte :=
  match l with
  | c :: l' =>
      if is_digit c then digits_plain l' (10 * acc + digit_val c) (nd + 1)
      else (acc, nd, l)
  | [] => (acc, nd, l)
  end.

(** The exponent part of a decimal literal, if [l] starts with a complete
    one: its value and what follows it. *)
Definition exponent_part (l : list byte) : option (Z * list byte) :=
  match l with
  | c :: l1 =>
      if (c =? 101) || (c =? 69) then
        let '(neg, l2) := split_sign l1 in
        let '(e, nd, rest) := digits_plain l2 0 0 in
        if 0 <? nd then Some (if neg then - e else e, rest) else None
      else None
  | [] => None
  end.

(** A decimal literal without sign: digits, an optional point and more
    digits (one digit at least), an optional exponent; nothing after it. *)
Definition decimal_literal (neg : bool) (l : list byte) : option spec_float :=
  let '(ip, n1, r1) := digits_plain l 0 0 in
  let '(mant, n2, r2) :=
    match r1 with
    | c :: r1' => if c =? 46 then digits_plain r1' ip 0 else (ip, 0, r1)
    | [] => (ip, 0, r1)
    end in
  if n1 + n2 <=? 0 then None
  else
    match r2 with
    | [] => Some (float_of_decimal neg mant (n1 + n2) n2 0)
    | _ =>
        match exponent_part r2 with
        | Some (e, []) => Some (float_of_decimal neg mant (n1 + n2) n2 e)
        | _ => None
        end
    end.

Definition float_of_ascii (l : list byte) : option spec_float :=
  let l0 := skip_c_space l in
  let body := rev (skip_c_space (rev l0)) in
  if negb (underscores_ok 0 body) then None
  else
    let '(neg, l1) := split_sign (List.filter (fun c => negb (c =? 95)) body) in
    let word := string_of_bytes (map lower_byte l1) in
    if String.eqb word "inf" || String.eqb word "infinity" then Some (S754_infinity neg)
    else if String.eqb word "nan" then Some S754_nan
    else decimal_literal neg l1.

Definition py_float (float_nonascii : string -> option spec_float) (v : pyval)
  : result spec_float :=
  match v with
  | VFloat f => Ok f
  | VInt n => float_of_Z n
  | VBool b => float_of_Z (if b then 1 else 0)
  | VStr s =>
      let l := bytes_of s in
      match (if is_ascii_string l then float_of_ascii l else float_nonascii s) with
      | Some f => Ok f
      | None => Raise (ValueError "could not convert string to float")
      end
  | VNone | VList _ | VDict _ =>
      Raise (TypeError ("float() argument must be a string or a real number, not '"
                        ++ type_name v ++ "'"))
  end.

(** [value <= 0] on a float: false on NaN. *)
Definition float_le_zero (f : spec_float) : bool := SFleb f (S754_zero false).

(** ** [json.loads]

    The decoder of the standard library on a [str]: white space is space,
    tab, line feed and carriage return; a number with a fraction or an
    exponent is a float, another one an int (with the digit limit of
    [int()], a [ValueError]); [NaN], [Infinity] and [-Infinity] are
    accepted; a string holds no raw control character; the last of two
    equal keys wins.  Every other failure of the text is a
    [JSONDecodeError].  The decoder enters one recursive call for each
    array or object it opens, an empty one too, so a text nested deeper
    than the interpreter's recursion limit leaves room for raises
    [RecursionError] (a [RuntimeError], not a [ValueError]) at the bracket
    that goes too deep; how deep that is depends on the caller's stack and
    is the parameter [depth].  Within the last three calls before the
    limit the interpreter also fails where the decoder calls back into it
    (to build a [JSONDecodeError], to read [NaN] or [Infinity]), with a
    [RecursionError] of another text; of these the model keeps the
    decoder's own error. *)

Definition is_json_ws (c : byte) : bool :=
  (c =? 32) || (c =? 9) || (c =? 10) || (c =? 13).

Fixpoint skip_ws (l : list byte) : list byte :=
  match l with
  | c :: l' => if is_json_ws c then skip_ws l' else l
  | [] => []
  end.

Definition hex_val (c : byte) : option Z :=
  if is_digit c then Some (c - 48)
  else if (97 <=? c) && (c <=? 102) then Some (c - 87)
  else if (65 <=? c) && (c <=? 70) then Some (c - 55)
  else None.

Definition hex4 (a b c d : byte) : option Z :=
  match hex_val a, hex_val b, hex_val c, hex_val d with
  | Some x, Some y, Some z, Some w => Some (((x * 16 + y) * 16 + z) * 16 + w)
  | _, _, _, _ => None
  end.

(** UTF-8 bytes of a code point (a lone surrogate is written the same way). *)
Definition utf8 (cp : Z) : list byte :=
  if cp <? 128 then [cp]
  else if cp <? 2048 then [192 + cp / 64; 128 + cp mod 64]
  else if cp <? 65536 then [224 + cp / 4096; 128 + (cp / 64) mod 64; 128 + cp mod 64]
  else [240 + cp / 262144; 128 + (cp / 4096) mod 64; 128 + (cp / 64) mod 64; 128 + cp mod 64].

Definition simple_escape (c : byte) : option byte :=
  if c =? 34 then Some 34 else if c =? 92 then Some 92 else if c =? 47 then Some 47
  else if c =? 98 then Some 8 else if c =? 102 then Some 12 else if c =? 110 then Some 10
  else if c =? 114 then Some 13 else if c =? 116 then Some 9 else None.

Definition is_high_surrogate (cp : Z) : bool := (55296 <=? cp) && (cp <=? 56319).
Definition is_low_surrogate (cp : Z) : bool := (56320 <=? cp) && (cp <=? 57343).

(** The string that starts after an opening quote: its bytes (reversed in
    [acc]) and what follows the closing quote. *)
Fixpoint scan_string (l : list byte) (acc : list byte) : option (list byte * list byte) :=
  match l with
  | [] => None
  | c :: l1 =>
      if c =? 34 then Some (rev acc, l1)
      else if c =? 92 then
        match l1 with
        | [] => None
        | e :: l2 =>
            if e =? 117 then
              match l2 with
              | h1 :: h2 :: h3 :: h4 :: l3 =>
                  match hex4 h1 h2 h3 h4 with
                  | None => None
                  | Some cp =>
                      match l3 with
                      | b :: u :: g1 :: g2 :: g3 :: g4 :: ((_ :: _) as l4) =>
                          if is_high_surrogate cp && (b =? 92) && (u =? 117) then
                            match hex4 g1 g2 g3 g4 with
                            | None => None
                            | Some cp2 =>
                                if is_low_surrogate cp2 then
                                  scan_string l4
                                    (rev (utf8 (65536 + (cp - 55296) * 1024 + (cp2 - 56320))) ++ acc)
                                else scan_string l3 (rev (utf8 cp) ++ acc)
                            end
                          else scan_string l3 (rev (utf8 cp) ++ acc)
                      | _ => scan_string l3 (rev (utf8 cp) ++ acc)
                      end
                  end
              | _ => None
              end
            else
              match simple_escape e with
              | Some x => scan_string l2 (x :: acc)
              | None => None
              end
        end
      else if c <? 32 then None
      else scan_string l1 (c :: acc)
  end.

Definition starts_with (p : string) (l : list byte) : option (list byte) :=
  let pb := bytes_of p in
  if forallb (fun xy => fst xy =? snd xy) (combine pb (firstn (length pb) l))
     && (length pb <=? length l)%nat
  then Some (skipn (length pb) l) else None.

(** A JSON number at the head of [l]: an optional minus, [0] or a numeral
    without leading zero, a fraction if a digit follows the point, an
    exponent if it is complete. *)
Definition scan_number (l : list byte) : option (result pyval * list byte) :=
  let '(neg, l1) := match l with
                    | c :: l' => if c =? 45 then (true, l') else (false, l)
                    | [] => (false, l)
                    end in
  match l1 with
  | c :: l2 =>
      if is_digit c then
        let '(ip, n1, r1) :=
          if c =? 48 then (0, 1, l2) else digits_plain l1 0 0 in
        let '(mant, n2, r2) :=
          match r1 with
          | p :: ((d :: _) as r1') =>
              if (p =? 46) && is_digit d then digits_plain r1' ip 0 else (ip, 0, r1)
          | _ => (ip, 0, r1)
          end in
        match exponent_part r2 with
        | Some (e, r3) =>
            Some (Ok (VFloat (float_of_decimal neg mant (n1 + n2) n2 e)), r3)
        | None =>
            if 0 <? n2
            then Some (Ok (VFloat (float_of_decimal neg mant (n1 + n2) n2 0)), r2)
            else if Z.of_nat max_str_digits <? n1
            then Some (Raise (ValueError "Exceeds the limit for integer string conversion"), r2)
            else Some (Ok (VInt (if neg then - ip else ip)), r2)
        end
      else None
  | [] => None
  end.

Definition expecting_value : exn := JSONDecodeError "Expecting value".

Definition recursion_error (container : string) : exn :=
  OtherError "RecursionError"
    ("maximum recursion depth exceeded while decoding a JSON " ++ container
     ++ " from a unicode string").

(** One JSON value at the head of [l], and what follows it.  [depth] is
    the number of nested arrays and objects that can still be entered.
    [fuel] bounds the calls of the model; the length of the text is always
    enough. *)
Fixpoint scan_value (fuel : nat) (depth : nat) (l : list byte)
  : result (pyval * list byte) :=
  match fuel with
  | O => Raise expecting_value
  | S fuel' =>
      match l with
      | [] => Raise expecting_value
      | c :: l1 =>
          if c =? 34 then
            match scan_string l1 [] with
            | Some (s, r) => Ok (VStr (string_of_bytes s), r)
            | None => Raise (JSONDecodeError "Invalid string")
            end
          else if c =? 123 then
            match depth with
            | O => Raise (recursion_error "object")
            | S depth' =>
                match skip_ws l1 with
                | c' :: r => if c' =? 125 then Ok (VDict [], r)
                             else scan_members fuel' depth' (skip_ws l1) []
                | [] =>
                    Raise (JSONDecodeError "Expecting property name enclosed in double quotes")
                end
            end
          else if c =? 91 then
            match depth with
            | O => Raise (recursion_error "array")
            | S depth' =>
                match skip_ws l1 with
                | c' :: r => if c' =? 93 then Ok (VList [], r)
                             else scan_elements fuel' depth' (skip_ws l1) []
                | [] => Raise expecting_value
                end
            end
          else
            match starts_with "null" l, starts_with "true" l, starts_with "false" l with
            | Some r, _, _ => Ok (VNone, r)
            | _, Some r, _ => Ok (VBool true, r)
            | _, _, Some r => Ok (VBool false, r)
            | _, _, _ =>
                match starts_with "NaN" l, starts_with "Infinity" l,
                      starts_with "-Infinity" l with
                | Some r, _, _ => Ok (VFloat S754_nan, r)
                | _, Some r, _ => Ok (VFloat (S754_infinity false), r)
                | _, _, Some r => Ok (VFloat (S754_infinity true), r)
                | _, _, _ =>
                    match scan_number l with
                    | Some (Ok v, r) => Ok (v, r)
                    | Some (Raise e, _) => Raise e
                    | None => Raise expecting_value
                    end
                end
            end
      end
  end
with scan_elements (fuel : nat) (depth : nat) (l : list byte) (acc : list pyval)
  : result (pyval * list byte) :=
  match fuel with
  | O => Raise expecting_value
  | S fuel' =>
      match scan_value fuel' depth l with
      | Raise e => Raise e
      | Ok (v, r) =>
          match skip_ws r with
          | c :: r' =>
              if c =? 93 then Ok (VList (rev (v :: acc)), r')
              else if c =? 44 then scan_elements fuel' depth (skip_ws r') (v :: acc)
              else Raise (JSONDecodeError "Expecting ',' delimiter")
          | [] => Raise (JSONDecodeError "Expecting ',' delimiter")
          end
      end
  end
with scan_members (fuel : nat) (depth : nat) (l : list byte) (acc : list (string * pyval))
  : result (pyval * list byte) :=
  match fuel with
  | O => Raise expecting_value
  | S fuel' =>
      match l with
      | q :: l1 =>
          if q =? 34 then
            match scan_string l1 [] with
            | None => Raise (JSONDecodeError "Invalid string")
            | Some (k, r) =>
                match skip_ws r with
                | c :: r1 =>
                    if c =? 58 then
                      match scan_value fuel' depth (skip_ws r1) with
                      | Raise e => Raise e
                      | Ok (v, r2) =>
                          let acc' := dict_setitem (string_of_bytes k) v acc in
                          match skip_ws r2 with
                          | c' :: r3 =>
                              if c' =? 125 then Ok (VDict acc', r3)
                              else if c' =? 44 then scan_members fuel' depth (skip_ws r3) acc'
                              else Raise (JSONDecodeError "Expecting ',' delimiter")
                          | [] => Raise (JSONDecodeError "Expecting ',' delimiter")
                          end
                      end
                    else Raise (JSONDecodeError "Expecting ':' delimiter")
                | [] => Raise (JSONDecodeError "Expecting ':' delimiter")
                end
            end
          else Raise (JSONDecodeError "Expecting property name enclosed in double quotes")
      | [] => Raise (JSONDecodeError "Expecting property name enclosed in double quotes")
      end
  end.

(** [json.loads(s)] for a [str], where the recursion limit leaves room for
    [depth] nested arrays and objects. *)
Definition json_loads (depth : nat) (s : string) : result pyval :=
  let l := bytes_of s in
  match scan_value (2 * length l + 2) depth (skip_ws l) with
  | Raise e => Raise e
  | Ok (v, r) =>
      match skip_ws r with
      | [] => Ok v
      | _ => Raise (JSONDecodeError "Extra data")
      end
  end.

(** ** Collaborators

    Everything the four source files import from the rest of the
    application: authentication, logging, persistence, the statistics
    aggregator, the cache and active-request trackers, the credential
    manager class, the Vertex initialisation and the model cache.  Their
    code is not part of the files modelled here, so each is a field of the
    record below: a function of the state it may touch ([World] for what a
    collaborator keeps for itself, [CredentialPool] for the state of one
    [CredentialManager] object) that returns a value or raises.
    Collaborators read the two configuration namespaces they are handed;
    they assign none of the attributes of [app.config.settings] and none of
    the globals of the dashboard module. *)

Inductive log_level : Type := info | warning | error.

Abbreviation namespace := (gmap string pyval).

Record Collaborators : Type := {
  World : Type;
  CredentialPool : Type;
  CacheManager : Type;
  ActiveRequestsManager : Type;
  Time : Type;
  (* the interpreter: numerals outside ASCII, str() of a value that is not
     a str, and the nesting the recursion limit leaves to json.loads where
     the handlers call it (1000 frames by default, less those of the
     caller) *)
  json_nesting_limit : nat;
  int_nonascii : string -> option Z;
  float_nonascii : string -> option spec_float;
  format_value : pyval -> string;
  datetime_now : World -> Time;
  strftime_HMS : Time -> string;
  (* app.utils.auth, app.utils.logging, app.config.persistence *)
  verify_web_password : string -> World -> bool;
  custom_verify_password : pyval -> World -> result unit;
  log_sink : log_level -> string -> World -> World;
  vertex_log_manager_get_recent_logs : Z -> World -> result pyval * World;
  log_manager_get_recent_logs : Z -> World -> result pyval * World;
  save_settings : namespace -> World -> result unit * World;
  (* app.utils.stats.api_stats_manager *)
  maybe_cleanup : World -> result unit * World;
  stats_reset : World -> result unit * World;
  get_calls_last_24h : World -> result pyval * World;
  get_calls_last_hour : Time -> World -> result pyval * World;
  get_calls_last_minute : Time -> World -> result pyval * World;
  get_tokens_last_24h : World -> result pyval * World;
  get_tokens_last_hour : Time -> World -> result pyval * World;
  get_tokens_last_minute : Time -> World -> result pyval * World;
  get_time_series_data : Z -> Time -> World -> result (pyval * pyval) * World;
  (* the cache manager and the active-request tracker: each task of
     [active_requests] with what its [done()] answers *)
  clean_expired : CacheManager -> World -> result unit * World;
  cur_cache_num : CacheManager -> World -> result pyval * World;
  clean_completed : ActiveRequestsManager -> World -> result unit * World;
  active_requests : ActiveRequestsManager -> World -> result (list (string * bool)) * World;
  (* app.vertex.credentials_manager *)
  new_CredentialManager : World -> result CredentialPool * World;
  get_total_credentials : CredentialPool -> result Z;
  clear_json_string_credentials : CredentialPool -> result Z * CredentialPool;
  load_credentials_from_json_list : list pyval -> CredentialPool -> result Z * CredentialPool;
  add_credential_from_json : pyval -> CredentialPool -> result bool * CredentialPool;
  parse_multiple_json_credentials : string -> result (list pyval);
  (* app.vertex.vertex_ai_init, app.vertex.model_loader, app.vertex.config *)
  init_vertex_ai :
    namespace -> namespace -> CredentialPool -> World -> result bool * CredentialPool * World;
  reset_global_fallback_client : World -> result unit * World;
  refresh_models_config_cache : namespace -> namespace -> World -> result bool * World;
  vertex_update_config :
    string -> pyval -> namespace -> World -> result unit * namespace * World;
  (* app.vertex.routes: models_api.list_models, chat_api.chat_completions *)
  models_api_list_models :
    pyval -> namespace -> CredentialPool -> World -> result pyval * CredentialPool * World;
  chat_api_chat_completions :
    pyval -> pyval -> namespace -> CredentialPool -> World
    -> result pyval * CredentialPool * World;
}.

(** ** The process state and the handlers *)

Section App.

Variable E : Collaborators.

(** A reference to a [CredentialManager] object. *)
Definition loc := nat.

(** The mutable state of the process: the two configuration modules, the
    globals of [app.api.dashboard] (lines 28-30) and of [app.main] (line
    15), [app.state], the credential manager objects by reference, the
    collaborators' own state, and the calls made to [log]. *)
Record State : Type := mkState {
  settings : namespace;
  app_config : namespace;
  response_cache_manager : option (CacheManager E);
  active_requests_manager : option (ActiveRequestsManager E);
  credential_manager : option loc;
  main_credential_manager : option loc;
  app_state_credential_manager : option loc;
  heap : gmap loc (CredentialPool E);
  world : World E;
  logs : list (log_level * string);
}.

Definition set_settings (v : namespace) (st : State) : State :=
  mkState v (app_config st) (response_cache_manager st) (active_requests_manager st)
    (credential_manager st) (main_credential_manager st)
    (app_state_credential_manager st) (heap st) (world st) (logs st).

Definition set_app_config (v : namespace) (st : State) : State :=
  mkState (settings st) v (response_cache_manager st) (active_requests_manager st)
    (credential_manager st) (main_credential_manager st)
    (app_state_credential_manager st) (heap st) (world st) (logs st).

Definition set_dashboard_globals
    (c : option (CacheManager E)) (a : option (ActiveRequestsManager E))
    (cr : option loc) (st : State) : State :=
  mkState (settings st) (app_config st) c a cr (main_credential_manager st)
    (app_state_credential_manager st) (heap st) (world st) (logs st).

Definition set_main_credential_manager (v : option loc) (st : State) : State :=
  mkState (settings st) (app_config st) (response_cache_manager st)
    (active_requests_manager st) (credential_manager st) v
    (app_state_credential_manager st) (heap st) (world st) (logs st).

Definition set_app_state_credential_manager (v : option loc) (st : State) : State :=
  mkState (settings st) (app_config st) (response_cache_manager st)
    (active_requests_manager st) (credential_manager st) (main_credential_manager st)
    v (heap st) (world st) (logs st).

Definition set_heap (v : gmap loc (CredentialPool E)) (st : State) : State :=
  mkState (settings st) (app_config st) (response_cache_manager st)
    (active_requests_manager st) (credential_manager st) (main_credential_manager st)
    (app_state_credential_manager st) v (world st) (logs st).

Definition set_world (v : World E) (st : State) : State :=
  mkState (settings st) (app_config st) (response_cache_manager st)
    (active_requests_manager st) (credential_manager st) (main_credential_manager st)
    (app_state_credential_manager st) (heap st) v (logs st).

Definition set_logs (v : list (log_level * string)) (st : State) : State :=
  mkState (settings st) (app_config st) (response_cache_manager st)
    (active_requests_manager st) (credential_manager st) (main_credential_manager st)
    (app_state_credential_manager st) (heap st) (world st) v.

(** A computation of a handler: it changes the state and returns a value
    or raises; what it changed before raising stays changed. *)
Definition M (A : Type) : Type := State -> result A * State.

Definition ret {A : Type} (a : A) : M A := fun st => (Ok a, st).

Definition raise {A : Type} (e : exn) : M A := fun st => (Raise e, st).

Definition bind {A B : Type} (m : M A) (k : A -> M B) : M B :=
  fun st =>
    match m st with
    | (Ok a, st') => k a st'
    | (Raise e, st') => (Raise e, st')
    end.

(** [try: m  except Exception as e: h e]; a handler for one class re-raises
    the others. *)
Definition try_except {A : Type} (m : M A) (h : exn -> M A) : M A :=
  fun st =>
    match m st with
    | (Ok a, st') => (Ok a, st')
    | (Raise e, st') => h e st'
    end.

Definition lift {A : Type} (r : result A) : M A := fun st => (r, st).

Definition gets {A : Type} (f : State -> A) : M A := fun st => (Ok (f st), st).

Definition modify (f : State -> State) : M unit := fun st => (Ok tt, f st).

(** A call of a collaborator that acts on its own state. *)
Definition call {A : Type} (f : World E -> result A * World E) : M A :=
  fun st => let '(r, w) := f (world st) in (r, set_world w st).

End App.

Arguments mkState {E}.
Arguments settings {E} s.
Arguments app_config {E} s.
Arguments response_cache_manager {E} s.
Arguments active_requests_manager {E} s.
Arguments credential_manager {E} s.
Arguments main_credential_manager {E} s.
Arguments app_state_credential_manager {E} s.
Arguments heap {E} s.
Arguments world {E} s.
Arguments logs {E} s.
Arguments set_settings {E} v st.
Arguments set_app_config {E} v st.
Arguments set_dashboard_globals {E} c a cr st.
Arguments set_main_credential_manager {E} v st.
Arguments set_app_state_credential_manager {E} v st.
Arguments set_heap {E} v st.
Arguments set_world {E} v st.
Arguments set_logs {E} v st.
Arguments ret {E A} a.
Arguments raise {E A} e.
Arguments bind {E A B} m k.
Arguments try_except {E A} m h.
Arguments lift {E A} r.
Arguments gets {E A} f.
Arguments modify {E} f.
Arguments call {E A} f.

Notation "'let*' x ':=' m 'in' k" := (bind m (fun x => k))
  (at level 10, x name, m at level 100, k at level 200).
Notation "'let*' ' p ':=' m 'in' k" := (bind m (fun x => match x with p => k end))
  (at level 10, p pattern, m at level 100, k at level 200).
Notation "m >> k" := (bind m (fun _ => k))
  (at level 100, k at level 200, right associativity).

Section Dashboard.

Variable E : Collaborators.

(** [log(level, message)]: the call is recorded, and the logger does what
    it does to its own state.  An f-string is recorded by its text in the
    source, the braces left as they are. *)
Definition log (level : log_level) (message : string) : M E unit :=
  modify (fun st =>
    set_logs (logs st ++ [(level, message)])
      (set_world (log_sink E level message (world st)) st)).

(** [settings.NAME] and [settings.NAME = v] *)
Definition getattr_settings (name : string) : M E pyval :=
  let* s := gets settings in
  match s !! name with
  | Some v => ret v
  | None => raise (AttributeError name)
  end.

Definition setattr_settings (name : string) (v : pyval) : M E unit :=
  modify (fun st => set_settings (<[name := v]> (settings st)) st).

Definition setattr_app_config (name : string) (v : pyval) : M E unit :=
  modify (fun st => set_app_config (<[name := v]> (app_config st)) st).

(** A method of a credential manager object that may change the object,
    and one that only reads it. *)
Definition method {A : Type} (l : loc)
    (f : CredentialPool E -> result A * CredentialPool E) : M E A :=
  fun st =>
    match heap st !! l with
    | Some o => let '(r, o') := f o in (r, set_heap (<[l := o']> (heap st)) st)
    | None => (Raise (OtherError "ReferenceError" "no such object"), st)
    end.

Definition query {A : Type} (l : loc) (f : CredentialPool E -> result A) : M E A :=
  fun st =>
    match heap st !! l with
    | Some o => (f o, st)
    | None => (Raise (OtherError "ReferenceError" "no such object"), st)
    end.

(** [await init_vertex_ai(credential_manager=l)] *)
Definition call_init_vertex_ai (l : loc) : M E bool :=
  fun st =>
    match heap st !! l with
    | Some o =>
        let '(r, o', w) := init_vertex_ai E (settings st) (app_config st) o (world st) in
        (r, set_world w (set_heap (<[l := o']> (heap st)) st))
    | None => (Raise (OtherError "ReferenceError" "no such object"), st)
    end.

Definition do_save_settings : M E unit :=
  let* s := gets settings in call (save_settings E s).

Definition do_refresh_models_config_cache : M E bool :=
  let* s := gets settings in
  let* c := gets app_config in
  call (refresh_models_config_cache E s c).

(** [vertex_config.update_config(name, value)]; [vertex_config] and
    [app_config] are the same module. *)
Definition do_vertex_update_config (name : string) (value : pyval) : M E unit :=
  fun st =>
    let '(r, c, w) := vertex_update_config E name value (app_config st) (world st) in
    (r, set_world w (set_app_config c st)).

(** dashboard.py, lines 33-45; [key_mgr] is kept for old callers and is
    not used *)
Definition init_dashboard_router
    (cache_mgr : option (CacheManager E)) (active_req_mgr : option (ActiveRequestsManager E))
    (cred_mgr : option loc) (key_mgr : option loc) : M E unit :=
  modify (set_dashboard_globals cache_mgr active_req_mgr cred_mgr).

(** dashboard.py, lines 48-72 *)
Definition run_blocking_init_vertex : M E unit :=
  try_except
    (let* cm := gets credential_manager in
     let* success :=
       match cm with
       | None =>
           log warning "Credential Manager 不存在，将创建一个新的实例用于初始化" >>
           let* temp_credential_manager := call (new_CredentialManager E) in
           let* credentials_count := lift (get_total_credentials E temp_credential_manager) in
           log info "临时 Credential Manager 已创建，包含 {credentials_count} 个凭证" >>
           let* s := gets settings in
           let* c := gets app_config in
           call (fun w =>
                   let '(r, _, w') := init_vertex_ai E s c temp_credential_manager w in
                   (r, w'))
       | Some l =>
           let* credentials_count := query l (get_total_credentials E) in
           log info "使用现有 Credential Manager 进行初始化，当前有 {credentials_count} 个凭证" >>
           call_init_vertex_ai l
       end in
     if (success : bool)
     then log info "异步重新执行 init_vertex_ai 成功，以响应 Google Credentials JSON 的更新。"
     else log warning "异步重新执行 init_vertex_ai 失败或未完成。")
    (fun e => log error "执行 run_blocking_init_vertex 时出错: {e}").

(** An attribute of a global that holds [None]. *)
Definition none_has_no (attr : string) : exn :=
  AttributeError ("'NoneType' object has no attribute '" ++ attr ++ "'").

Definition the_cache_manager (attr : string) : M E (CacheManager E) :=
  let* g := gets response_cache_manager in
  match g with Some c => ret c | None => raise (none_has_no attr) end.

Definition the_active_manager (attr : string) : M E (ActiveRequestsManager E) :=
  let* g := gets active_requests_manager in
  match g with Some a => ret a | None => raise (none_has_no attr) end.

(** A dict display: the values are computed in the order written. *)
Fixpoint dict_display (items : list (string * M E pyval)) : M E (list (string * pyval)) :=
  match items with
  | [] => ret []
  | (k, m) :: rest =>
      let* v := m in
      let* d := dict_display rest in
      ret ((k, v) :: d)
  end.

(** dashboard.py, lines 75-164: [GET /api/dashboard-data] *)
Definition get_dashboard_data : M E pyval :=
  call (maybe_cleanup E) >>
  (let* c := the_cache_manager "clean_expired" in call (clean_expired E c)) >>
  (let* a := the_active_manager "clean_completed" in call (clean_completed E a)) >>
  let* now := gets (fun st => datetime_now E (world st)) in
  let* last_24h_calls := call (get_calls_last_24h E) in
  let* hourly_calls := call (get_calls_last_hour E now) in
  let* minute_calls := call (get_calls_last_minute E now) in
  let* last_24h_tokens := call (get_tokens_last_24h E) in
  let* hourly_tokens := call (get_tokens_last_hour E now) in
  let* minute_tokens := call (get_tokens_last_minute E now) in
  let* '(time_series_data, tokens_time_series) := call (get_time_series_data E 30 now) in
  let* enable_vertex := getattr_settings "ENABLE_VERTEX" in
  let* recent_logs :=
    if truthy enable_vertex
    then call (vertex_log_manager_get_recent_logs E 500)
    else call (log_manager_get_recent_logs E 500) in
  let* total_cache :=
    (let* c := the_cache_manager "cur_cache_num" in call (cur_cache_num E c)) in
  let* active_count :=
    (let* a := the_active_manager "active_requests" in
     let* tasks := call (active_requests E a) in
     ret (Z.of_nat (length tasks))) in
  let* active_done :=
    (let* a := the_active_manager "active_requests" in
     let* tasks := call (active_requests E a) in
     ret (Z.of_nat (length (List.filter (fun t => snd t) tasks)))) in
  let active_pending := active_count - active_done in
  let* cm := gets credential_manager in
  let* credentials_count :=
    match cm with
    | Some l => query l (get_total_credentials E)
    | None => ret 0
    end in
  let version_item (k : string) : M E pyval :=
    let* v := getattr_settings "version" in lift (py_getitem v k) in
  let search_item (k : string) : M E pyval :=
    let* v := getattr_settings "search" in lift (py_getitem v k) in
  let truth_of (name : string) : M E pyval :=
    let* v := getattr_settings name in ret (VBool (truthy v)) in
  let* d := dict_display
    [ ("key_count", ret (VInt 0));
      ("model_count", ret (VInt 0));
      ("available_models", ret (VList []));
      ("api_key_stats", ret (VDict []));
      ("credentials_count", ret (VInt credentials_count));
      ("retry_count", getattr_settings "MAX_RETRY_NUM");
      ("last_24h_calls", ret last_24h_calls);
      ("hourly_calls", ret hourly_calls);
      ("minute_calls", ret minute_calls);
      ("last_24h_tokens", ret last_24h_tokens);
      ("hourly_tokens", ret hourly_tokens);
      ("minute_tokens", ret minute_tokens);
      ("calls_time_series", ret time_series_data);
      ("tokens_time_series", ret tokens_time_series);
      ("current_time",
        gets (fun st => VStr (strftime_HMS E (datetime_now E (world st)))));
      ("logs", ret recent_logs);
      ("max_requests_per_minute", getattr_settings "MAX_REQUESTS_PER_MINUTE");
      ("max_requests_per_day_per_ip", getattr_settings "MAX_REQUESTS_PER_DAY_PER_IP");
      ("local_version", version_item "local_version");
      ("remote_version", version_item "remote_version");
      ("has_update", version_item "has_update");
      ("fake_streaming", getattr_settings "FAKE_STREAMING");
      ("fake_streaming_interval", getattr_settings "FAKE_STREAMING_INTERVAL");
      ("random_string", getattr_settings "RANDOM_STRING");
      ("random_string_length", getattr_settings "RANDOM_STRING_LENGTH");
      ("search_mode", search_item "search_mode");
      ("search_prompt", search_item "search_prompt");
      ("cache_entries", ret total_cache);
      ("cache_expiry_time", getattr_settings "CACHE_EXPIRY_TIME");
      ("max_cache_entries", getattr_settings "MAX_CACHE_ENTRIES");
      ("active_count", ret (VInt active_count));
      ("active_done", ret (VInt active_done));
      ("active_pending", ret (VInt active_pending));
      ("concurrent_requests", getattr_settings "CONCURRENT_REQUESTS");
      ("increase_concurrent_on_failure",
        getattr_settings "INCREASE_CONCURRENT_ON_FAILURE");
      ("max_concurrent_requests", getattr_settings "MAX_CONCURRENT_REQUESTS");
      ("enable_vertex", getattr_settings "ENABLE_VERTEX");
      ("enable_vertex_express", getattr_settings "ENABLE_VERTEX_EXPRESS");
      ("vertex_express_api_key", truth_of "VERTEX_EXPRESS_API_KEY");
      ("google_credentials_json", truth_of "GOOGLE_CREDENTIALS_JSON");
      ("max_retry_num", getattr_settings "MAX_RETRY_NUM");
      ("max_empty_responses", getattr_settings "MAX_EMPTY_RESPONSES") ] in
  ret (VDict d).

(** The first lines of both POST handlers (lines 171-180 and 194-203): the
    body is a JSON object, and its password is there, a string, and the
    right one.  Returns the items of the body.  (The parameter is
    annotated [dict], so the framework refuses a body that is no object
    with a 422 of its own before the handler runs; the model has the
    handler's guard for it.) *)
Definition check_password (data : pyval) : M E (list (string * pyval)) :=
  match data with
  | VDict d =>
      let password := dict_get "password" d in
      if negb (truthy password) then raise (HTTPException 400 "缺少密码参数")
      else
        match password with
        | VStr pw =>
            let* ok := gets (fun st => verify_web_password E pw (world st)) in
            if negb ok then raise (HTTPException 401 "密码错误") else ret d
        | _ => raise (HTTPException 422 "密码参数类型错误：应为字符串")
        end
  | _ => raise (HTTPException 422 "请求体格式错误：应为 JSON 对象")
  end.

(** [except HTTPException: raise] then
    [except Exception as e: raise HTTPException(500, prefix + str(e))] *)
Definition reraise_or_500 {A : Type} (prefix : string) (e : exn) : M E A :=
  if is_HTTPException e then raise e
  else raise (HTTPException 500 (prefix ++ exn_str e)).

Definition success (message : string) : pyval :=
  VDict [("status", VStr "success"); ("message", VStr message)].

(** dashboard.py, lines 167-187: [POST /api/reset-stats] *)
Definition reset_stats (password_data : pyval) : M E pyval :=
  try_except
    (check_password password_data >>
     call (stats_reset E) >>
     ret (success "API 调用统计数据已重置"))
    (reraise_or_500 "重置失败：").

(** [isinstance(v, bool)] and [str(v)] *)
Definition is_bool (v : pyval) : bool :=
  match v with VBool _ => true | _ => false end.

Definition py_str (v : pyval) : string :=
  match v with VStr s => s | _ => format_value E v end.

(** [not s or s.lower() == "true"] for a string [s] *)
Definition is_sentinel (s : string) : bool :=
  negb (truthy (VStr s)) || String.eqb (py_lower s) "true".

(** The branch of an integer key (lines 212-220 and seven more of the same
    shape): the attribute, whether the bound is [> 0] or [>= 0], the text
    of the [ValueError], the text logged. *)
Definition update_int_setting (attr : string) (positive : bool)
    (bound_msg log_msg : string) (config_value : pyval) : M E unit :=
  try_except
    (let* value := lift (py_int (int_nonascii E) config_value) in
     if (if positive then value <=? 0 else value <? 0)
     then raise (ValueError bound_msg)
     else
       setattr_settings attr (VInt value) >>
       log info log_msg)
    (fun e =>
       if is_ValueError e
       then raise (HTTPException 422 ("参数类型错误：" ++ exn_str e))
       else raise e).

(** The branch of a boolean key that has no side effect (lines 247-251,
    294-298, 353-357). *)
Definition update_bool_setting (attr : string) (log_msg : string)
    (config_value : pyval) : M E unit :=
  if negb (is_bool config_value)
  then raise (HTTPException 422 "参数类型错误：应为布尔值")
  else
    setattr_settings attr config_value >>
    log info log_msg.

(** [settings.search[k] = v] *)
Definition set_search_item (k : string) (v : pyval) : M E unit :=
  let* d := getattr_settings "search" in
  let* d' := lift (py_setitem d k v) in
  setattr_settings "search" d'.

(** lines 232-245 *)
Definition update_fake_streaming (config_value : pyval) : M E unit :=
  if negb (is_bool config_value)
  then raise (HTTPException 422 "参数类型错误：应为布尔值")
  else
    setattr_settings "FAKE_STREAMING" config_value >>
    log info "假流式请求已更新为：{config_value}" >>
    try_except
      (setattr_app_config "FAKE_STREAMING_ENABLED" config_value >>
       do_vertex_update_config "FAKE_STREAMING" config_value >>
       log info "已同步更新 Vertex 中的假流式设置为：{config_value}")
      (fun e => log warning "更新 Vertex 假流式设置时出错: {str(e)}").

(** lines 253-275 *)
Definition update_vertex_express_api_key (config_value : pyval) : M E unit :=
  match config_value with
  | VStr s =>
      if is_sentinel s
      then log info "Vertex Express API Key 未更新，因为值为空或为 'true'"
      else
        setattr_settings "VERTEX_EXPRESS_API_KEY" config_value >>
        setattr_app_config "VERTEX_EXPRESS_API_KEY_VAL"
          (VList (map VStr
                    (List.filter (fun k => truthy (VStr k))
                       (map py_strip (py_split_comma s))))) >>
        log info "Vertex Express API Key 已更新，共 {len(app_config.VERTEX_EXPRESS_API_KEY_VAL)} 个有效密钥" >>
        try_except
          (let* refresh_success := do_refresh_models_config_cache in
           if (refresh_success : bool)
           then log info "更新 Express API Key 后成功刷新模型配置"
           else log warning "更新 Express API Key 后刷新模型配置失败，将使用默认模型或现有缓存")
          (fun e => log warning "尝试刷新模型配置时出错: {str(e)}")
  | _ => raise (HTTPException 422 "参数类型错误：应为字符串")
  end.

(** lines 277-292 *)
Definition update_fake_streaming_interval (config_value : pyval) : M E unit :=
  try_except
    (let* value := lift (py_float (float_nonascii E) config_value) in
     if float_le_zero value
     then raise (ValueError "假流式间隔必须大于0")
     else
       setattr_settings "FAKE_STREAMING_INTERVAL" (VFloat value) >>
       log info "假流式间隔已更新为：{value}" >>
       try_except
         (do_vertex_update_config "FAKE_STREAMING_INTERVAL" (VFloat value) >>
          log info "已同步更新 Vertex 中的假流式间隔设置为：{value}")
         (fun e => log warning "更新 Vertex 假流式间隔设置时出错: {str(e)}"))
    (fun e =>
       if is_ValueError e
       then raise (HTTPException 422 ("参数类型错误：" ++ exn_str e))
       else raise e).

(** lines 368-383: the format check of a credential blob *)
Definition precheck_credentials_json (s : string) : M E unit :=
  try_except
    (let* temp_parsed := lift (parse_multiple_json_credentials E s) in
     if negb (truthy (VList temp_parsed))
     then
       try_except
         (lift (json_loads (json_nesting_limit E) s) >> ret tt)
         (fun e =>
            if is_JSONDecodeError e
            then raise (HTTPException 422
                   "Google Credentials JSON 格式无效。它既不是有效的单个 JSON 对象，也不是逗号分隔的多个 JSON 对象。")
            else raise e)
     else ret tt)
    (fun e =>
       if is_HTTPException e then raise e
       else raise (HTTPException 422 ("Google Credentials JSON 预检查失败: " ++ exn_str e))).

(** lines 390-419: the reload of the credential manager's entries *)
Definition reload_credentials (s : string) : M E unit :=
  let* cm := gets credential_manager in
  match cm with
  | Some l =>
      let* cleared_count := method l (clear_json_string_credentials E) in
      log info "从 CredentialManager 中清除了 {cleared_count} 个先前由 JSON 字符串加载的凭据。" >>
      (if truthy (VStr s) then
         let* parsed_json_objects := lift (parse_multiple_json_credentials E s) in
         if truthy (VList parsed_json_objects) then
           let* loaded_count :=
             method l (load_credentials_from_json_list E parsed_json_objects) in
           if 0 <? loaded_count
           then log info "从更新的 Google Credentials JSON 中加载了 {loaded_count} 个凭据到 CredentialManager。"
           else log warning "尝试加载 Google Credentials JSON 凭据失败，没有凭据被成功加载。"
         else
           try_except
             (let* single_cred := lift (json_loads (json_nesting_limit E) s) in
              let* added := method l (add_credential_from_json E single_cred) in
              if (added : bool)
              then log info "作为单个 JSON 对象成功加载了一个凭据。"
              else log warning "作为单个 JSON 对象加载凭据失败。")
             (fun e =>
                if is_JSONDecodeError e
                then log warning "Google Credentials JSON 无法作为 JSON 对象解析。"
                else log warning "尝试加载单个 JSON 凭据时出错: {str(e)}")
       else
         log info "Google Credentials JSON 已被清空。CredentialManager 中来自 JSON 字符串的凭据已被移除。") >>
      let* total := query l (get_total_credentials E) in
      if total =? 0
      then log warning "警告：当前没有可用的凭证。Vertex AI 功能可能无法正常工作。"
      else ret tt
  | None => log warning "CredentialManager 未初始化，无法加载 Google Credentials JSON。"
  end.

(** lines 424-427: the line of log that announces the re-initialisation *)
Definition announce_reinit : M E unit :=
  let* cm := gets credential_manager in
  match cm with
  | None => log warning "重新初始化 Vertex AI 时发现 credential_manager 为 None"
  | Some l =>
      let* total := query l (get_total_credentials E) in
      log info "开始重新初始化 Vertex AI，当前凭证数: {credential_manager.get_total_credentials()}"
  end.

(** lines 423-438: re-initialisation and model cache refresh *)
Definition reinitialize_vertex : M E unit :=
  try_except
    (announce_reinit >>
     run_blocking_init_vertex >>
     log info "Vertex AI 服务重新初始化完成" >>
     let* refresh_success := do_refresh_models_config_cache in
     if (refresh_success : bool)
     then log info "成功刷新模型配置缓存"
     else log warning "刷新模型配置缓存失败，将使用默认模型或现有缓存")
    (fun e => log error "重新初始化 Vertex AI 服务时出错: {str(e)}").

(** lines 359-438; [Some] response when the branch returns by itself *)
Definition update_google_credentials_json (config_key config_value : pyval)
  : M E (option pyval) :=
  match config_value with
  | VStr s =>
      if is_sentinel s then
        log info "Google Credentials JSON 未更新，因为值为空或为 'true'" >>
        do_save_settings >>
        ret (Some (success ("配置项 " ++ py_str config_key ++ " 未更新，值为空或为 'true'")))
      else
        (if truthy config_value then precheck_credentials_json s else ret tt) >>
        setattr_settings "GOOGLE_CREDENTIALS_JSON" config_value >>
        log info "Google Credentials JSON 设置已更新（内容未记录）。" >>
        call (reset_global_fallback_client E) >>
        reload_credentials s >>
        do_save_settings >>
        reinitialize_vertex >>
        ret None
  | _ => raise (HTTPException 422 "参数类型错误：Google Credentials JSON 应为字符串")
  end.

(** lines 211-461: the chain of [if]/[elif] over the key *)
Definition apply_config (config_key config_value : pyval) : M E (option pyval) :=
  if py_eq_str config_key "max_requests_per_minute" then
    update_int_setting "MAX_REQUESTS_PER_MINUTE" true
      "每分钟请求限制必须大于0" "每分钟请求限制已更新为：{value}" config_value >>
    ret None
  else if py_eq_str config_key "max_requests_per_day_per_ip" then
    update_int_setting "MAX_REQUESTS_PER_DAY_PER_IP" true
      "每IP每日请求限制必须大于0" "每IP每日请求限制已更新为：{value}" config_value >>
    ret None
  else if py_eq_str config_key "fake_streaming" then
    update_fake_streaming config_value >> ret None
  else if py_eq_str config_key "enable_vertex_express" then
    update_bool_setting "ENABLE_VERTEX_EXPRESS"
      "Vertex Express 已更新为：{config_value}" config_value >>
    ret None
  else if py_eq_str config_key "vertex_express_api_key" then
    update_vertex_express_api_key config_value >> ret None
  else if py_eq_str config_key "fake_streaming_interval" then
    update_fake_streaming_interval config_value >> ret None
  else if py_eq_str config_key "random_string" then
    update_bool_setting "RANDOM_STRING" "随机字符串已更新为：{config_value}" config_value >>
    ret None
  else if py_eq_str config_key "random_string_length" then
    update_int_setting "RANDOM_STRING_LENGTH" true
      "随机字符串长度必须大于0" "随机字符串长度已更新为：{value}" config_value >>
    ret None
  else if py_eq_str config_key "search_mode" then
    (if negb (is_bool config_value)
     then raise (HTTPException 422 "参数类型错误：应为布尔值")
     else
       set_search_item "search_mode" config_value >>
       log info "联网搜索模式已更新为：{config_value}") >>
    ret None
  else if py_eq_str config_key "search_prompt" then
    (match config_value with
     | VStr _ =>
         set_search_item "search_prompt" config_value >>
         log info "联网搜索提示已更新为：{config_value}"
     | _ => raise (HTTPException 422 "参数类型错误：应为字符串")
     end) >>
    ret None
  else if py_eq_str config_key "concurrent_requests" then
    update_int_setting "CONCURRENT_REQUESTS" true
      "并发请求数必须大于0" "并发请求数已更新为：{value}" config_value >>
    ret None
  else if py_eq_str config_key "increase_concurrent_on_failure" then
    update_int_setting "INCREASE_CONCURRENT_ON_FAILURE" false
      "失败时增加的并发数不能为负数" "失败时增加的并发数已更新为：{value}" config_value >>
    ret None
  else if py_eq_str config_key "max_concurrent_requests" then
    update_int_setting "MAX_CONCURRENT_REQUESTS" true
      "最大并发请求数必须大于0" "最大并发请求数已更新为：{value}" config_value >>
    ret None
  else if py_eq_str config_key "enable_vertex" then
    update_bool_setting "ENABLE_VERTEX" "Vertex AI 已更新为：{config_value}" config_value >>
    ret None
  else if py_eq_str config_key "google_credentials_json" then
    update_google_credentials_json config_key config_value
  else if py_eq_str config_key "max_retry_num" then
    update_int_setting "MAX_RETRY_NUM" true
      "最大重试次数必须大于0" "最大重试次数已更新为：{value}" config_value >>
    ret None
  else if py_eq_str config_key "max_empty_responses" then
    update_int_setting "MAX_EMPTY_RESPONSES" false
      "空响应重试次数不能为负数" "空响应重试次数已更新为：{value}" config_value >>
    ret None
  else
    raise (HTTPException 400 ("不支持的配置项：" ++ py_str config_key)).

(** dashboard.py, lines 190-469: [POST /api/update-config] *)
Definition update_config (config_data : pyval) : M E pyval :=
  try_except
    (let* d := check_password config_data in
     let config_key := dict_get "key" d in
     let config_value := dict_get "value" d in
     if negb (truthy config_key)
     then raise (HTTPException 400 "缺少配置项键名")
     else
       let* returned := apply_config config_key config_value in
       match returned with
       | Some response => ret response
       | None =>
           do_save_settings >>
           ret (success ("配置项 " ++ py_str config_key ++ " 已更新"))
       end)
    (reraise_or_500 "更新失败：").

(** ** app/main.py: the startup sequence (lines 17-50) *)

(** A reference no object has yet. *)
Definition fresh_loc (h : gmap loc (CredentialPool E)) : loc := fresh (dom h).

(** lines 20-48 of [lifespan], up to the [yield] *)
Definition lifespan_startup : M E unit :=
  log info "正在初始化 Vertex AI..." >>
  let* pool := call (new_CredentialManager E) in
  let* l := gets (fun st => fresh_loc (heap st)) in
  modify (fun st => set_main_credential_manager (Some l)
                      (set_heap (<[l := pool]> (heap st)) st)) >>
  let* blob := getattr_settings "GOOGLE_CREDENTIALS_JSON" in
  (if truthy blob then
     try_except
       (let* creds :=
          match blob with
          | VStr s => lift (json_loads (json_nesting_limit E) s)
          | _ => raise (TypeError ("the JSON object must be str, bytes or bytearray, not "
                                   ++ type_name blob))
          end in
        method l (add_credential_from_json E creds) >>
        log info "已从环境变量加载 Google Credentials")
       (fun e => log error "加载 Google Credentials 失败: {e}")
   else ret tt) >>
  let* success := call_init_vertex_ai l in
  (if (success : bool)
   then log info "Vertex AI 初始化成功"
   else log warning "Vertex AI 初始化失败，部分功能可能不可用") >>
  modify (set_app_state_credential_manager (Some l)) >>
  init_dashboard_router None None None (Some l).

(** ** app/api/routes.py *)

(** What a handler reads of the HTTP request: the [User-Agent] header, if
    any, and the rest, which only the collaborators look at. *)
Record HttpRequest : Type := {
  user_agent : option string;
  raw_request : pyval;
}.

Fixpoint is_prefix (p l : list byte) : bool :=
  match p, l with
  | [], _ => true
  | x :: p', y :: l' => (x =? y) && is_prefix p' l'
  | _ :: _, [] => false
  end.

Fixpoint is_infix (p l : list byte) : bool :=
  is_prefix p l || match l with [] => false | _ :: l' => is_infix p l' end.

(** [ua in whitelist] for the header value [ua] ([None] when the header is
    missing): an element of a list, a substring of a string, a key of a
    dict; other values are not containers. *)
Definition ua_in (ua : option string) (whitelist : pyval) : result bool :=
  match whitelist with
  | VList l =>
      Ok (existsb (fun y =>
                     match ua, y with
                     | Some a, VStr b => String.eqb a b
                     | None, VNone => true
                     | _, _ => false
                     end) l)
  | VStr w =>
      match ua with
      | Some a => Ok (is_infix (bytes_of a) (bytes_of w))
      | None => Raise (TypeError "'in <string>' requires string as left operand, not NoneType")
      end
  | VDict d =>
      Ok (existsb (fun kv => match ua with
                             | Some a => String.eqb a (fst kv)
                             | None => false
                             end) d)
  | _ => Raise (TypeError "argument is not iterable")
  end.

(** routes.py, lines 15-23 *)
Definition verify_user_agent (request : HttpRequest) : M E unit :=
  let* whitelist := getattr_settings "WHITELIST_USER_AGENT" in
  if negb (truthy whitelist) then ret tt
  else
    let* found := lift (ua_in (user_agent request) whitelist) in
    if negb found
    then raise (HTTPException 403 "Not allowed client")
    else ret tt.

(** The two dependencies of the model and chat routes, in the order of
    the parameters. *)
Definition route_dependencies (request : HttpRequest) : M E unit :=
  (let* w := gets world in lift (custom_verify_password E (raw_request request) w)) >>
  verify_user_agent request.

(** [request.app.state.credential_manager] *)
Definition app_state_pool : M E loc :=
  let* r := gets app_state_credential_manager in
  match r with
  | Some l => ret l
  | None => raise (AttributeError "'State' object has no attribute 'credential_manager'")
  end.

(** A collaborator that is handed the settings and the credential manager
    of [app.state]. *)
Definition call_with_pool {A : Type}
    (f : namespace -> CredentialPool E -> World E -> result A * CredentialPool E * World E)
    (l : loc) : M E A :=
  fun st =>
    match heap st !! l with
    | Some o =>
        let '(r, o', w) := f (settings st) o (world st) in
        (r, set_world w (set_heap (<[l := o']> (heap st)) st))
    | None => (Raise (OtherError "ReferenceError" "no such object"), st)
    end.

(** routes.py, lines 25-40: [GET /v1/models] *)
Definition list_models (request : HttpRequest) : M E pyval :=
  route_dependencies request >>
  let* l := app_state_pool in
  let* enable_vertex := getattr_settings "ENABLE_VERTEX" in
  if truthy enable_vertex
  then call_with_pool (models_api_list_models E (raw_request request)) l
  else ret (VDict [("data", VList [])]).

Definition get_or (k : string) (default : pyval) (v : pyval) : result pyval :=
  match v with
  | VDict d => Ok (if existsb (fun kv => String.eqb (fst kv) k) d
                   then dict_get k d else default)
  | _ => Raise (AttributeError "object has no attribute 'get'")
  end.

Fixpoint openai_messages (messages : list pyval) : result (list pyval) :=
  match messages with
  | [] => Ok []
  | message :: rest =>
      match get_or "role" (VStr "") message, get_or "content" (VStr "") message with
      | Ok role, Ok content =>
          match openai_messages rest with
          | Ok l => Ok (VDict [("role", role); ("content", content)] :: l)
          | Raise e => Raise e
          end
      | Raise e, _ => Raise e
      | _, Raise e => Raise e
      end
  end.

(** routes.py, lines 42-86: [POST /v1/chat/completions]; [body] is the
    validated request model, by its fields. *)
Definition chat_completions (body : list (string * pyval)) (http_request : HttpRequest)
  : M E pyval :=
  route_dependencies http_request >>
  let* msgs :=
    match dict_get "messages" body with
    | VList l => lift (openai_messages l)
    | _ => raise (TypeError "object is not iterable")
    end in
  let field (k : string) := (k, dict_get k body) in
  let vertex_request :=
    VDict [ field "model"; ("messages", VList msgs); field "temperature";
            field "max_tokens"; field "top_p"; field "top_k"; field "stream";
            field "stop"; field "presence_penalty"; field "frequency_penalty";
            field "seed"; field "n" ] in
  let* l := app_state_pool in
  call_with_pool (chat_api_chat_completions E (raw_request http_request) vertex_request) l.

(** routes.py, lines 88-91, and main.py, lines 76-78 *)
Definition health_check : M E pyval :=
  ret (VDict [("status", VStr "healthy"); ("mode", VStr "vertex_only")]).

Definition root : M E pyval :=
  ret (VDict [("message", VStr "Vertex AI 中转服务运行中"); ("mode", VStr "vertex_only")]).

(** ** The server *)

Inductive request : Type :=
| GET_dashboard_data
| POST_reset_stats (password_data : pyval)
| POST_update_config (config_data : pyval)
| GET_models (http_request : HttpRequest)
| POST_chat_completions (body : list (string * pyval)) (http_request : HttpRequest)
| GET_health
| GET_root.

Definition handler (r : request) : M E pyval :=
  match r with
  | GET_dashboard_data => get_dashboard_data
  | POST_reset_stats d => reset_stats d
  | POST_update_config d => update_config d
  | GET_models q => list_models q
  | POST_chat_completions b q => chat_completions b q
  | GET_health => health_check
  | GET_root => root
  end.

(** What the framework answers: the returned body with status 200, the
    status and detail of an [HTTPException], and 500 for any other
    exception that leaves the handler.  The returned body is rendered by
    [json.dumps(..., allow_nan=False)], which raises [ValueError] on a NaN
    or an infinity at any depth: such a body is answered by 500 too. *)
Record response : Type := {
  status : Z;
  body : pyval;
}.

Definition internal_server_error : response :=
  {| status := 500; body := VStr "Internal Server Error" |}.

Definition float_is_finite (f : spec_float) : bool :=
  match f with
  | S754_nan | S754_infinity _ => false
  | S754_zero _ | S754_finite _ _ _ => true
  end.

Fixpoint json_compliant (v : pyval) : bool :=
  match v with
  | VFloat f => float_is_finite f
  | VList l => forallb json_compliant l
  | VDict d => forallb (fun kv => json_compliant (snd kv)) d
  | VNone | VBool _ | VInt _ | VStr _ => true
  end.

Definition respond (r : result pyval) : response :=
  match r with
  | Ok b => if json_compliant b then {| status := 200; body := b |}
            else internal_server_error
  | Raise (HTTPException c d) => {| status := c; body := VDict [("detail", VStr d)] |}
  | Raise _ => internal_server_error
  end.

Definition serve (r : request) (st : State E) : response * State E :=
  let '(res, st') := handler r st in (respond res, st').

(** The state after a sequence of requests. *)
Fixpoint serve_all (rs : list request) (st : State E) : State E :=
  match rs with
  | [] => st
  | r :: rs' => serve_all rs' (snd (serve r st))
  end.

End Dashboard.


(** ** The credential pool of the specification

    [app/vertex/credentials_manager.py] is not among the source files. *)

Module Pool.

Inductive provenance : Type := EnvironmentBlob | OtherSource.

Record CredentialEntry : Type := {
  payload : pyval;
  source : provenance;
}.

Definition from_environment (c : CredentialEntry) : bool :=
  match source c with EnvironmentBlob => true | OtherSource => false end.

(** Modelled from the spec: the CredentialPool of section 4.2, whose class
    [CredentialManager] is missing from the sources.  It "holds credential
    entries tagged by provenance"; [clear_provenance(EnvironmentBlob)]
    "removes environment-sourced entries without adding replacements" and
    tells how many they were. *)
Definition clear_provenance (p : list CredentialEntry) : Z * list CredentialEntry :=
  (Z.of_nat (length (List.filter from_environment p)),
   List.filter (fun c => negb (from_environment c)) p).

(** Modelled from the spec: a payload is an "opaque service-account
    descriptor" (section 3), missing from the sources; here, any JSON
    object. *)
Definition is_descriptor (v : pyval) : bool :=
  match v with VDict _ => true | _ => false end.

(** Modelled from the spec: the loading half of [reload_from_blob] (section
    4.2), missing from the sources: "add the newly parsed entries tagged
    EnvironmentBlob", and return how many were loaded. *)
Definition load_entries (objs : list pyval) (p : list CredentialEntry)
  : Z * list CredentialEntry :=
  let new := List.filter is_descriptor objs in
  (Z.of_nat (length new),
   (p ++ map (fun o => {| payload := o; source := EnvironmentBlob |}) new)%list).

(** Modelled from the spec: [total_count()] of section 4.2, missing from
    the sources. *)
Definition total_count (p : list CredentialEntry) : Z := Z.of_nat (length p).

(** The fragments of a text between braces at depth zero. *)
Fixpoint top_level_objects (l : list byte) (depth : nat) (cur : list byte)
  : list (list byte) :=
  match l with
  | [] => []
  | c :: l' =>
      if c =? 123 then top_level_objects l' (S depth) (c :: cur)
      else if c =? 125 then
        match depth with
        | O => top_level_objects l' O []
        | S O => rev (c :: cur) :: top_level_objects l' O []
        | S d => top_level_objects l' d (c :: cur)
        end
      else
        match depth with
        | O => top_level_objects l' O []
        | S _ => top_level_objects l' depth (c :: cur)
        end
  end.

(** Modelled from the spec: the parser of section 4.2 for "a
    comma-separated list of JSON objects (split-then-parse, each fragment
    independently validated as JSON)", whose function
    [parse_multiple_json_credentials] is missing from the sources.  The
    fragments that are JSON objects are kept. *)
Definition parse_objects (depth : nat) (s : string) : list pyval :=
  List.filter is_descriptor
    (omap (fun frag => match json_loads depth (string_of_bytes frag) with
                       | Ok v => Some v
                       | Raise _ => None
                       end)
          (top_level_objects (bytes_of s) O [])).

End Pool.

(** ** A concrete set of collaborators

    Small stand-ins with the shape of the real ones, to run the handlers
    on: a password, the last snapshot persisted, a fallback client that is
    published or not, and two switches that make the Vertex initialisation
    and the model cache refresh fail ([unreachable] makes them fail in
    every state). *)

Module Ref.

Record RefWorld : Type := {
  web_password : string;
  persisted : option namespace;
  fallback_client : bool;
  vertex_down : bool;
  model_cache_down : bool;
  ring : list string;
}.

Definition with_persisted (s : namespace) (w : RefWorld) : RefWorld :=
  {| web_password := web_password w; persisted := Some s;
     fallback_client := fallback_client w; vertex_down := vertex_down w;
     model_cache_down := model_cache_down w; ring := ring w |}.

Definition with_fallback_client (b : bool) (w : RefWorld) : RefWorld :=
  {| web_password := web_password w; persisted := persisted w;
     fallback_client := b; vertex_down := vertex_down w;
     model_cache_down := model_cache_down w; ring := ring w |}.

Definition with_ring (r : list string) (w : RefWorld) : RefWorld :=
  {| web_password := web_password w; persisted := persisted w;
     fallback_client := fallback_client w; vertex_down := vertex_down w;
     model_cache_down := model_cache_down w; ring := r |}.

(** The nesting left to [json.loads]: the default limit of 1000 frames,
    less a hundred for the server's own calls. *)
Definition nesting_limit : nat := 900.

Definition make (unreachable : bool) : Collaborators := {|
  World := RefWorld;
  CredentialPool := list Pool.CredentialEntry;
  CacheManager := unit;
  ActiveRequestsManager := unit;
  Time := Z;
  json_nesting_limit := nesting_limit;
  int_nonascii := fun _ => None;
  float_nonascii := fun _ => None;
  format_value := fun _ => "<value>";
  datetime_now := fun _ => 0;
  strftime_HMS := fun _ => "00:00:00";
  verify_web_password := fun pw w => String.eqb pw (web_password w);
  custom_verify_password := fun _ _ => Ok tt;
  log_sink := fun _ msg w => with_ring (msg :: ring w) w;
  vertex_log_manager_get_recent_logs :=
    fun n w => (Ok (VList (map VStr (firstn (Z.to_nat n) (ring w)))), w);
  log_manager_get_recent_logs :=
    fun n w => (Ok (VList (map VStr (firstn (Z.to_nat n) (ring w)))), w);
  save_settings := fun s w => (Ok tt, with_persisted s w);
  maybe_cleanup := fun w => (Ok tt, w);
  stats_reset := fun w => (Ok tt, w);
  get_calls_last_24h := fun w => (Ok (VInt 0), w);
  get_calls_last_hour := fun _ w => (Ok (VInt 0), w);
  get_calls_last_minute := fun _ w => (Ok (VInt 0), w);
  get_tokens_last_24h := fun w => (Ok (VInt 0), w);
  get_tokens_last_hour := fun _ w => (Ok (VInt 0), w);
  get_tokens_last_minute := fun _ w => (Ok (VInt 0), w);
  get_time_series_data :=
    fun n _ w => (Ok (VList (repeat (VInt 0) (Z.to_nat n)),
                      VList (repeat (VInt 0) (Z.to_nat n))), w);
  clean_expired := fun _ w => (Ok tt, w);
  cur_cache_num := fun _ w => (Ok (VInt 0), w);
  clean_completed := fun _ w => (Ok tt, w);
  active_requests := fun _ w => (Ok [], w);
  new_CredentialManager := fun w => (Ok [], w);
  get_total_credentials := fun p => Ok (Pool.total_count p);
  clear_json_string_credentials :=
    fun p => let '(n, p') := Pool.clear_provenance p in (Ok n, p');
  load_credentials_from_json_list :=
    fun objs p => let '(n, p') := Pool.load_entries objs p in (Ok n, p');
  add_credential_from_json :=
    fun o p => let '(n, p') := Pool.load_entries [o] p in (Ok (0 <? n), p');
  parse_multiple_json_credentials := fun s => Ok (Pool.parse_objects nesting_limit s);
  init_vertex_ai :=
    fun _ _ p w =>
      if unreachable || vertex_down w
      then (Raise (OtherError "RuntimeError" "Vertex AI is unreachable"), p, w)
      else (Ok (0 <? Pool.total_count p), p, with_fallback_client true w);
  reset_global_fallback_client := fun w => (Ok tt, with_fallback_client false w);
  refresh_models_config_cache :=
    fun _ _ w =>
      if unreachable || model_cache_down w
      then (Raise (OtherError "RuntimeError" "model list is unreachable"), w)
      else (Ok true, w);
  vertex_update_config := fun name v c w => (Ok tt, <[name := v]> c, w);
  models_api_list_models := fun _ _ p w => (Ok (VDict [("data", VList [])]), p, w);
  chat_api_chat_completions := fun _ _ _ p w => (Ok (VDict [("choices", VList [])]), p, w);
|}.

(** The collaborators in working order, and with Vertex out of reach
    whatever the state. *)
Definition collaborators : Collaborators := make false.

Definition out_of_reach : Collaborators := make true.

Definition world0 : RefWorld :=
  {| web_password := "hunter2"; persisted := None; fallback_client := false;
     vertex_down := false; model_cache_down := false; ring := [] |}.

(** The settings module as it could stand at import time. *)
Definition settings0 : namespace :=
  list_to_map
    [ ("MAX_REQUESTS_PER_MINUTE", VInt 30); ("MAX_REQUESTS_PER_DAY_PER_IP", VInt 600);
      ("FAKE_STREAMING", VBool true);
      ("FAKE_STREAMING_INTERVAL", VFloat (S754_finite false 4503599627370496 (-52)));
      ("RANDOM_STRING", VBool true); ("RANDOM_STRING_LENGTH", VInt 5);
      ("search", VDict [("search_mode", VBool false); ("search_prompt", VStr "")]);
      ("version", VDict [("local_version", VStr "0.0.0"); ("remote_version", VStr "0.0.0");
                         ("has_update", VBool false)]);
      ("CONCURRENT_REQUESTS", VInt 1); ("INCREASE_CONCURRENT_ON_FAILURE", VInt 0);
      ("MAX_CONCURRENT_REQUESTS", VInt 3); ("ENABLE_VERTEX", VBool true);
      ("ENABLE_VERTEX_EXPRESS", VBool false); ("VERTEX_EXPRESS_API_KEY", VStr "");
      ("GOOGLE_CREDENTIALS_JSON", VStr ""); ("MAX_RETRY_NUM", VInt 15);
      ("MAX_EMPTY_RESPONSES", VInt 5); ("CACHE_EXPIRY_TIME", VInt 21600);
      ("MAX_CACHE_ENTRIES", VInt 500); ("WHITELIST_USER_AGENT", VList []) ].

(** The process before [lifespan] runs: every module global is [None]. *)
Definition boot (unreachable : bool) (s : namespace) (w : RefWorld)
  : State (make unreachable) :=
  @mkState (make unreachable) s ∅ None None None None None ∅ w [].

End Ref.

(** ** The vocabulary of the properties *)

(** The keys of the validation table, by the type of their value
    (section 4.1 of the specification; the branches of [apply_config]). *)
Definition positive_int_keys : list string :=
  [ "max_requests_per_minute"; "max_requests_per_day_per_ip"; "random_string_length";
    "concurrent_requests"; "max_concurrent_requests"; "max_retry_num" ].

Definition nonnegative_int_keys : list string :=
  [ "increase_concurrent_on_failure"; "max_empty_responses" ].

Definition int_keys : list string := (positive_int_keys ++ nonnegative_int_keys)%list.

Definition bool_keys : list string :=
  [ "fake_streaming"; "enable_vertex_express"; "random_string"; "search_mode";
    "enable_vertex" ].

Definition supported_keys : list string :=
  [ "max_requests_per_minute"; "max_requests_per_day_per_ip"; "fake_streaming";
    "enable_vertex_express"; "vertex_express_api_key"; "fake_streaming_interval";
    "random_string"; "random_string_length"; "search_mode"; "search_prompt";
    "concurrent_requests"; "increase_concurrent_on_failure"; "max_concurrent_requests";
    "enable_vertex"; "google_credentials_json"; "max_retry_num"; "max_empty_responses" ].

Definition sentinel_keys : list string :=
  [ "vertex_express_api_key"; "google_credentials_json" ].

(** The body of a request carries this password, key and value (what else
    it carries, and in which order, the handler does not look at). *)
Definition is_config_request (d : list (string * pyval)) (pw key : string) (value : pyval)
  : Prop :=
  dict_get "password" d = VStr pw /\ dict_get "key" d = VStr key
  /\ dict_get "value" d = value.

(** A value that is neither a [str] nor a number; in Python a [bool] is an
    [int]. *)
Definition neither_string_nor_number (v : pyval) : bool :=
  match v with
  | VNone | VList _ | VDict _ => true
  | VBool _ | VInt _ | VFloat _ | VStr _ => false
  end.

Section Vocabulary.

Variable E : Collaborators.

(** The password is there and the verifier accepts it. *)
Definition authorized (pw : string) (st : State E) : Prop :=
  pw <> "" /\ verify_web_password E pw (world st) = true.

(** [value <= 0], for [value = int(config_value)] as the handler computes it. *)
Definition le_zero_value (v : pyval) : bool :=
  match py_int (int_nonascii E) v with
  | Ok n => n <=? 0
  | Raise _ => false
  end.

(** A string [int()] does not read as a number. *)
Definition non_numeric_string (v : pyval) : bool :=
  match v with
  | VStr s => match py_int (int_nonascii E) (VStr s) with
              | Raise _ => true
              | Ok _ => false
              end
  | _ => false
  end.

(** The persistence hook and the reset of the fallback client do not
    raise, and neither do the methods of the credential manager that the
    handler calls outside a [try]. *)
Definition persistence_succeeds : Prop :=
  forall s w, fst (save_settings E s w) = Ok tt.

Definition quiet_collaborators : Prop :=
  persistence_succeeds
  /\ (forall w, fst (reset_global_fallback_client E w) = Ok tt)
  /\ (forall p, exists n, get_total_credentials E p = Ok n)
  /\ (forall p, exists n, fst (clear_json_string_credentials E p) = Ok n)
  /\ (forall l p, exists n, fst (load_credentials_from_json_list E l p) = Ok n).

(** The Vertex initialisation, or the refresh of the model cache, raises
    whenever it is called. *)
Definition reinit_fails : Prop :=
  forall s c p w, exists e, fst (fst (init_vertex_ai E s c p w)) = Raise e.

Definition refresh_fails : Prop :=
  forall s c w, exists e, fst (refresh_models_config_cache E s c w) = Raise e.

(** The format check of the handler lets the blob through. *)
Definition precheck_passes (s : string) : Prop :=
  exists l, parse_multiple_json_credentials E s = Ok l
            /\ (l <> [] \/ exists v, json_loads (json_nesting_limit E) s = Ok v).

(** Every reference the dashboard holds is to an object. *)
Definition well_formed (st : State E) : Prop :=
  forall l, credential_manager st = Some l -> is_Some (heap st !! l).

(** The globals of the dashboard module are the same in both states. *)
Definition same_globals (st st' : State E) : Prop :=
  response_cache_manager st' = response_cache_manager st
  /\ active_requests_manager st' = active_requests_manager st
  /\ credential_manager st' = credential_manager st.

(** With no credential manager bound, none gets bound and no credential
    manager object changes. *)
Definition unbound_pool_untouched (st st' : State E) : Prop :=
  credential_manager st = None ->
  credential_manager st' = None /\ heap st' = heap st.

(** The state after one call of [log]. *)
Definition logged (level : log_level) (message : string) (st : State E) : State E :=
  snd (log E level message st).

(** [m], when it returns, leaves a state where [Q] holds. *)
Definition ends {A : Type} (Q : State E -> Prop) (m : M E A) : Prop :=
  forall st a st', m st = (Ok a, st') -> Q st'.

(** [m] relates every state to the state it leaves. *)
Definition keeps {A : Type} (R : State E -> State E -> Prop) (m : M E A) : Prop :=
  forall st, R st (snd (m st)).

(** A relation between the state before and the state after that holds
    across the steps every handler takes: none, two in a row, a call of a
    collaborator on its own state, a line of log.  The steps that assign a
    setting, an attribute of the Vertex configuration or a credential
    manager object keep some of these relations and not others. *)
Record frame (R : State E -> State E -> Prop) : Prop := {
  frame_refl : forall st, R st st;
  frame_trans : forall a b c, R a b -> R b c -> R a c;
  frame_world : forall v st, R st (set_world v st);
  frame_log : forall level message st, R st (snd (log E level message st));
}.

Definition settings_free (R : State E -> State E -> Prop) : Prop :=
  forall v st, R st (set_settings v st).

Definition app_config_free (R : State E -> State E -> Prop) : Prop :=
  forall v st, R st (set_app_config v st).

Definition heap_free (R : State E -> State E -> Prop) : Prop :=
  forall l o st, R st (set_heap (<[l := o]> (heap st)) st).

(** The settings are the same and no line of log is lost. *)
Definition steady (st st' : State E) : Prop :=
  settings st' = settings st
  /\ forall x, In x (logs st) -> In x (logs st').

(** Well-formedness is kept. *)
Definition stays_well_formed (st st' : State E) : Prop :=
  well_formed st -> well_formed st'.

End Vocabulary.

Arguments keeps {E A} R m.
Arguments ends {E A} Q m.
Arguments steady {E} st st'.
Arguments stays_well_formed {E} st st'.
Arguments authorized {E} pw st.
Arguments well_formed {E} st.
Arguments same_globals {E} st st'.
Arguments unbound_pool_untouched {E} st st'.

(** The states used in the examples: the reference process after startup,
    and the same with the dashboard bound to a pool that holds one entry
    from the environment blob and one from another source. *)
Module Examples.

Definition started : State Ref.collaborators :=
  snd (lifespan_startup Ref.collaborators (Ref.boot false Ref.settings0 Ref.world0)).

Definition env_entry : Pool.CredentialEntry :=
  {| Pool.payload := VDict [("client_email", VStr "env@example.iam")];
     Pool.source := Pool.EnvironmentBlob |}.

Definition file_entry : Pool.CredentialEntry :=
  {| Pool.payload := VDict [("client_email", VStr "file@example.iam")];
     Pool.source := Pool.OtherSource |}.

Definition bound_in (unreachable : bool) : State (Ref.make unreachable) :=
  @mkState (Ref.make unreachable) Ref.settings0 ∅ (Some tt) (Some tt) (Some 0%nat)
    (Some 0%nat) (Some 0%nat) (<[0%nat := [env_entry; file_entry]]> ∅) Ref.world0 [].

Definition bound : State Ref.collaborators := bound_in false.

Definition config_request (key : string) (value : pyval) : list (string * pyval) :=
  [("password", VStr "hunter2"); ("key", VStr key); ("value", value)].

Definition update (key : string) (value : pyval) : request :=
  POST_update_config (VDict (config_request key value)).

(** A blob with one service-account descriptor. *)
Definition one_descriptor : string :=
  string_of_bytes
    (bytes_of "{" ++ [34] ++ bytes_of "client_email" ++ [34] ++ bytes_of ": " ++ [34]
     ++ bytes_of "new@example.iam" ++ [34] ++ bytes_of "}")%list.

End Examples.

(** ** More vocabulary: the keys by type, the requests, the snapshot *)

(** [isinstance(v, str)] *)
Definition is_str (v : pyval) : bool :=
  match v with VStr _ => true | _ => false end.

(** The integer keys with the attribute of [app.config.settings] each
    assigns and whether its bound is [> 0] (dashboard.py, lines 212-230,
    300-308, 323-351, 440-458). *)
Definition int_key_table : list (string * (string * bool)) :=
  [ ("max_requests_per_minute", ("MAX_REQUESTS_PER_MINUTE", true));
    ("max_requests_per_day_per_ip", ("MAX_REQUESTS_PER_DAY_PER_IP", true));
    ("random_string_length", ("RANDOM_STRING_LENGTH", true));
    ("concurrent_requests", ("CONCURRENT_REQUESTS", true));
    ("increase_concurrent_on_failure", ("INCREASE_CONCURRENT_ON_FAILURE", false));
    ("max_concurrent_requests", ("MAX_CONCURRENT_REQUESTS", true));
    ("max_retry_num", ("MAX_RETRY_NUM", true));
    ("max_empty_responses", ("MAX_EMPTY_RESPONSES", false)) ].

(** The boolean keys whose branch is an assignment and a line of log
    (lines 247-251, 294-298, 353-357). *)
Definition plain_bool_key_table : list (string * string) :=
  [ ("enable_vertex_express", "ENABLE_VERTEX_EXPRESS");
    ("random_string", "RANDOM_STRING");
    ("enable_vertex", "ENABLE_VERTEX") ].

(** The keys whose value must be a [str]. *)
Definition string_keys : list string :=
  [ "vertex_express_api_key"; "search_prompt"; "google_credentials_json" ].

(** The string holds a comma. *)
Definition has_comma (s : string) : bool := existsb (Z.eqb 44) (bytes_of s).

(** The keys the handler extracts of the value of [vertex_express_api_key]
    (lines 261-263): the pieces between commas, stripped, the empty ones
    left out. *)
Definition express_keys (s : string) : list string :=
  List.filter (fun k => truthy (VStr k)) (map py_strip (py_split_comma s)).

(** A byte. *)
Definition is_byte (z : Z) : Prop := 0 <= z < 256.

(** The header value is an element of the whitelist; a missing header
    reads [None]. *)
Definition listed (ua : option string) (whitelist : list pyval) : Prop :=
  match ua with
  | Some a => In (VStr a) whitelist
  | None => In VNone whitelist
  end.

(** [message.get(k, "")] on the items of a message *)
Definition item_or_empty (k : string) (message : list (string * pyval)) : pyval :=
  if existsb (String.eqb k) (map fst message) then dict_get k message else VStr "".

(** The fields of the snapshot that report a setting, each with the
    attribute of [app.config.settings] it reads (dashboard.py, lines
    127-163). *)
Definition reported_settings : list (string * string) :=
  [ ("retry_count", "MAX_RETRY_NUM");
    ("max_requests_per_minute", "MAX_REQUESTS_PER_MINUTE");
    ("max_requests_per_day_per_ip", "MAX_REQUESTS_PER_DAY_PER_IP");
    ("fake_streaming", "FAKE_STREAMING");
    ("fake_streaming_interval", "FAKE_STREAMING_INTERVAL");
    ("random_string", "RANDOM_STRING");
    ("random_string_length", "RANDOM_STRING_LENGTH");
    ("cache_expiry_time", "CACHE_EXPIRY_TIME");
    ("max_cache_entries", "MAX_CACHE_ENTRIES");
    ("concurrent_requests", "CONCURRENT_REQUESTS");
    ("increase_concurrent_on_failure", "INCREASE_CONCURRENT_ON_FAILURE");
    ("max_concurrent_requests", "MAX_CONCURRENT_REQUESTS");
    ("enable_vertex", "ENABLE_VERTEX");
    ("enable_vertex_express", "ENABLE_VERTEX_EXPRESS");
    ("max_retry_num", "MAX_RETRY_NUM");
    ("max_empty_responses", "MAX_EMPTY_RESPONSES") ].

(** The two settings that hold a secret: the snapshot tells whether they
    are set (lines 160-161). *)
Definition masked_settings : list (string * string) :=
  [ ("vertex_express_api_key", "VERTEX_EXPRESS_API_KEY");
    ("google_credentials_json", "GOOGLE_CREDENTIALS_JSON") ].

(** The fields kept for the front end, with their fixed values (lines
    120-123). *)
Definition fixed_fields : list (string * pyval) :=
  [ ("key_count", VInt 0); ("model_count", VInt 0);
    ("available_models", VList []); ("api_key_stats", VDict []) ].

(** The settings module has every attribute the snapshot reads, and its
    two dicts have the items read of them. *)
Definition settings_complete (s : namespace) : Prop :=
  (forall field attr, In (field, attr) (reported_settings ++ masked_settings)%list ->
                      is_Some (s !! attr))
  /\ (exists version,
        s !! "version" = Some (VDict version)
        /\ forall k, In k ["local_version"; "remote_version"; "has_update"] ->
                     exists v, dict_getitem k version = Ok v)
  /\ (exists search,
        s !! "search" = Some (VDict search)
        /\ forall k, In k ["search_mode"; "search_prompt"] ->
                     exists v, dict_getitem k search = Ok v).

Section RequestVocabulary.

Variable E : Collaborators.

(** The body is a JSON object whose password is a non-empty string that
    the verifier accepts. *)
Definition password_accepted (data : pyval) (st : State E) : bool :=
  match data with
  | VDict d =>
      match dict_get "password" d with
      | VStr pw => negb (String.eqb pw "") && verify_web_password E pw (world st)
      | _ => false
      end
  | _ => false
  end.

(** The answer to an exception that leaves the outer [try] of a POST
    handler. *)
Definition error_response (prefix : string) (e : exn) : response :=
  respond (Raise (if is_HTTPException e then e
                  else HTTPException 500 (prefix ++ exn_str e))).

(** The answer is a JSON object with a message (and status 200) or with
    a detail. *)
Definition message_or_detail (r : response) : Prop :=
  (status r = 200 /\ exists msg, body r = success msg)
  \/ (exists dtl, body r = VDict [("detail", VStr dtl)]).

(** What the common tail (lines 463-464) answers after a branch that left
    the state [st']: the persistence hook runs on the settings as they are
    then. *)
Definition persisted_response (key : string) (st' : State E) : response * State E :=
  (match fst (save_settings E (settings st') (world st')) with
   | Ok _ => {| status := 200; body := success ("配置项 " ++ key ++ " 已更新") |}
   | Raise e => error_response "更新失败：" e
   end,
   set_world (snd (save_settings E (settings st') (world st'))) st').

End RequestVocabulary.

Section ProcessVocabulary.

Variable E : Collaborators.

(** The constructor of the credential manager and the Vertex
    initialisation return (the initialisation may return false). *)
Definition startup_collaborators_return : Prop :=
  (forall w, exists p, fst (new_CredentialManager E w) = Ok p)
  /\ (forall s c p w, exists b, fst (fst (init_vertex_ai E s c p w)) = Ok b).

(** The lines of log that end [run_blocking_init_vertex] (lines 68, 70
    and 72). *)
Definition reinit_outcomes : list (log_level * string) :=
  [ (info, "异步重新执行 init_vertex_ai 成功，以响应 Google Credentials JSON 的更新。");
    (warning, "异步重新执行 init_vertex_ai 失败或未完成。");
    (error, "执行 run_blocking_init_vertex 时出错: {e}") ].

(** What refers to a credential manager is the same in both states, and
    every credential manager object of the first is one of the second. *)
Definition same_bindings (st st' : State E) : Prop :=
  same_globals st st'
  /\ main_credential_manager st' = main_credential_manager st
  /\ app_state_credential_manager st' = app_state_credential_manager st
  /\ forall l, is_Some (heap st !! l) -> is_Some (heap st' !! l).

(** The two configuration modules are the same in both states. *)
Definition same_configuration (st st' : State E) : Prop :=
  settings st' = settings st /\ app_config st' = app_config st.

(** The configuration and the credential manager objects are the same. *)
Definition same_configuration_and_pools (st st' : State E) : Prop :=
  same_configuration st st' /\ heap st' = heap st.

(** The calls the snapshot handler makes to the statistics, the logs, the
    cache manager, the active-request tracker and the credential manager
    all return. *)
Definition snapshot_collaborators_return : Prop :=
  (forall w, exists a, fst (maybe_cleanup E w) = Ok a)
  /\ (forall c w, exists a, fst (clean_expired E c w) = Ok a)
  /\ (forall m w, exists a, fst (clean_completed E m w) = Ok a)
  /\ (forall w, exists a, fst (get_calls_last_24h E w) = Ok a)
  /\ (forall t w, exists a, fst (get_calls_last_hour E t w) = Ok a)
  /\ (forall t w, exists a, fst (get_calls_last_minute E t w) = Ok a)
  /\ (forall w, exists a, fst (get_tokens_last_24h E w) = Ok a)
  /\ (forall t w, exists a, fst (get_tokens_last_hour E t w) = Ok a)
  /\ (forall t w, exists a, fst (get_tokens_last_minute E t w) = Ok a)
  /\ (forall n t w, exists a, fst (get_time_series_data E n t w) = Ok a)
  /\ (forall n w, exists a, fst (vertex_log_manager_get_recent_logs E n w) = Ok a)
  /\ (forall n w, exists a, fst (log_manager_get_recent_logs E n w) = Ok a)
  /\ (forall c w, exists a, fst (cur_cache_num E c w) = Ok a)
  /\ (forall m w, exists a, fst (active_requests E m w) = Ok a)
  /\ (forall p, exists n, get_total_credentials E p = Ok n).

(** A cache manager and an active-request tracker are bound. *)
Definition managers_bound (st : State E) : Prop :=
  is_Some (response_cache_manager st) /\ is_Some (active_requests_manager st).

(** Nothing but the collaborators' own state differs. *)
Definition only_world_differs (st st' : State E) : Prop :=
  settings st' = settings st /\ app_config st' = app_config st
  /\ heap st' = heap st /\ logs st' = logs st
  /\ same_globals st st'
  /\ main_credential_manager st' = main_credential_manager st
  /\ app_state_credential_manager st' = app_state_credential_manager st.

(** What a snapshot [d] taken in the state [st] holds. *)
Definition snapshot_of (st : State E) (d : list (string * pyval)) : Prop :=
  length d = 42%nat
  /\ (forall field attr, In (field, attr) reported_settings ->
        settings st !! attr = Some (dict_get field d))
  /\ (forall field attr, In (field, attr) masked_settings ->
        exists v, settings st !! attr = Some v /\ dict_get field d = VBool (truthy v))
  /\ (forall field v, In (field, v) fixed_fields -> dict_get field d = v)
  /\ (exists search, settings st !! "search" = Some (VDict search)
        /\ dict_get "search_mode" d = dict_get "search_mode" search
        /\ dict_get "search_prompt" d = dict_get "search_prompt" search)
  /\ match credential_manager st with
     | None => dict_get "credentials_count" d = VInt 0
     | Some l => exists o n, heap st !! l = Some o
                             /\ get_total_credentials E o = Ok n
                             /\ dict_get "credentials_count" d = VInt n
     end
  /\ (exists count done,
        dict_get "active_count" d = VInt count
        /\ dict_get "active_done" d = VInt done
        /\ dict_get "active_pending" d = VInt (count - done)).

End ProcessVocabulary.

Arguments same_bindings {E} st st'.
Arguments same_configuration {E} st st'.
Arguments same_configuration_and_pools {E} st st'.
Arguments managers_bound {E} st.
Arguments only_world_differs {E} st st'.

(** More states and collaborators for the examples: a Vertex
    initialisation that always returns, a reset of the fallback client that
    raises, a User-Agent whitelist, Vertex disabled. *)
Module Scenarios.

Import Examples.

(** The reference collaborators with another Vertex initialisation and
    another reset of the fallback client. *)
Definition with_vertex
    (init : namespace -> namespace -> list Pool.CredentialEntry -> Ref.RefWorld
            -> result bool * list Pool.CredentialEntry * Ref.RefWorld)
    (reset : Ref.RefWorld -> result unit * Ref.RefWorld) : Collaborators := {|
  World := World Ref.collaborators;
  CredentialPool := CredentialPool Ref.collaborators;
  CacheManager := CacheManager Ref.collaborators;
  ActiveRequestsManager := ActiveRequestsManager Ref.collaborators;
  Time := Time Ref.collaborators;
  json_nesting_limit := json_nesting_limit Ref.collaborators;
  int_nonascii := int_nonascii Ref.collaborators;
  float_nonascii := float_nonascii Ref.collaborators;
  format_value := format_value Ref.collaborators;
  datetime_now := datetime_now Ref.collaborators;
  strftime_HMS := strftime_HMS Ref.collaborators;
  verify_web_password := verify_web_password Ref.collaborators;
  custom_verify_password := custom_verify_password Ref.collaborators;
  log_sink := log_sink Ref.collaborators;
  vertex_log_manager_get_recent_logs := vertex_log_manager_get_recent_logs Ref.collaborators;
  log_manager_get_recent_logs := log_manager_get_recent_logs Ref.collaborators;
  save_settings := save_settings Ref.collaborators;
  maybe_cleanup := maybe_cleanup Ref.collaborators;
  stats_reset := stats_reset Ref.collaborators;
  get_calls_last_24h := get_calls_last_24h Ref.collaborators;
  get_calls_last_hour := get_calls_last_hour Ref.collaborators;
  get_calls_last_minute := get_calls_last_minute Ref.collaborators;
  get_tokens_last_24h := get_tokens_last_24h Ref.collaborators;
  get_tokens_last_hour := get_tokens_last_hour Ref.collaborators;
  get_tokens_last_minute := get_tokens_last_minute Ref.collaborators;
  get_time_series_data := get_time_series_data Ref.collaborators;
  clean_expired := clean_expired Ref.collaborators;
  cur_cache_num := cur_cache_num Ref.collaborators;
  clean_completed := clean_completed Ref.collaborators;
  active_requests := active_requests Ref.collaborators;
  new_CredentialManager := new_CredentialManager Ref.collaborators;
  get_total_credentials := get_total_credentials Ref.collaborators;
  clear_json_string_credentials := clear_json_string_credentials Ref.collaborators;
  load_credentials_from_json_list := load_credentials_from_json_list Ref.collaborators;
  add_credential_from_json := add_credential_from_json Ref.collaborators;
  parse_multiple_json_credentials := parse_multiple_json_credentials Ref.collaborators;
  init_vertex_ai := init;
  reset_global_fallback_client := reset;
  refresh_models_config_cache := refresh_models_config_cache Ref.collaborators;
  vertex_update_config := vertex_update_config Ref.collaborators;
  models_api_list_models := models_api_list_models Ref.collaborators;
  chat_api_chat_completions := chat_api_chat_completions Ref.collaborators;
|}.

(** A Vertex initialisation that returns in every state. *)
Definition always_up : Collaborators :=
  with_vertex (fun _ _ p w => (Ok (0 <? Pool.total_count p), p, w))
    (reset_global_fallback_client Ref.collaborators).

(** A reset of the fallback client that raises. *)
Definition fallback_broken : Collaborators :=
  with_vertex (init_vertex_ai Ref.collaborators)
    (fun w => (Raise (OtherError "RuntimeError" "no fallback client"), w)).

(** The process before startup, with a credential blob in the
    environment that is no JSON. *)
Definition boot_with_bad_blob : State always_up :=
  @mkState always_up (<["GOOGLE_CREDENTIALS_JSON" := VStr "{oops"]> Ref.settings0)
    ∅ None None None None None ∅ Ref.world0 [].

(** The bound process on the collaborators whose reset raises. *)
Definition bound_broken : State fallback_broken :=
  @mkState fallback_broken Ref.settings0 ∅ (Some tt) (Some tt) (Some 0%nat)
    (Some 0%nat) (Some 0%nat) (<[0%nat := [env_entry; file_entry]]> ∅) Ref.world0 [].

(** The bound process with a whitelist of one client, and with Vertex
    disabled. *)
Definition with_whitelist : State Ref.collaborators :=
  set_settings (<["WHITELIST_USER_AGENT" := VList [VStr "storybox-ui/1.0"]]> Ref.settings0)
    bound.

Definition vertex_disabled : State Ref.collaborators :=
  set_settings (<["ENABLE_VERTEX" := VBool false]> Ref.settings0) bound.

Definition from_client (ua : option string) : HttpRequest :=
  {| user_agent := ua; raw_request := VNone |}.

(** 2.5 *)
Definition two_and_a_half : spec_float := S754_finite false 5 (-1).

End Scenarios.

(** * Properties *)

Section Validation.

Variable E : Collaborators.

Lemma eqb_empty_false (s : string) : s <> "" -> String.eqb s "" = false.
Proof. intros H. apply String.eqb_neq. exact H. Qed.

Lemma key_of_list_nonempty (key : string) (l : list string) :
  In key l -> forallb (fun k => negb (String.eqb k "")) l = true -> key <> "".
Proof.
  intros Hin Hall ->. rewrite forallb_forall in Hall.
  specialize (Hall _ Hin). discriminate.
Qed.

(** The password checks let an authorized request through and leave the
    state as it is. *)
Lemma check_password_ok d pw (st : State E) :
  dict_get "password" d = VStr pw -> authorized pw st ->
  check_password E (VDict d) st = (Ok d, st).
Proof.
  intros Hp (Hne & Hv). unfold check_password.
  rewrite Hp. cbn [truthy]. rewrite (eqb_empty_false _ Hne). cbn [negb].
  unfold bind, gets. rewrite Hv. reflexivity.
Qed.

(** Past the checks of password and key, the handler is the branch of the
    key followed by the common tail, inside the outer [try]. *)
Lemma update_config_authorized d pw key value (st : State E) :
  is_config_request d pw key value -> authorized pw st -> key <> "" ->
  update_config E (VDict d) st =
  try_except
    (let* returned := apply_config E (VStr key) value in
     match returned with
     | Some response => ret response
     | None =>
         do_save_settings E >>
         ret (success ("配置项 " ++ key ++ " 已更新"))
     end)
    (reraise_or_500 E "更新失败：") st.
Proof.
  intros Hreq Hauth Hk. unfold update_config, try_except.
  destruct Hreq as (Hp & Hkey & Hval).
  unfold bind at 1. rewrite (check_password_ok _ _ _ Hp Hauth).
  rewrite Hkey, Hval.
  cbn [truthy]. rewrite (eqb_empty_false _ Hk). cbn [negb py_str].
  reflexivity.
Qed.

(** The three ways a branch ends: it raises, it returns a response of its
    own, or it falls through to the common tail. *)
Lemma update_config_branch_raises d pw key value (st st' : State E) e :
  is_config_request d pw key value -> authorized pw st -> key <> "" ->
  apply_config E (VStr key) value st = (Raise e, st') ->
  update_config E (VDict d) st = reraise_or_500 E "更新失败：" e st'.
Proof.
  intros Hreq Hauth Hk Happ.
  rewrite (update_config_authorized _ _ _ _ _ Hreq Hauth Hk).
  unfold try_except, bind. rewrite Happ. reflexivity.
Qed.

Lemma update_config_branch_returns d pw key value (st st' : State E) r :
  is_config_request d pw key value -> authorized pw st -> key <> "" ->
  apply_config E (VStr key) value st = (Ok (Some r), st') ->
  update_config E (VDict d) st = (Ok r, st').
Proof.
  intros Hreq Hauth Hk Happ.
  rewrite (update_config_authorized _ _ _ _ _ Hreq Hauth Hk).
  unfold try_except, bind. rewrite Happ. reflexivity.
Qed.

Lemma update_config_branch_continues d pw key value (st st' : State E) :
  is_config_request d pw key value -> authorized pw st -> key <> "" ->
  apply_config E (VStr key) value st = (Ok None, st') ->
  update_config E (VDict d) st =
  match save_settings E (settings st') (world st') with
  | (Ok _, w) => (Ok (success ("配置项 " ++ key ++ " 已更新")), set_world w st')
  | (Raise e, w) => reraise_or_500 E "更新失败：" e (set_world w st')
  end.
Proof.
  intros Hreq Hauth Hk Happ.
  rewrite (update_config_authorized _ _ _ _ _ Hreq Hauth Hk).
  unfold try_except. unfold bind at 1. rewrite Happ.
  unfold do_save_settings, bind, gets, call, ret.
  destruct (save_settings E (settings st') (world st')) as [[[]|e] w]; reflexivity.
Qed.

Lemma reraise_or_500_spec (prefix : string) (e : exn) (st : State E) :
  reraise_or_500 (A := pyval) E prefix e st =
  (Raise (if is_HTTPException e then e else HTTPException 500 (prefix ++ exn_str e)), st).
Proof. unfold reraise_or_500. destruct (is_HTTPException e); reflexivity. Qed.

Lemma serve_update_config d (st st' : State E) r :
  update_config E d st = (r, st') ->
  serve E (POST_update_config d) st = (respond r, st').
Proof. intros H. unfold serve, handler. rewrite H. reflexivity. Qed.

(** The branch of an integer key: what [int()] and the bound decide. *)
Lemma update_int_setting_spec attr positive bound_msg log_msg v (st : State E) :
  update_int_setting E attr positive bound_msg log_msg v st =
  match py_int (int_nonascii E) v with
  | Ok n =>
      if (if positive then n <=? 0 else n <? 0)
      then (Raise (HTTPException 422 ("参数类型错误：" ++ bound_msg)), st)
      else (Ok tt, snd (log E info log_msg (set_settings (<[attr := VInt n]> (settings st)) st)))
  | Raise e =>
      if is_ValueError e
      then (Raise (HTTPException 422 ("参数类型错误：" ++ exn_str e)), st)
      else (Raise e, st)
  end.
Proof.
  unfold update_int_setting, try_except, bind, lift.
  destruct (py_int (int_nonascii E) v) as [n|e]; cbn.
  - destruct positive; [destruct (n <=? 0) | destruct (n <? 0)]; reflexivity.
  - destruct (is_ValueError e); reflexivity.
Qed.

(** [int()] of a string raises nothing but [ValueError]. *)
Lemma py_int_str_raises s e :
  py_int (int_nonascii E) (VStr s) = Raise e -> is_ValueError e = true.
Proof.
  cbn. destruct (if is_ascii_string (bytes_of s) then _ else _); intros H;
    inversion H; reflexivity.
Qed.

(** [int()] of what is neither a string nor a number raises [TypeError]. *)
Lemma py_int_type_error v :
  neither_string_nor_number v = true ->
  exists m, py_int (int_nonascii E) v = Raise (TypeError m).
Proof. destruct v; intros H; try discriminate H; eexists; reflexivity. Qed.

Lemma le_zero_value_int (n : Z) : n <= 0 -> le_zero_value E (VInt n) = true.
Proof. intros H. unfold le_zero_value. cbn. apply Z.leb_le. exact H. Qed.

Lemma le_zero_value_float (f : spec_float) (n : Z) :
  float_trunc f = Some n -> n <= 0 -> le_zero_value E (VFloat f) = true.
Proof.
  intros Hf Hn. unfold le_zero_value, py_int.
  destruct f; try discriminate Hf; rewrite Hf; apply Z.leb_le; exact Hn.
Qed.

(** What an integer key's branch does with a value the claim rejects. *)
Lemma apply_positive_int_key key v (st : State E) :
  In key positive_int_keys ->
  exists attr bound_msg log_msg,
    apply_config E (VStr key) v st =
    (update_int_setting E attr true bound_msg log_msg v >> ret None) st.
Proof.
  intros Hkey. cbn in Hkey.
  destruct Hkey as [<-|[<-|[<-|[<-|[<-|[<-|[]]]]]]]; do 3 eexists; reflexivity.
Qed.

Lemma apply_int_key key v (st : State E) :
  In key int_keys ->
  exists attr positive bound_msg log_msg,
    apply_config E (VStr key) v st =
    (update_int_setting E attr positive bound_msg log_msg v >> ret None) st.
Proof.
  intros Hkey. cbn in Hkey.
  destruct Hkey as [<-|[<-|[<-|[<-|[<-|[<-|[<-|[<-|[]]]]]]]]]; do 4 eexists; reflexivity.
Qed.

(** The refusals of an integer key with a bound [> 0]: an authorized
    update whose value [int()] turns into a number [<= 0] (an integer
    [<= 0], a finite float that truncates to one, such a numeral in a
    string), or whose value is a string [int()] does not read as a number,
    is answered by 422, and the state, with the stored setting of that key,
    is what it was. *)
Theorem positive_int_key_rejects d pw key value (st : State E) :
  In key positive_int_keys ->
  is_config_request d pw key value ->
  authorized pw st ->
  le_zero_value E value = true \/ non_numeric_string E value = true ->
  status (fst (serve E (POST_update_config (VDict d)) st)) = 422
  /\ snd (serve E (POST_update_config (VDict d)) st) = st.
Proof.
  intros Hkey Hreq Hauth Hval.
  assert (Hne : key <> "") by (apply (key_of_list_nonempty _ _ Hkey); reflexivity).
  destruct (apply_positive_int_key key value st Hkey) as (attr & bm & lm & Happ).
  assert (Hbranch : exists dtl,
             apply_config E (VStr key) value st = (Raise (HTTPException 422 dtl), st)).
  { rewrite Happ. unfold bind. rewrite update_int_setting_spec.
    unfold le_zero_value, non_numeric_string in Hval.
    destruct (py_int (int_nonascii E) value) as [n|e] eqn:Hint.
    - destruct Hval as [Hle|Hns];
        [| destruct value; try discriminate Hns; rewrite Hint in Hns; discriminate Hns].
      rewrite Hle. eexists; reflexivity.
    - destruct Hval as [Hle|Hns]; [discriminate Hle|].
      destruct value; try discriminate Hns.
      rewrite (py_int_str_raises _ _ Hint). eexists; reflexivity. }
  destruct Hbranch as (dtl & Hbranch).
  rewrite (serve_update_config _ _ _ _
             (update_config_branch_raises _ _ _ _ _ _ _ Hreq Hauth Hne Hbranch)).
  split; reflexivity.
Qed.

(** C3, where the code departs from it.  Minus infinity is a value
    [<= 0], and a request carries it as the JSON number [-1e999] or as
    [-Infinity].  For every integer key with a bound [> 0], [int()] raises
    [OverflowError] on it; the handler of the branch, which catches
    [ValueError] (lines 219-220 and 447-448), lets it through, and the
    outer one answers 500, where the claim has 422.  The state is what it
    was. *)
Theorem positive_int_key_minus_infinity_is_500 d pw key (st : State E) :
  In key positive_int_keys ->
  is_config_request d pw key (VFloat (S754_infinity true)) ->
  authorized pw st ->
  float_le_zero (S754_infinity true) = true
  /\ py_int (int_nonascii E) (VFloat (S754_infinity true))
     = Raise (OverflowError "cannot convert float infinity to integer")
  /\ fst (serve E (POST_update_config (VDict d)) st)
     = {| status := 500;
          body := VDict [("detail",
                          VStr ("更新失败：" ++ "cannot convert float infinity to integer"))] |}
  /\ snd (serve E (POST_update_config (VDict d)) st) = st.
Proof.
  intros Hkey Hreq Hauth.
  split; [reflexivity |]. split; [reflexivity |].
  assert (Hne : key <> "") by (apply (key_of_list_nonempty _ _ Hkey); reflexivity).
  destruct (apply_positive_int_key key (VFloat (S754_infinity true)) st Hkey)
    as (attr & bm & lm & Happ).
  assert (Hbranch : apply_config E (VStr key) (VFloat (S754_infinity true)) st
                    = (Raise (OverflowError "cannot convert float infinity to integer"), st)).
  { rewrite Happ. unfold bind. rewrite update_int_setting_spec. reflexivity. }
  rewrite (serve_update_config _ _ _ _
             (update_config_branch_raises _ _ _ _ _ _ _ Hreq Hauth Hne Hbranch)).
  split; reflexivity.
Qed.

(** C7. For every boolean key, an authorized update whose value is a
    string, whatever the string, is answered by 422 and leaves the state,
    with the stored setting, as it was. *)
Theorem bool_key_rejects_string d pw key s (st : State E) :
  In key bool_keys ->
  is_config_request d pw key (VStr s) ->
  authorized pw st ->
  status (fst (serve E (POST_update_config (VDict d)) st)) = 422
  /\ snd (serve E (POST_update_config (VDict d)) st) = st.
Proof.
  intros Hkey Hreq Hauth. unfold serve, handler.
  assert (Hne : key <> "") by (apply (key_of_list_nonempty _ _ Hkey); reflexivity).
  rewrite (update_config_authorized _ _ _ _ _ Hreq Hauth Hne).
  cbn in Hkey.
  destruct Hkey as [<-|[<-|[<-|[<-|[<-|[]]]]]]; cbn; split; reflexivity.
Qed.

(** C10. For every integer key, an authorized update whose value is
    neither a string nor a number makes [int()] raise a [TypeError]; the
    handler of the branch, which catches [ValueError], lets it through, and
    the outer one answers 500; the state is what it was. *)
Theorem int_key_type_error_is_500 d pw key value (st : State E) :
  In key int_keys ->
  is_config_request d pw key value ->
  authorized pw st ->
  neither_string_nor_number value = true ->
  (exists m, py_int (int_nonascii E) value = Raise (TypeError m)
             /\ is_ValueError (TypeError m) = false)
  /\ status (fst (serve E (POST_update_config (VDict d)) st)) = 500
  /\ snd (serve E (POST_update_config (VDict d)) st) = st.
Proof.
  intros Hkey Hreq Hauth Hval.
  destruct (py_int_type_error value Hval) as (m & Hm).
  split; [exists m; split; [exact Hm | reflexivity] |].
  assert (Hne : key <> "") by (apply (key_of_list_nonempty _ _ Hkey); reflexivity).
  destruct (apply_int_key key value st Hkey) as (attr & pos & bm & lm & Happ).
  assert (Hbranch : apply_config E (VStr key) value st = (Raise (TypeError m), st)).
  { rewrite Happ. unfold bind. rewrite update_int_setting_spec, Hm. reflexivity. }
  rewrite (serve_update_config _ _ _ _
             (update_config_branch_raises _ _ _ _ _ _ _ Hreq Hauth Hne Hbranch)).
  split; reflexivity.
Qed.


(** The keys [apply_config] has a branch for. *)
Lemma unsupported_key_branch key value (st : State E) :
  ~ In key supported_keys ->
  apply_config E (VStr key) value st
  = (Raise (HTTPException 400 ("不支持的配置项：" ++ key)), st).
Proof.
  intros Hnot. unfold apply_config. cbn [py_eq_str].
  repeat match goal with
         | |- context [String.eqb key ?lit] =>
             destruct (String.eqb_spec key lit) as [->|_];
             [exfalso; apply Hnot; cbn; tauto |]
         end.
  reflexivity.
Qed.


End Validation.

Section Sentinel.

Variable E : Collaborators.

Lemma is_sentinel_true (s : string) :
  s = "" \/ py_lower s = "true" -> is_sentinel s = true.
Proof.
  unfold is_sentinel. intros [->|H]; [reflexivity|].
  rewrite H. cbn. apply orb_true_r.
Qed.

Lemma logged_frame level message (st : State E) :
  settings (logged E level message st) = settings st
  /\ app_config (logged E level message st) = app_config st
  /\ heap (logged E level message st) = heap st
  /\ same_globals st (logged E level message st).
Proof. repeat split. Qed.

(** The sentinel branch of the credential blob (lines 363-366): one line
    of log, the persistence hook, and a response of its own. *)
Lemma google_sentinel_branch s (st : State E) :
  is_sentinel s = true ->
  apply_config E (VStr "google_credentials_json") (VStr s) st =
  let st1 := logged E info "Google Credentials JSON 未更新，因为值为空或为 'true'" st in
  match save_settings E (settings st1) (world st1) with
  | (Ok _, w) =>
      (Ok (Some (success "配置项 google_credentials_json 未更新，值为空或为 'true'")),
       set_world w st1)
  | (Raise e, w) => (Raise e, set_world w st1)
  end.
Proof.
  intros Hs. cbn [apply_config py_eq_str String.eqb Ascii.eqb Bool.eqb].
  unfold update_google_credentials_json. rewrite Hs.
  unfold bind at 1. unfold logged.
  destruct (log E info _ st) as [[[]|?] st1] eqn:Hlog; [| discriminate Hlog].
  cbn [snd]. unfold do_save_settings, bind, gets, call, ret.
  destruct (save_settings E (settings st1) (world st1)) as [[[]|e] w]; reflexivity.
Qed.

(** The sentinel branch of the Express key (lines 257-258): one line of
    log, then the common tail. *)
Lemma express_sentinel_branch s (st : State E) :
  is_sentinel s = true ->
  apply_config E (VStr "vertex_express_api_key") (VStr s) st =
  (Ok None, logged E info "Vertex Express API Key 未更新，因为值为空或为 'true'" st).
Proof.
  intros Hs. cbn [apply_config py_eq_str String.eqb Ascii.eqb Bool.eqb].
  unfold update_vertex_express_api_key. rewrite Hs. reflexivity.
Qed.

(** C8. For the Express key and the credential blob, an authorized update
    whose value is the empty string, or [true] in any case of letters,
    changes no setting (nor the Vertex configuration, nor a credential
    entry, nor what the dashboard is bound to), and is answered by 200 once
    the persistence hook, which runs all the same, has not failed. *)
Theorem sentinel_is_noop d pw key s (st : State E) :
  In key sentinel_keys ->
  is_config_request d pw key (VStr s) ->
  authorized pw st ->
  s = "" \/ py_lower s = "true" ->
  persistence_succeeds E ->
  let r := serve E (POST_update_config (VDict d)) st in
  status (fst r) = 200
  /\ settings (snd r) = settings st
  /\ app_config (snd r) = app_config st
  /\ heap (snd r) = heap st
  /\ same_globals st (snd r).
Proof.
  intros Hkey Hreq Hauth Hs Hsave.
  apply is_sentinel_true in Hs.
  assert (Hne : key <> "") by (apply (key_of_list_nonempty _ _ Hkey); reflexivity).
  cbn in Hkey. destruct Hkey as [<-|[<-|[]]].
  - pose proof (express_sentinel_branch s st Hs) as Happ.
    pose proof (update_config_branch_continues E _ _ _ _ _ _ Hreq Hauth Hne Happ) as Hup.
    set (st1 := logged E _ _ st) in *.
    pose proof (Hsave (settings st1) (world st1)) as Hok.
    destruct (save_settings E (settings st1) (world st1)) as [res w].
    cbn in Hok. subst res.
    cbv zeta. rewrite (serve_update_config E _ _ _ _ Hup).
    repeat split.
  - pose proof (google_sentinel_branch s st Hs) as Happ. cbv zeta in Happ.
    set (st1 := logged E _ _ st) in *.
    pose proof (Hsave (settings st1) (world st1)) as Hok.
    destruct (save_settings E (settings st1) (world st1)) as [res w].
    cbn in Hok. subst res.
    pose proof (update_config_branch_returns E _ _ _ _ _ _ _ Hreq Hauth Hne Happ) as Hup.
    cbv zeta. rewrite (serve_update_config E _ _ _ _ Hup).
    repeat split.
Qed.

(** C1, as the code has it. An authorized update of the credential blob
    with the empty string removes no credential entry: every credential
    manager object, with its entries from the environment blob and from
    elsewhere, is what it was, and so are the stored settings and what the
    dashboard is bound to; the answer is 200 once the persistence hook has
    not failed. *)
Theorem blank_blob_touches_no_entry d pw (st : State E) :
  is_config_request d pw "google_credentials_json" (VStr "") ->
  authorized pw st ->
  let r := serve E (POST_update_config (VDict d)) st in
  heap (snd r) = heap st
  /\ settings (snd r) = settings st
  /\ same_globals st (snd r)
  /\ (persistence_succeeds E -> status (fst r) = 200).
Proof.
  intros Hreq Hauth.
  assert (Hne : "google_credentials_json" <> "") by discriminate.
  pose proof (google_sentinel_branch "" st eq_refl) as Happ. cbv zeta in Happ.
  set (st1 := logged E _ _ st) in *.
  destruct (save_settings E (settings st1) (world st1)) as [[[]|e] w] eqn:Hsave.
  - pose proof (update_config_branch_returns E _ _ _ _ _ _ _ Hreq Hauth Hne Happ) as Hup.
    cbv zeta. rewrite (serve_update_config E _ _ _ _ Hup). repeat split.
  - pose proof (update_config_branch_raises E _ _ _ _ _ _ _ Hreq Hauth Hne Happ) as Hup.
    rewrite reraise_or_500_spec in Hup.
    cbv zeta. rewrite (serve_update_config E _ _ _ _ Hup). repeat split.
    intros Hok. specialize (Hok (settings st1) (world st1)).
    rewrite Hsave in Hok. discriminate Hok.
Qed.

End Sentinel.

(** ** Relations kept by the handlers *)

Section Frame.

Variable E : Collaborators.
Variable R : State E -> State E -> Prop.
Hypothesis HR : frame E R.

Lemma keeps_ret {A : Type} (a : A) : keeps R (ret (E := E) a).
Proof. intros st. apply (frame_refl E R HR). Qed.

Lemma keeps_raise {A : Type} (e : exn) : keeps R (raise (E := E) (A := A) e).
Proof. intros st. apply (frame_refl E R HR). Qed.

Lemma keeps_lift {A : Type} (r : result A) : keeps R (lift (E := E) r).
Proof. intros st. apply (frame_refl E R HR). Qed.

Lemma keeps_gets {A : Type} (f : State E -> A) : keeps R (gets f).
Proof. intros st. apply (frame_refl E R HR). Qed.

Lemma keeps_bind {A B : Type} (m : M E A) (k : A -> M E B) :
  keeps R m -> (forall a, keeps R (k a)) -> keeps R (bind m k).
Proof.
  intros Hm Hk st. unfold bind. specialize (Hm st).
  destruct (m st) as [[a|e] st']; cbn in *; [| exact Hm].
  apply (frame_trans E R HR _ st'); [exact Hm | apply Hk].
Qed.

(** The continuation may depend on what was read of the state. *)
Lemma keeps_bind_gets {A B : Type} (f : State E -> A) (k : A -> M E B) :
  (forall st, R st (snd (k (f st) st))) -> keeps R (bind (gets f) k).
Proof. intros H st. apply H. Qed.

Lemma keeps_try_except {A : Type} (m : M E A) (h : exn -> M E A) :
  keeps R m -> (forall e, keeps R (h e)) -> keeps R (try_except m h).
Proof.
  intros Hm Hh st. unfold try_except. specialize (Hm st).
  destruct (m st) as [[a|e] st']; cbn in *; [exact Hm |].
  apply (frame_trans E R HR _ st'); [exact Hm | apply Hh].
Qed.

Lemma keeps_call {A : Type} (f : World E -> result A * World E) : keeps R (call f).
Proof.
  intros st. unfold call. destruct (f (world st)) as [r w]. apply (frame_world E R HR).
Qed.

Lemma keeps_log level message : keeps R (log E level message).
Proof. intros st. apply (frame_log E R HR). Qed.

Lemma keeps_query {A : Type} l (f : CredentialPool E -> result A) : keeps R (query E l f).
Proof.
  intros st. unfold query. destruct (heap st !! l); apply (frame_refl E R HR).
Qed.

Lemma keeps_getattr_settings name : keeps R (getattr_settings E name).
Proof.
  unfold getattr_settings. apply keeps_bind; [apply keeps_gets | intros s].
  destruct (s !! name); [apply keeps_ret | apply keeps_raise].
Qed.

Lemma keeps_do_save_settings : keeps R (do_save_settings E).
Proof.
  unfold do_save_settings. apply keeps_bind; [apply keeps_gets | intros s; apply keeps_call].
Qed.

Lemma keeps_do_refresh_models_config_cache : keeps R (do_refresh_models_config_cache E).
Proof.
  unfold do_refresh_models_config_cache.
  apply keeps_bind; [apply keeps_gets | intros s].
  apply keeps_bind; [apply keeps_gets | intros c; apply keeps_call].
Qed.

Lemma keeps_setattr_settings name v :
  settings_free E R -> keeps R (setattr_settings E name v).
Proof. intros H st. apply H. Qed.

Lemma keeps_setattr_app_config name v :
  app_config_free E R -> keeps R (setattr_app_config E name v).
Proof. intros H st. apply H. Qed.

Lemma keeps_do_vertex_update_config name v :
  app_config_free E R -> keeps R (do_vertex_update_config E name v).
Proof.
  intros H st. unfold do_vertex_update_config.
  destruct (vertex_update_config E name v (app_config st) (world st)) as [[r c] w].
  apply (frame_trans E R HR _ (set_app_config c st)); [apply H | apply (frame_world E R HR)].
Qed.

Lemma keeps_method {A : Type} l (f : CredentialPool E -> result A * CredentialPool E) :
  heap_free E R -> keeps R (method E l f).
Proof.
  intros H st. unfold method. destruct (heap st !! l) as [o|]; [| apply (frame_refl E R HR)].
  destruct (f o) as [r o']. apply H.
Qed.

Lemma keeps_call_init_vertex_ai l : heap_free E R -> keeps R (call_init_vertex_ai E l).
Proof.
  intros H st. unfold call_init_vertex_ai.
  destruct (heap st !! l) as [o|]; [| apply (frame_refl E R HR)].
  destruct (init_vertex_ai E (settings st) (app_config st) o (world st)) as [[r o'] w].
  apply (frame_trans E R HR _ (set_heap (<[l := o']> (heap st)) st));
    [apply H | apply (frame_world E R HR)].
Qed.

Lemma keeps_call_with_pool {A : Type} f l :
  heap_free E R -> keeps R (call_with_pool (A := A) E f l).
Proof.
  intros H st. unfold call_with_pool.
  destruct (heap st !! l) as [o|]; [| apply (frame_refl E R HR)].
  destruct (f (settings st) o (world st)) as [[r o'] w].
  apply (frame_trans E R HR _ (set_heap (<[l := o']> (heap st)) st));
    [apply H | apply (frame_world E R HR)].
Qed.

Lemma keeps_dict_display items :
  Forall (fun km => keeps R (snd km)) items -> keeps R (dict_display E items).
Proof.
  induction 1 as [| [k m] rest Hm _ IH]; cbn [dict_display].
  - apply keeps_ret.
  - apply keeps_bind; [exact Hm | intros v].
    apply keeps_bind; [exact IH | intros d]. apply keeps_ret.
Qed.

End Frame.

(** One step of a proof that a handler keeps a relation: the rule of the
    construct at the head. *)
Ltac keeps_step :=
  match goal with
  | |- keeps _ (ret _) => apply keeps_ret; assumption
  | |- keeps _ (raise _) => apply keeps_raise; assumption
  | |- keeps _ (lift _) => apply keeps_lift; assumption
  | |- keeps _ (gets _) => apply keeps_gets; assumption
  | |- keeps _ (log _ _ _) => apply keeps_log; assumption
  | |- keeps _ (call _) => apply keeps_call; assumption
  | |- keeps _ (query _ _ _) => apply keeps_query; assumption
  | |- keeps _ (getattr_settings _ _) => apply keeps_getattr_settings; assumption
  | |- keeps _ (do_save_settings _) => apply keeps_do_save_settings; assumption
  | |- keeps _ (do_refresh_models_config_cache _) =>
      apply keeps_do_refresh_models_config_cache; assumption
  | |- keeps _ (setattr_settings _ _ _) => apply keeps_setattr_settings; assumption
  | |- keeps _ (setattr_app_config _ _ _) => apply keeps_setattr_app_config; assumption
  | |- keeps _ (do_vertex_update_config _ _ _) =>
      apply keeps_do_vertex_update_config; assumption
  | |- keeps _ (method _ _ _) => apply keeps_method; assumption
  | |- keeps _ (call_init_vertex_ai _ _) => apply keeps_call_init_vertex_ai; assumption
  | |- keeps _ (call_with_pool _ _ _) => apply keeps_call_with_pool; assumption
  | |- keeps _ (bind _ _) => apply keeps_bind; [assumption | | intros ?]
  | |- keeps _ (try_except _ _) => apply keeps_try_except; [assumption | | intros ?]
  | |- keeps _ (let _ := _ in _) => cbv zeta
  | |- keeps _ (if ?b then _ else _) => destruct b
  | |- keeps _ (match ?x with _ => _ end) => destruct x
  | H : _ |- keeps _ _ => apply H
  end.

Ltac keeps_auto := repeat keeps_step.

(** A goal [R st (snd (m st))] read as [keeps R m]. *)
Ltac as_keeps :=
  match goal with
  | |- ?R ?st (snd (?m ?st)) =>
      let m' := eval cbv beta iota in m in
      change (R st (snd (m' st)));
      generalize st;
      change (keeps R m')
  end.

Section FrameHandlers.

Variable E : Collaborators.
Variable R : State E -> State E -> Prop.
Hypothesis HR : frame E R.
Hypothesis Hsettings : settings_free E R.
Hypothesis Happ_config : app_config_free E R.

Lemma keeps_check_password data : keeps R (check_password E data).
Proof. unfold check_password. keeps_auto. Qed.

Lemma keeps_reset_stats data : keeps R (reset_stats E data).
Proof.
  pose proof keeps_check_password as Hcp.
  unfold reset_stats, reraise_or_500. keeps_auto.
Qed.

Lemma keeps_get_dashboard_data : keeps R (get_dashboard_data E).
Proof.
  unfold get_dashboard_data, the_cache_manager, the_active_manager.
  repeat (match goal with
          | |- keeps _ (dict_display _ _) => fail 1
          | _ => keeps_step
          end).
  all: try (apply keeps_dict_display; [assumption |];
            repeat constructor; cbn [snd]; keeps_auto).
Qed.

Lemma keeps_reinitialize_vertex :
  keeps R (run_blocking_init_vertex E) -> keeps R (reinitialize_vertex E).
Proof. intros Hrun. unfold reinitialize_vertex, announce_reinit. keeps_auto. Qed.

(** What touches a credential manager object is left to the two
    hypotheses; the rest of the handler keeps [R]. *)
Lemma keeps_update_config :
  (forall s, keeps R (reload_credentials E s)) ->
  keeps R (run_blocking_init_vertex E) ->
  forall config_data, keeps R (update_config E config_data).
Proof.
  intros Hreload Hrun config_data.
  pose proof keeps_check_password as Hcp.
  unfold update_config, reraise_or_500, apply_config, update_int_setting,
    update_bool_setting, set_search_item, update_fake_streaming,
    update_vertex_express_api_key, update_fake_streaming_interval,
    update_google_credentials_json, precheck_credentials_json, reinitialize_vertex,
    announce_reinit.
  keeps_auto.
Qed.

Lemma keeps_routes request :
  heap_free E R ->
  keeps R (list_models E request)
  /\ (forall body, keeps R (chat_completions E body request)).
Proof.
  intros Hheap.
  assert (Hdep : keeps R (route_dependencies E request))
    by (unfold route_dependencies, verify_user_agent; keeps_auto).
  split; [| intros body];
    unfold list_models, chat_completions, app_state_pool; keeps_auto.
Qed.

Lemma keeps_reload_credentials s :
  heap_free E R -> keeps R (reload_credentials E s).
Proof. intros Hheap. unfold reload_credentials. keeps_auto. Qed.

Lemma keeps_run_blocking_init_vertex :
  heap_free E R -> keeps R (run_blocking_init_vertex E).
Proof. intros Hheap. unfold run_blocking_init_vertex. keeps_auto. Qed.

(** Every handler keeps a relation that holds across changes of the
    settings, of the Vertex configuration and of the credential manager
    objects. *)
Lemma keeps_handler r : heap_free E R -> keeps R (handler E r).
Proof.
  intros Hheap. destruct r; cbn [handler].
  - apply keeps_get_dashboard_data.
  - apply keeps_reset_stats.
  - apply keeps_update_config;
      [intros s; apply keeps_reload_credentials | apply keeps_run_blocking_init_vertex];
      exact Hheap.
  - apply keeps_routes; exact Hheap.
  - apply keeps_routes; exact Hheap.
  - apply keeps_ret; exact HR.
  - apply keeps_ret; exact HR.
Qed.

End FrameHandlers.

(** ** What the startup binds, and what stays bound *)

Section Startup.

Variable E : Collaborators.

Lemma same_globals_frame : frame E same_globals.
Proof.
  split.
  - intros st. repeat split.
  - intros a b c (H1 & H2 & H3) (H4 & H5 & H6). repeat split; congruence.
  - intros v st. repeat split.
  - intros level message st. repeat split.
Qed.

Lemma unbound_pool_untouched_frame : frame E unbound_pool_untouched.
Proof.
  split.
  - intros st H. split; [exact H | reflexivity].
  - intros a b c Hab Hbc Ha. destruct (Hab Ha) as (Hb & Hh).
    destruct (Hbc Hb) as (Hc & Hh'). split; congruence.
  - intros v st H. split; [exact H | reflexivity].
  - intros level message st H. split; [exact H | reflexivity].
Qed.

Lemma stays_well_formed_frame : frame E stays_well_formed.
Proof.
  split.
  - intros st H. exact H.
  - intros a b c Hab Hbc Ha. exact (Hbc (Hab Ha)).
  - intros v st H. exact H.
  - intros level message st H. exact H.
Qed.

Lemma stays_well_formed_heap_free : heap_free E stays_well_formed.
Proof.
  intros l o st Hwf l' Hl'. cbn in *. specialize (Hwf l' Hl').
  destruct (decide (l = l')) as [->|Hne].
  - rewrite lookup_insert_eq. eexists; reflexivity.
  - rewrite lookup_insert_ne by exact Hne. exact Hwf.
Qed.

Lemma steady_frame : frame E steady.
Proof.
  split.
  - intros st. split; [reflexivity | auto].
  - intros a b c (H1 & H2) (H3 & H4). split; [congruence | auto].
  - intros v st. split; [reflexivity | auto].
  - intros level message st. split; [reflexivity |].
    intros x Hx. cbn. apply in_or_app. left. exact Hx.
Qed.

(** No handler assigns a global of the dashboard module. *)
Lemma handler_same_globals r (st : State E) : same_globals st (snd (handler E r st)).
Proof.
  apply (keeps_handler E same_globals same_globals_frame); intros; intro; intros;
    repeat split.
Qed.

Lemma serve_all_same_globals rs (st : State E) : same_globals st (serve_all E rs st).
Proof.
  revert st. induction rs as [| r rs IH]; intros st; cbn [serve_all].
  - repeat split.
  - apply (frame_trans E _ same_globals_frame _ (snd (serve E r st))); [| apply IH].
    unfold serve. pose proof (handler_same_globals r st) as H.
    destruct (handler E r st) as [res st']. exact H.
Qed.

(** With no credential manager bound, an update reaches no credential
    manager object: the reload is skipped (line 419) and the
    re-initialisation runs on a manager of its own (lines 51-59). *)
Lemma update_config_unbound config_data (st : State E) :
  unbound_pool_untouched st (snd (update_config E config_data st)).
Proof.
  pose proof unbound_pool_untouched_frame as HR.
  assert (Hs : settings_free E unbound_pool_untouched)
    by (intros v st' H; split; [exact H | reflexivity]).
  assert (Hc : app_config_free E unbound_pool_untouched)
    by (intros v st' H; split; [exact H | reflexivity]).
  apply (keeps_update_config E _ HR Hs Hc).
  - intros s. unfold reload_credentials. apply keeps_bind_gets. intros st'.
    destruct (credential_manager st') eqn:Hcm.
    + intros Hn. congruence.
    + apply (frame_log E _ HR).
  - unfold run_blocking_init_vertex.
    apply keeps_try_except; [exact HR | | intros e; keeps_auto].
    apply keeps_bind_gets. intros st'.
    destruct (credential_manager st') eqn:Hcm.
    + intros Hn. congruence.
    + clear Hcm. as_keeps. keeps_auto.
Qed.

Lemma ends_bind {A B : Type} Q (m : M E A) (k : A -> M E B) :
  (forall a, ends Q (k a)) -> ends Q (bind m k).
Proof.
  intros Hk st b st'. unfold bind.
  destruct (m st) as [[a|e] st1]; [apply Hk | discriminate].
Qed.

(** The last line of the startup binds nothing to the dashboard: the
    three first arguments are [None], and the fourth is not used. *)
Lemma lifespan_startup_binds_nothing (st0 st1 : State E) :
  lifespan_startup E st0 = (Ok tt, st1) ->
  response_cache_manager st1 = None
  /\ active_requests_manager st1 = None
  /\ credential_manager st1 = None.
Proof.
  intros Hrun.
  assert (Hends : ends (fun st => response_cache_manager st = None
                                  /\ active_requests_manager st = None
                                  /\ credential_manager st = None) (lifespan_startup E)).
  { unfold lifespan_startup.
    repeat (apply ends_bind; intros ?).
    intros st r st' H. inversion H. repeat split. }
  exact (Hends _ _ _ Hrun).
Qed.

(** The credential manager that [app.state] and [app.main] hold after the
    startup is an object of the heap. *)
Lemma lifespan_startup_pool (st0 st1 : State E) :
  lifespan_startup E st0 = (Ok tt, st1) ->
  exists l, main_credential_manager st1 = Some l
            /\ app_state_credential_manager st1 = Some l
            /\ is_Some (heap st1 !! l).
Proof.
  set (R := fun st st' : State E =>
              main_credential_manager st' = main_credential_manager st
              /\ app_state_credential_manager st' = app_state_credential_manager st
              /\ forall l, is_Some (heap st !! l) -> is_Some (heap st' !! l)).
  assert (HR : frame E R).
  { split.
    - intros st. repeat split; auto.
    - intros a b c (H1 & H2 & H3) (H4 & H5 & H6). repeat split; [congruence .. | auto].
    - intros v st. repeat split; auto.
    - intros level message st. repeat split; auto. }
  assert (Hheap : heap_free E R).
  { intros l o st. repeat split. cbn. intros l' Hl'.
    destruct (decide (l = l')) as [->|Hne];
      [rewrite lookup_insert_eq; eexists; reflexivity
      | rewrite lookup_insert_ne by exact Hne; exact Hl']. }
  unfold lifespan_startup. unfold bind at 1.
  destruct (log E info _ st0) as [[[]|?] sta]; [| discriminate].
  unfold bind at 1.
  destruct (call (new_CredentialManager E) sta) as [[pool|?] stb]; [| discriminate].
  unfold bind at 1. cbn [gets]. unfold bind at 1. cbn [modify].
  set (l := fresh_loc E (heap stb)).
  set (stc := set_main_credential_manager (Some l) _).
  unfold bind at 1.
  destruct (getattr_settings E "GOOGLE_CREDENTIALS_JSON" stc) as [[blob|?] std] eqn:Hget;
    [| discriminate].
  assert (Hcd : R stc std).
  { pose proof (keeps_getattr_settings E R HR "GOOGLE_CREDENTIALS_JSON" stc) as H.
    rewrite Hget in H. exact H. }
  unfold bind at 1.
  match goal with
  | |- context [match ?m std with _ => _ end] =>
      assert (Hde : R std (snd (m std)))
        by (as_keeps; keeps_auto);
      destruct (m std) as [[[]|?] ste]; [| discriminate]
  end.
  unfold bind at 1.
  pose proof (keeps_call_init_vertex_ai E R HR l Hheap ste) as Hef.
  destruct (call_init_vertex_ai E l ste) as [[ok|?] stf]; [| discriminate].
  unfold bind at 1.
  match goal with
  | |- context [match ?m stf with _ => _ end] =>
      assert (Hfg : R stf (snd (m stf)))
        by (as_keeps; keeps_auto);
      destruct (m stf) as [[[]|?] stg]; [| discriminate]
  end.
  cbn. intros H. inversion H. subst st1. clear H. cbn.
  cbn [snd] in Hde, Hef, Hfg.
  pose proof (frame_trans E R HR _ _ _ Hcd
                (frame_trans E R HR _ _ _ Hde (frame_trans E R HR _ _ _ Hef Hfg)))
    as (Hmain & _ & Hobj).
  exists l. split; [| split].
  - rewrite Hmain. reflexivity.
  - reflexivity.
  - apply Hobj. subst stc. cbn. rewrite lookup_insert_eq. eexists; reflexivity.
Qed.

End Startup.

Section AfterStartup.

Variable E : Collaborators.

Lemma the_cache_manager_unbound attr (st : State E) :
  response_cache_manager st = None ->
  the_cache_manager E attr st = (Raise (none_has_no attr), st).
Proof. intros H. unfold the_cache_manager, bind, gets. rewrite H. reflexivity. Qed.

(** With no cache manager bound, the snapshot handler stops at its second
    line (line 80): after the cleanup of the statistics, the attribute
    access on [None] raises. *)
Lemma get_dashboard_data_unbound (st : State E) :
  response_cache_manager st = None ->
  get_dashboard_data E st =
  match maybe_cleanup E (world st) with
  | (Ok _, w) => (Raise (none_has_no "clean_expired"), set_world w st)
  | (Raise e, w) => (Raise e, set_world w st)
  end.
Proof.
  intros H. unfold get_dashboard_data.
  unfold bind at 1. unfold call at 1.
  destruct (maybe_cleanup E (world st)) as [[[]|e] w]; [| reflexivity].
  unfold bind at 1. unfold bind at 1.
  rewrite the_cache_manager_unbound by exact H. reflexivity.
Qed.

(** C2, at the state the startup leaves. After the startup sequence of
    main.py and any requests, [GET /dashboard-data] returns no snapshot:
    the handler raises, and when the cleanup of the statistics has gone
    through, what it raises is the [AttributeError] of the unbound cache
    manager, answered by 500, with no other change of the state than that
    cleanup. *)
Theorem dashboard_data_fails_after_startup (st0 st1 : State E) rs :
  lifespan_startup E st0 = (Ok tt, st1) ->
  let st := serve_all E rs st1 in
  (exists e, fst (get_dashboard_data E st) = Raise e)
  /\ forall w, maybe_cleanup E (world st) = (Ok tt, w) ->
       serve E GET_dashboard_data st =
       ({| status := 500; body := VStr "Internal Server Error" |}, set_world w st).
Proof.
  intros Hrun st.
  destruct (lifespan_startup_binds_nothing E _ _ Hrun) as (Hc & _ & _).
  destruct (serve_all_same_globals E rs st1) as (Hc' & _ & _).
  fold st in Hc'. rewrite Hc in Hc'.
  split.
  - rewrite (get_dashboard_data_unbound st Hc').
    destruct (maybe_cleanup E (world st)) as [[[]|e] w]; eexists; reflexivity.
  - intros w Hw. unfold serve, handler.
    rewrite (get_dashboard_data_unbound st Hc'), Hw. reflexivity.
Qed.

(** C9. When the startup sequence of main.py has completed, the
    credential manager it created is the one [app.main] and [app.state]
    hold, and the dashboard's global [credential_manager] is [None]:
    [init_dashboard_router] received the manager as [key_mgr], which it
    does not use.  After any sequence of requests the global is still
    [None], and an update, whatever its key and value, changes no
    credential manager object: nothing is cleared from the pool and
    nothing is loaded into it. *)
Theorem dashboard_never_bound (st0 st1 : State E) :
  lifespan_startup E st0 = (Ok tt, st1) ->
  (exists l, main_credential_manager st1 = Some l
             /\ app_state_credential_manager st1 = Some l
             /\ is_Some (heap st1 !! l))
  /\ credential_manager st1 = None
  /\ (forall c a cr k k' (st : State E),
        init_dashboard_router E c a cr k st = init_dashboard_router E c a cr k' st)
  /\ forall rs,
       credential_manager (serve_all E rs st1) = None
       /\ forall config_data,
            heap (snd (serve E (POST_update_config config_data) (serve_all E rs st1)))
            = heap (serve_all E rs st1).
Proof.
  intros Hrun.
  destruct (lifespan_startup_binds_nothing E _ _ Hrun) as (_ & _ & Hcm).
  split; [exact (lifespan_startup_pool E _ _ Hrun) |].
  split; [exact Hcm |].
  split; [reflexivity |].
  intros rs.
  destruct (serve_all_same_globals E rs st1) as (_ & _ & Hcm').
  rewrite Hcm in Hcm'.
  split; [exact Hcm' |].
  intros config_data.
  pose proof (update_config_unbound E config_data (serve_all E rs st1) Hcm') as (_ & Hheap).
  unfold serve, handler.
  destruct (update_config E config_data (serve_all E rs st1)) as [res st'].
  exact Hheap.
Qed.

End AfterStartup.

(** ** The credential blob *)

Section JsonErrors.

Ltac split_scrutinee H :=
  match type of H with
  | context [match ?x with _ => _ end] =>
      lazymatch x with
      | context [match _ with _ => _ end] => fail
      | _ => destruct x eqn:?
      end
  end.

(** [json.loads] raises no [HTTPException]: what it raises is a
    [JSONDecodeError], the [ValueError] of the digit limit or a
    [RecursionError]. *)
Lemma scan_raises_no_http fuel :
  (forall depth l e, scan_value fuel depth l = Raise e -> is_HTTPException e = false)
  /\ (forall depth l acc e,
        scan_elements fuel depth l acc = Raise e -> is_HTTPException e = false)
  /\ (forall depth l acc e,
        scan_members fuel depth l acc = Raise e -> is_HTTPException e = false).
Proof.
  induction fuel as [| fuel (IHv & IHe & IHm)].
  - repeat split; intros; cbn in *;
      match goal with H : Raise _ = Raise _ |- _ => inversion H; reflexivity end.
  - assert (Hv : forall depth l e,
               scan_value (S fuel) depth l = Raise e -> is_HTTPException e = false).
    { intros depth l e H. cbn [scan_value] in H.
      repeat split_scrutinee H; try discriminate H;
        try (inversion H; reflexivity);
        try (eapply IHm; eassumption); try (eapply IHe; eassumption).
      all: unfold scan_number in *;
        repeat match goal with
               | Hn : context [match ?x with _ => _ end] |- _ =>
                   lazymatch x with
                   | context [match _ with _ => _ end] => fail
                   | _ => destruct x eqn:?
                   end
               end;
        try discriminate;
        repeat match goal with
               | Hn : Some _ = Some _ |- _ => inversion Hn; clear Hn; subst
               end;
        try (inversion H; reflexivity). }
    split; [exact Hv |]. split.
    + intros depth l acc e H. cbn [scan_elements] in H.
      destruct (scan_value fuel depth l) as [[v r]|e0] eqn:Hs.
      * repeat split_scrutinee H; try discriminate H;
          try (inversion H; reflexivity); try (eapply IHe; eassumption).
      * inversion H; subst. eapply IHv; eassumption.
    + intros depth l acc e H. cbn [scan_members] in H.
      repeat split_scrutinee H; try discriminate H;
        try (inversion H; subst; reflexivity);
        try (eapply IHm; eassumption);
        try (inversion H; subst; eapply IHv; eassumption).
Qed.

Lemma json_loads_raises_no_http depth s e :
  json_loads depth s = Raise e -> is_HTTPException e = false.
Proof.
  unfold json_loads. intros H.
  destruct (scan_value _ _ _) as [[v r]|e0] eqn:Hs.
  - destruct (skip_ws r); [discriminate H | inversion H; reflexivity].
  - inversion H; subst.
    eapply (proj1 (scan_raises_no_http _)); eassumption.
Qed.

End JsonErrors.

Section Credentials.

Variable E : Collaborators.

Lemma not_sentinel_truthy (s : string) : is_sentinel s = false -> truthy (VStr s) = true.
Proof.
  unfold is_sentinel. intros H. apply orb_false_elim in H as [H _].
  apply negb_false_iff in H. exact H.
Qed.

(** The branch of the credential blob for a value that is no sentinel
    (lines 368-438): format check, assignment, reset of the fallback
    client, reload, persistence, re-initialisation. *)
Lemma google_branch s (st : State E) :
  is_sentinel s = false ->
  apply_config E (VStr "google_credentials_json") (VStr s) st =
  (precheck_credentials_json E s >>
   setattr_settings E "GOOGLE_CREDENTIALS_JSON" (VStr s) >>
   log E info "Google Credentials JSON 设置已更新（内容未记录）。" >>
   call (reset_global_fallback_client E) >>
   reload_credentials E s >>
   do_save_settings E >>
   reinitialize_vertex E >>
   ret None) st.
Proof.
  intros Hs. cbn [apply_config py_eq_str String.eqb Ascii.eqb Bool.eqb].
  unfold update_google_credentials_json.
  rewrite Hs, (not_sentinel_truthy s Hs). reflexivity.
Qed.

(** The format check refuses a text that yields no object and on which
    [json.loads] raises, and changes nothing: a [JSONDecodeError] is
    answered by the refusal of lines 376-379, another exception by the one
    of lines 382-383. *)
Lemma precheck_rejects s e (st : State E) :
  parse_multiple_json_credentials E s = Ok [] ->
  json_loads (json_nesting_limit E) s = Raise e ->
  exists dtl, precheck_credentials_json E s st = (Raise (HTTPException 422 dtl), st).
Proof.
  intros Hp Hj. unfold precheck_credentials_json, try_except, bind, lift.
  rewrite Hp. cbn. rewrite Hj. cbn.
  destruct (is_JSONDecodeError e); cbn; [eexists; reflexivity |].
  rewrite (json_loads_raises_no_http _ _ _ Hj). eexists; reflexivity.
Qed.

Lemma precheck_accepts s (st : State E) :
  precheck_passes E s -> precheck_credentials_json E s st = (Ok tt, st).
Proof.
  intros (l & Hp & Hl). unfold precheck_credentials_json, try_except, bind, lift.
  rewrite Hp. destruct l as [| o l]; cbn.
  - destruct Hl as [Hl | (v & Hv)]; [congruence |]. rewrite Hv. reflexivity.
  - reflexivity.
Qed.

(** What the format check does refuse.  An authorized update of the
    credential blob whose value is no sentinel, yields no object as a
    comma-separated list and is no JSON document that [json.loads] can
    read (it raises [JSONDecodeError], the [ValueError] of the digit limit
    or [RecursionError]) is answered by 422, and nothing is touched: no
    setting, no credential entry, nothing of the state. *)
Theorem malformed_blob_rejected d pw s (st : State E) :
  is_config_request d pw "google_credentials_json" (VStr s) ->
  authorized pw st ->
  is_sentinel s = false ->
  parse_multiple_json_credentials E s = Ok [] ->
  (exists e, json_loads (json_nesting_limit E) s = Raise e) ->
  status (fst (serve E (POST_update_config (VDict d)) st)) = 422
  /\ snd (serve E (POST_update_config (VDict d)) st) = st.
Proof.
  intros Hreq Hauth Hs Hp (e & Hj).
  assert (Hne : "google_credentials_json" <> "") by discriminate.
  destruct (precheck_rejects s e st Hp Hj) as (dtl & Hpre).
  assert (Hbranch : apply_config E (VStr "google_credentials_json") (VStr s) st
                    = (Raise (HTTPException 422 dtl), st)).
  { rewrite (google_branch s st Hs). unfold bind at 1. rewrite Hpre. reflexivity. }
  rewrite (serve_update_config E _ _ _ _
             (update_config_branch_raises E _ _ _ _ _ _ _ Hreq Hauth Hne Hbranch)).
  split; reflexivity.
Qed.

(** The re-initialisation helper catches whatever is raised inside it
    (lines 50, 71-72): it always returns. *)
Lemma run_blocking_init_vertex_runs (st : State E) :
  exists st', run_blocking_init_vertex E st = (Ok tt, st').
Proof.
  unfold run_blocking_init_vertex, try_except.
  match goal with
  | |- context [match ?m st with _ => _ end] => destruct (m st) as [[[]|e] st']
  end; eexists; reflexivity.
Qed.

Lemma reinitialize_vertex_runs (st : State E) :
  exists st', reinitialize_vertex E st = (Ok tt, st').
Proof.
  unfold reinitialize_vertex, try_except.
  match goal with
  | |- context [match ?m st with _ => _ end] => destruct (m st) as [[[]|e] st']
  end; eexists; reflexivity.
Qed.

Lemma in_logs_after_log level message (st : State E) :
  In (level, message) (logs (snd (log E level message st))).
Proof. cbn. apply in_or_app. right. left. reflexivity. Qed.

(** Symbolic execution: the scrutinee of an innermost stuck [match] is
    split in its cases, after the facts known of a collaborator's call have
    been used. *)
Ltac destruct_scrutinee :=
  match goal with
  | |- context [match ?x with _ => _ end] =>
      lazymatch x with
      | context [match _ with _ => _ end] => fail
      | _ => destruct x eqn:?
      end
  end.

Ltac use_call_facts :=
  match goal with
  | H : reinit_fails _ |- context [init_vertex_ai ?E ?s ?c ?p ?w] =>
      let e := fresh "e" in
      let He := fresh "He" in
      destruct (H s c p w) as (e & He);
      destruct (init_vertex_ai E s c p w) as [[? ?] ?];
      cbn in He; subst
  | H : refresh_fails _ |- context [refresh_models_config_cache ?E ?s ?c ?w] =>
      let e := fresh "e" in
      let He := fresh "He" in
      destruct (H s c w) as (e & He);
      destruct (refresh_models_config_cache E s c w) as [? ?];
      cbn in He; subst
  | H : forall p, exists n, get_total_credentials _ p = Ok n
    |- context [get_total_credentials ?E ?p] =>
      let n := fresh "n" in
      let Hn := fresh "Hn" in
      destruct (H p) as (n & Hn); rewrite Hn
  | H : forall p, exists n, fst (clear_json_string_credentials _ p) = Ok n
    |- context [clear_json_string_credentials ?E ?p] =>
      let n := fresh "n" in
      let Hn := fresh "Hn" in
      destruct (H p) as (n & Hn);
      destruct (clear_json_string_credentials E p) as [? ?];
      cbn in Hn; subst
  | H : forall l p, exists n, fst (load_credentials_from_json_list _ l p) = Ok n
    |- context [load_credentials_from_json_list ?E ?l ?p] =>
      let n := fresh "n" in
      let Hn := fresh "Hn" in
      destruct (H l p) as (n & Hn);
      destruct (load_credentials_from_json_list E l p) as [? ?];
      cbn in Hn; subst
  | |- context [<[?l := ?o]> ?h !! ?l] => rewrite (lookup_insert_eq h l o)
  | H : ?x = _ |- context [match ?x with _ => _ end] => rewrite H
  end.

Ltac exec :=
  unfold do_save_settings, do_refresh_models_config_cache, call_init_vertex_ai, query,
    method, try_except, bind, gets, call, lift, log, modify, ret;
  cbn [heap set_heap set_logs set_world settings app_config world credential_manager
       logs fst snd];
  repeat first
    [ progress cbn [heap set_heap set_logs set_world settings app_config world
                    credential_manager logs fst snd]
    | use_call_facts
    | destruct_scrutinee ].

(** When the Vertex initialisation raises, the helper logs the error. *)
Lemma run_blocking_init_vertex_logs_failure (st : State E) :
  reinit_fails E ->
  In (error, "执行 run_blocking_init_vertex 时出错: {e}")
     (logs (snd (run_blocking_init_vertex E st))).
Proof.
  intros Hfail. unfold run_blocking_init_vertex. unfold try_except at 1.
  match goal with
  | |- context [match ?m st with _ => _ end] =>
      assert (Hraise : exists e st', m st = (Raise e, st'))
        by (exec; do 2 eexists; reflexivity)
  end.
  destruct Hraise as (e & st' & ->). apply in_logs_after_log.
Qed.

Lemma announce_reinit_runs (st : State E) :
  (forall p, exists n, get_total_credentials E p = Ok n) ->
  well_formed st ->
  exists st', announce_reinit E st = (Ok tt, st').
Proof.
  intros Htotal Hwf. unfold announce_reinit.
  unfold bind at 1. cbn [gets].
  destruct (credential_manager st) as [l|] eqn:Hcm.
  - destruct (Hwf l Hcm) as (o & Ho).
    exec; try congruence; eexists; reflexivity.
  - eexists; reflexivity.
Qed.

Lemma try_except_bind_ok {A B : Type} (m : M E A) (k : A -> M E B) h st a st1 :
  m st = (Ok a, st1) -> try_except (bind m k) h st = try_except (k a) h st1.
Proof. intros H. unfold try_except, bind. rewrite H. reflexivity. Qed.

(** When the refresh of the model cache raises, the handler of lines
    437-438 logs the error. *)
Lemma reinitialize_vertex_logs_refresh_failure (st : State E) :
  refresh_fails E ->
  In (error, "重新初始化 Vertex AI 服务时出错: {str(e)}")
     (logs (snd (reinitialize_vertex E st))).
Proof.
  intros Hfail. unfold reinitialize_vertex. unfold try_except at 1.
  match goal with
  | |- context [match ?m st with _ => _ end] =>
      assert (Hraise : exists e st', m st = (Raise e, st'))
  end.
  { unfold bind at 1.
    match goal with
    | |- context [match ?m st with _ => _ end] => destruct (m st) as [[[]|e] sta]
    end; [| do 2 eexists; reflexivity].
    unfold bind at 1.
    destruct (run_blocking_init_vertex E sta) as [[[]|e] stb]; [| do 2 eexists; reflexivity].
    exec; do 2 eexists; reflexivity. }
  destruct Hraise as (e & st' & ->). apply in_logs_after_log.
Qed.

(** When the Vertex initialisation raises, the error the helper logged is
    in the log after the re-initialisation step. *)
Lemma reinitialize_vertex_logs_reinit_failure (st : State E) :
  (forall p, exists n, get_total_credentials E p = Ok n) ->
  well_formed st ->
  reinit_fails E ->
  In (error, "执行 run_blocking_init_vertex 时出错: {e}")
     (logs (snd (reinitialize_vertex E st))).
Proof.
  intros Htotal Hwf Hfail.
  destruct (announce_reinit_runs st Htotal Hwf) as (sta & Ha).
  destruct (run_blocking_init_vertex_runs sta) as (stb & Hb).
  pose proof (run_blocking_init_vertex_logs_failure sta Hfail) as Hlog.
  rewrite Hb in Hlog. cbn [snd] in Hlog.
  unfold reinitialize_vertex.
  rewrite (try_except_bind_ok _ _ _ _ _ _ Ha).
  rewrite (try_except_bind_ok _ _ _ _ _ _ Hb).
  match goal with
  | |- In _ (logs (snd (?m stb))) =>
      assert (Hk : keeps steady m)
        by (pose proof (steady_frame E); keeps_auto)
  end.
  apply (Hk stb). exact Hlog.
Qed.

(** The reload of the credential manager's entries returns when the
    methods it calls outside a [try] do. *)
Lemma reload_credentials_runs s objs (st : State E) :
  quiet_collaborators E ->
  well_formed st ->
  parse_multiple_json_credentials E s = Ok objs ->
  exists st', reload_credentials E s st = (Ok tt, st').
Proof.
  intros (_ & _ & Htotal & Hclear & Hload) Hwf Hparse.
  unfold reload_credentials. unfold bind at 1. cbn [gets].
  destruct (credential_manager st) as [l|] eqn:Hcm.
  - destruct (Hwf l Hcm) as (o & Ho). rewrite Hparse.
    exec; try congruence; eexists; reflexivity.
  - eexists; reflexivity.
Qed.

Lemma bind_ok {A B : Type} (m : M E A) (k : A -> M E B) st a st1 :
  m st = (Ok a, st1) -> bind m k st = k a st1.
Proof. intros H. unfold bind. rewrite H. reflexivity. Qed.

Lemma steady_heap_free : heap_free E steady.
Proof. intros l o st. split; [reflexivity | auto]. Qed.

(** The steps of the branch after the assignment of the setting: each
    returns, keeps the settings and the log, and leaves a well-formed
    state. *)
Lemma after_assignment_runs s (st : State E) :
  quiet_collaborators E ->
  precheck_passes E s ->
  well_formed st ->
  exists st',
    (call (reset_global_fallback_client E) >>
     reload_credentials E s >>
     do_save_settings E) st = (Ok tt, st')
    /\ steady st st' /\ well_formed st'.
Proof.
  intros Hq (objs & Hparse & _) Hwf.
  pose proof Hq as (Hsave & Hreset & _).
  pose proof (steady_frame E) as HS.
  pose proof (stays_well_formed_frame E) as HW.
  pose proof steady_heap_free as HSh.
  pose proof (stays_well_formed_heap_free E) as HWh.
  (* the reset of the fallback client *)
  assert (H1 : exists st1, call (reset_global_fallback_client E) st = (Ok tt, st1)
                           /\ steady st st1 /\ well_formed st1).
  { unfold call. pose proof (Hreset (world st)) as Hr.
    destruct (reset_global_fallback_client E (world st)) as [r w]. cbn in Hr. subst r.
    eexists. split; [reflexivity |]. split; [apply (frame_world E _ HS) | exact Hwf]. }
  destruct H1 as (st1 & E1 & S1 & W1).
  (* the reload *)
  destruct (reload_credentials_runs s objs st1 Hq W1 Hparse) as (st2 & E2).
  assert (S2 : steady st1 st2).
  { pose proof (keeps_reload_credentials E steady HS s HSh st1) as H.
    rewrite E2 in H. exact H. }
  assert (W2 : well_formed st2).
  { pose proof (keeps_reload_credentials E stays_well_formed HW s HWh st1) as H.
    rewrite E2 in H. exact (H W1). }
  (* the persistence hook *)
  assert (H3 : exists st3, do_save_settings E st2 = (Ok tt, st3)
                           /\ steady st2 st3 /\ well_formed st3).
  { unfold do_save_settings, bind, gets, call.
    pose proof (Hsave (settings st2) (world st2)) as Hr.
    destruct (save_settings E (settings st2) (world st2)) as [r w]. cbn in Hr. subst r.
    eexists. split; [reflexivity |]. split; [apply (frame_world E _ HS) | exact W2]. }
  destruct H3 as (st3 & E3 & S3 & W3).
  exists st3. split; [| split; [| exact W3]].
  - rewrite (bind_ok _ _ _ _ _ E1), (bind_ok _ _ _ _ _ E2). exact E3.
  - apply (frame_trans E _ HS _ st1); [exact S1 |].
    apply (frame_trans E _ HS _ st2); [exact S2 | exact S3].
Qed.


(** C6, where the code departs from it.  A text that yields no object as
    a comma-separated list and that [json.loads] reads as something else
    than an object (a number, a string, an array, [null]) parses neither
    as a single JSON object nor as a list of JSON objects.  The format
    check only asks whether [json.loads] raises (lines 372-379), so the
    text passes: the authorized update is answered by 200 and the text is
    stored as the blob, where the claim has 422 and no setting touched. *)
Theorem non_object_blob_is_stored d pw s v (st : State E) :
  is_config_request d pw "google_credentials_json" (VStr s) ->
  authorized pw st ->
  is_sentinel s = false ->
  parse_multiple_json_credentials E s = Ok [] ->
  json_loads (json_nesting_limit E) s = Ok v ->
  (forall items, v <> VDict items) ->
  quiet_collaborators E ->
  well_formed st ->
  let r := serve E (POST_update_config (VDict d)) st in
  fst r = {| status := 200; body := success "配置项 google_credentials_json 已更新" |}
  /\ settings (snd r) = <["GOOGLE_CREDENTIALS_JSON" := VStr s]> (settings st).
Proof.
  intros Hreq Hauth Hs Hparse Hj _ Hq Hwf.
  assert (Hpre : precheck_passes E s).
  { exists []. split; [exact Hparse |]. right. exists v. exact Hj. }
  assert (Hne : "google_credentials_json" <> "") by discriminate.
  pose proof Hq as (Hsave & _).
  pose proof (steady_frame E) as HS.
  set (st1 := snd ((setattr_settings E "GOOGLE_CREDENTIALS_JSON" (VStr s) >>
                    log E info "Google Credentials JSON 设置已更新（内容未记录）。") st)).
  assert (Hset : settings st1 = <["GOOGLE_CREDENTIALS_JSON" := VStr s]> (settings st))
    by reflexivity.
  assert (W1 : well_formed st1) by exact Hwf.
  destruct (after_assignment_runs s st1 Hq Hpre W1) as (st2 & E2 & S2 & W2).
  destruct (reinitialize_vertex_runs st2) as (st3 & E3).
  assert (S3 : steady st2 st3).
  { pose proof (keeps_reinitialize_vertex E steady HS
                  (keeps_run_blocking_init_vertex E steady HS steady_heap_free) st2) as H.
    rewrite E3 in H. exact H. }
  assert (Hbranch : apply_config E (VStr "google_credentials_json") (VStr s) st
                    = (Ok None, st3)).
  { rewrite (google_branch s st Hs).
    rewrite (bind_ok _ _ _ _ _ (precheck_accepts s st Hpre)).
    change ((call (reset_global_fallback_client E) >>
             reload_credentials E s >> do_save_settings E >>
             reinitialize_vertex E >> ret (None : option pyval)) st1 = (Ok None, st3)).
    unfold bind at 1.
    unfold bind at 1 2 in E2.
    destruct (call (reset_global_fallback_client E) st1) as [[[]|e] sta];
      [| discriminate E2].
    unfold bind at 1.
    destruct (reload_credentials E s sta) as [[[]|e] stb]; [| discriminate E2].
    rewrite (bind_ok _ _ _ _ _ E2), (bind_ok _ _ _ _ _ E3). reflexivity. }
  pose proof (update_config_branch_continues E _ _ _ _ _ _ Hreq Hauth Hne Hbranch) as Hup.
  pose proof (Hsave (settings st3) (world st3)) as Hok.
  destruct (save_settings E (settings st3) (world st3)) as [res w].
  cbn in Hok. subst res.
  cbv zeta. rewrite (serve_update_config E _ _ _ _ Hup). cbn [fst snd].
  destruct S2 as (Hs2 & Hl2). destruct S3 as (Hs3 & Hl3).
  split; [reflexivity |].
  cbn. rewrite Hs3, Hs2, Hset. reflexivity.
Qed.

End Credentials.

(** * Further properties of the handlers *)

Section Refusals.

Variable E : Collaborators.

Lemma bind_raise {A B : Type} (m : M E A) (k : A -> M E B) st e st1 :
  m st = (Raise e, st1) -> bind m k st = (Raise e, st1).
Proof. intros H. unfold bind. rewrite H. reflexivity. Qed.

Lemma try_except_raise {A : Type} (m : M E A) h st e st1 :
  m st = (Raise e, st1) -> try_except m h st = h e st1.
Proof. intros H. unfold try_except. rewrite H. reflexivity. Qed.

Lemma bind_inv {A B : Type} (m : M E A) (k : A -> M E B) st b st' :
  bind m k st = (Ok b, st') ->
  exists a st1, m st = (Ok a, st1) /\ k a st1 = (Ok b, st').
Proof.
  unfold bind. destruct (m st) as [[a|e] st1]; [| discriminate].
  intros H. exists a, st1. split; [reflexivity | exact H].
Qed.

Ltac bind_chain H :=
  repeat (apply bind_inv in H as (? & ? & _ & H)).

Lemma check_password_refuses data (st : State E) :
  password_accepted E data st = false ->
  exists c dtl,
    In c [400; 401; 422]
    /\ check_password E data st = (Raise (HTTPException c dtl), st).
Proof.
  unfold password_accepted, check_password. intros H.
  destruct data as [| | | | | |d];
    try (exists 422; eexists; split; [cbn; tauto | reflexivity]).
  destruct (dict_get "password" d) as [|b|n|f|pw|l|dd] eqn:Hp;
    try (destruct (truthy _); [exists 422 | exists 400]; eexists;
         (split; [cbn; tauto | reflexivity])).
  cbn [truthy]. destruct (String.eqb pw "") eqn:Hpw; cbn [negb andb] in *.
  - exists 400. eexists. split; [cbn; tauto | reflexivity].
  - unfold bind, gets. rewrite H. cbn [negb].
    exists 401. eexists. split; [cbn; tauto | reflexivity].
Qed.

Lemma password_accepted_authorized d (st : State E) :
  password_accepted E (VDict d) st = true ->
  exists pw, dict_get "password" d = VStr pw /\ authorized pw st.
Proof.
  unfold password_accepted. destruct (dict_get "password" d); try discriminate.
  intros H. apply andb_true_iff in H as (Hne & Hv).
  eexists. split; [reflexivity |]. split; [| exact Hv].
  intros ->. discriminate Hne.
Qed.

(** X2. Without a password the verifier accepts (the body is no object, the
    password is missing, empty, no string, or wrong), neither POST handler
    of the dashboard changes anything: both answer the same 400, 401 or 422
    and the whole state, with the statistics, is what it was. *)
Theorem no_change_without_password data (st : State E) :
  password_accepted E data st = false ->
  exists c dtl,
    In c [400; 401; 422]
    /\ serve E (POST_update_config data) st
       = ({| status := c; body := VDict [("detail", VStr dtl)] |}, st)
    /\ serve E (POST_reset_stats data) st
       = ({| status := c; body := VDict [("detail", VStr dtl)] |}, st).
Proof.
  intros H. destruct (check_password_refuses data st H) as (c & dtl & Hc & Hcp).
  exists c, dtl. split; [exact Hc |].
  unfold serve, handler, update_config, reset_stats.
  rewrite (try_except_raise _ _ _ _ _ (bind_raise _ _ _ _ _ Hcp)).
  rewrite (try_except_raise _ _ _ _ _ (bind_raise _ _ _ _ _ Hcp)).
  rewrite !reraise_or_500_spec. split; reflexivity.
Qed.

(** A branch that returns a response of its own returns a message. *)
Lemma apply_config_returns k v (st st' : State E) r :
  apply_config E k v st = (Ok (Some r), st') -> exists msg, r = success msg.
Proof.
  unfold apply_config. intros H.
  repeat match type of H with
         | (if py_eq_str k ?lit then _ else _) _ = _ =>
             destruct (py_eq_str k lit);
             [first [bind_chain H; discriminate H | idtac] |]
         end;
    try discriminate H.
  unfold update_google_credentials_json in H.
  destruct v as [| | | |s| |]; try discriminate H.
  destruct (is_sentinel s).
  - bind_chain H. inversion H. eexists; reflexivity.
  - bind_chain H. discriminate H.
Qed.

Lemma respond_raise_http e prefix :
  exists dtl,
    body (respond (Raise (if is_HTTPException e then e
                          else HTTPException 500 (prefix ++ exn_str e))))
    = VDict [("detail", VStr dtl)].
Proof. destruct e; cbn; eexists; reflexivity. Qed.


(** X4. With the password, [POST /reset-stats] calls the reset of the
    statistics once and does nothing else: no setting, no credential and no
    line of log changes.  It answers 200 when the reset returns, and the
    error of the reset otherwise (500 with its text, unless it is an
    [HTTPException]). *)
Theorem reset_stats_only_resets data (st : State E) :
  password_accepted E data st = true ->
  serve E (POST_reset_stats data) st
  = (match fst (stats_reset E (world st)) with
     | Ok _ => {| status := 200; body := success "API 调用统计数据已重置" |}
     | Raise e => error_response "重置失败：" e
     end,
     set_world (snd (stats_reset E (world st))) st).
Proof.
  intros H. destruct data as [| | | | | |d]; try discriminate H.
  destruct (password_accepted_authorized d st H) as (pw & Hp & Hauth).
  unfold serve, handler, reset_stats, try_except.
  unfold bind at 1. rewrite (check_password_ok E d pw st Hp Hauth).
  unfold bind, call, ret.
  destruct (stats_reset E (world st)) as [[[]|e] w]; cbn [fst snd].
  - reflexivity.
  - rewrite reraise_or_500_spec. reflexivity.
Qed.

End Refusals.

(** ** The keys of [POST /update-config], branch by branch *)

Section Acceptance.

Variable E : Collaborators.

Lemma serve_branch_continues d pw key value (st st' : State E) :
  is_config_request d pw key value -> authorized pw st -> key <> "" ->
  apply_config E (VStr key) value st = (Ok None, st') ->
  serve E (POST_update_config (VDict d)) st = persisted_response E key st'.
Proof.
  intros Hreq Hauth Hk Happ.
  pose proof (update_config_branch_continues E _ _ _ _ _ _ Hreq Hauth Hk Happ) as Hup.
  unfold persisted_response.
  destruct (save_settings E (settings st') (world st')) as [[[]|e] w]; cbn [fst snd].
  - exact (serve_update_config E _ _ _ _ Hup).
  - rewrite reraise_or_500_spec in Hup. exact (serve_update_config E _ _ _ _ Hup).
Qed.

Lemma serve_branch_raises d pw key value (st st' : State E) e :
  is_config_request d pw key value -> authorized pw st -> key <> "" ->
  apply_config E (VStr key) value st = (Raise e, st') ->
  serve E (POST_update_config (VDict d)) st = (error_response "更新失败：" e, st').
Proof.
  intros Hreq Hauth Hk Happ.
  pose proof (update_config_branch_raises E _ _ _ _ _ _ _ Hreq Hauth Hk Happ) as Hup.
  rewrite reraise_or_500_spec in Hup. exact (serve_update_config E _ _ _ _ Hup).
Qed.

Lemma persisted_response_frame key (st' : State E) :
  settings (snd (persisted_response E key st')) = settings st'
  /\ app_config (snd (persisted_response E key st')) = app_config st'
  /\ heap (snd (persisted_response E key st')) = heap st'
  /\ logs (snd (persisted_response E key st')) = logs st'
  /\ same_globals st' (snd (persisted_response E key st'))
  /\ (persistence_succeeds E ->
      fst (persisted_response E key st')
      = {| status := 200; body := success ("配置项 " ++ key ++ " 已更新") |}).
Proof.
  repeat split. intros Hsave. unfold persisted_response. cbn [fst].
  rewrite (Hsave (settings st') (world st')). reflexivity.
Qed.

Lemma apply_int_key_table key attr positive v (st : State E) :
  In (key, (attr, positive)) int_key_table ->
  key <> ""
  /\ exists bound_msg log_msg,
       apply_config E (VStr key) v st =
       (update_int_setting E attr positive bound_msg log_msg v >> ret None) st.
Proof.
  intros Hkey. cbn in Hkey.
  repeat (destruct Hkey as [Hkey|Hkey];
          [inversion Hkey; subst; split; [discriminate | do 2 eexists; reflexivity] |]).
  destruct Hkey.
Qed.

(** What an accepted value of an integer key does: the assignment, the
    line of log, the common tail. *)
Lemma int_key_assigns d pw key attr positive value n (st : State E) :
  In (key, (attr, positive)) int_key_table ->
  is_config_request d pw key value ->
  authorized pw st ->
  py_int (int_nonascii E) value = Ok n ->
  (if positive then 0 < n else 0 <= n) ->
  exists msg,
    serve E (POST_update_config (VDict d)) st
    = persisted_response E key
        (snd (log E info msg (set_settings (<[attr := VInt n]> (settings st)) st))).
Proof.
  intros Hkey Hreq Hauth Hint Hbound.
  destruct (apply_int_key_table key attr positive value st Hkey) as (Hne & bm & lm & Happ).
  assert (Hb : (if positive then n <=? 0 else n <? 0) = false).
  { destruct positive; [apply Z.leb_gt | apply Z.ltb_ge]; exact Hbound. }
  assert (Hbranch : apply_config E (VStr key) value st
                    = (Ok None,
                       snd (log E info lm (set_settings (<[attr := VInt n]> (settings st)) st)))).
  { rewrite Happ. unfold bind. rewrite update_int_setting_spec, Hint, Hb. reflexivity. }
  exists lm. exact (serve_branch_continues _ _ _ _ _ _ Hreq Hauth Hne Hbranch).
Qed.

(** X5. An integer key given a value [int()] converts to a number within the
    bound ([> 0], or [>= 0] for the two keys that allow zero): the attribute
    is assigned that number and nothing else of the settings, the Vertex
    configuration, the credential managers or the dashboard's globals
    changes; one line is logged; the persistence hook runs on the new
    settings, and the answer is 200 when it returns.  When the hook raises,
    the answer is its error (500 with its text) and the attribute keeps the
    new value: the assignment is not undone. *)
Theorem int_key_accepts d pw key attr positive value n (st : State E) :
  In (key, (attr, positive)) int_key_table ->
  is_config_request d pw key value ->
  authorized pw st ->
  py_int (int_nonascii E) value = Ok n ->
  (if positive then 0 < n else 0 <= n) ->
  let r := serve E (POST_update_config (VDict d)) st in
  let new := <[attr := VInt n]> (settings st) in
  settings (snd r) = new
  /\ app_config (snd r) = app_config st
  /\ heap (snd r) = heap st
  /\ same_globals st (snd r)
  /\ exists msg,
       logs (snd r) = (logs st ++ [(info, msg)])%list
       /\ let w := log_sink E info msg (world st) in
          world (snd r) = snd (save_settings E new w)
          /\ fst r = match fst (save_settings E new w) with
                     | Ok _ => {| status := 200;
                                  body := success ("配置项 " ++ key ++ " 已更新") |}
                     | Raise e => error_response "更新失败：" e
                     end.
Proof.
  intros Hkey Hreq Hauth Hint Hbound.
  destruct (int_key_assigns _ _ _ _ _ _ _ _ Hkey Hreq Hauth Hint Hbound) as (lm & Hserve).
  cbv zeta. rewrite Hserve.
  repeat split. exists lm. repeat split.
Qed.

(** X6. The two keys that allow zero refuse a value [int()] converts to a
    negative number, and a string [int()] does not read as a number, with
    422; nothing changes.  (The conversion comes first: [-0.5] is cut to 0
    and stored, and minus infinity is answered by 500, see X7.) *)
Theorem nonnegative_int_key_rejects d pw key value (st : State E) :
  In key nonnegative_int_keys ->
  is_config_request d pw key value ->
  authorized pw st ->
  (exists n, py_int (int_nonascii E) value = Ok n /\ n < 0)
  \/ non_numeric_string E value = true ->
  status (fst (serve E (POST_update_config (VDict d)) st)) = 422
  /\ snd (serve E (POST_update_config (VDict d)) st) = st.
Proof.
  intros Hkey Hreq Hauth Hval.
  assert (Htab : exists attr, In (key, (attr, false)) int_key_table).
  { cbn in Hkey. destruct Hkey as [<-|[<-|[]]]; eexists; cbn; tauto. }
  destruct Htab as (attr & Htab).
  destruct (apply_int_key_table key attr false value st Htab) as (Hne & bm & lm & Happ).
  assert (Hbranch : exists dtl,
             apply_config E (VStr key) value st = (Raise (HTTPException 422 dtl), st)).
  { rewrite Happ. unfold bind. rewrite update_int_setting_spec.
    destruct Hval as [(n & Hint & Hn)|Hns].
    - rewrite Hint. apply Z.ltb_lt in Hn. rewrite Hn. eexists; reflexivity.
    - unfold non_numeric_string in Hns. destruct value; try discriminate Hns.
      destruct (py_int (int_nonascii E) (VStr s)) as [n|e] eqn:Hint; [discriminate Hns |].
      rewrite (py_int_str_raises E _ _ Hint). eexists; reflexivity. }
  destruct Hbranch as (dtl & Hbranch).
  rewrite (serve_branch_raises _ _ _ _ _ _ _ Hreq Hauth Hne Hbranch).
  split; reflexivity.
Qed.

(** X7. An integer key given a number that is no integer.  A boolean is an
    integer for [int()]: [true] is stored as 1.  A float is cut to its
    integer part, towards zero, and the bound is checked on the result: a
    finite float is stored as that integer, or refused with 422 when the
    integer is out of bound.  NaN is refused with 422, and an infinity, on
    which [int()] raises [OverflowError], is answered by 500; both leave
    the state as it was. *)
Theorem int_key_given_other_numbers d pw key attr positive value (st : State E) :
  In (key, (attr, positive)) int_key_table ->
  is_config_request d pw key value ->
  authorized pw st ->
  let r := serve E (POST_update_config (VDict d)) st in
  (value = VBool true -> settings (snd r) = <[attr := VInt 1]> (settings st))
  /\ (value = VFloat S754_nan -> status (fst r) = 422 /\ snd r = st)
  /\ (forall s, value = VFloat (S754_infinity s) -> status (fst r) = 500 /\ snd r = st)
  /\ (forall f n, value = VFloat f -> float_trunc f = Some n ->
        if (if positive then n <=? 0 else n <? 0)
        then status (fst r) = 422 /\ snd r = st
        else settings (snd r) = <[attr := VInt n]> (settings st)).
Proof.
  intros Hkey Hreq Hauth. cbv zeta.
  destruct (apply_int_key_table key attr positive value st Hkey) as (Hne & bm & lm & Happ).
  split; [| split; [| split]].
  - intros ->.
    assert (Hint : py_int (int_nonascii E) (VBool true) = Ok 1) by reflexivity.
    assert (Hbound : if positive then 0 < 1 else 0 <= 1) by (destruct positive; lia).
    destruct (int_key_assigns _ _ _ _ _ _ _ _ Hkey Hreq Hauth Hint Hbound) as (msg & ->).
    reflexivity.
  - intros ->.
    assert (Hbranch : exists dtl,
               apply_config E (VStr key) (VFloat S754_nan) st
               = (Raise (HTTPException 422 dtl), st)).
    { rewrite Happ. unfold bind. rewrite update_int_setting_spec. eexists; reflexivity. }
    destruct Hbranch as (dtl & Hbranch).
    rewrite (serve_branch_raises _ _ _ _ _ _ _ Hreq Hauth Hne Hbranch).
    split; reflexivity.
  - intros s ->.
    assert (Hbranch : exists m,
               apply_config E (VStr key) (VFloat (S754_infinity s)) st
               = (Raise (OverflowError m), st)).
    { rewrite Happ. unfold bind. rewrite update_int_setting_spec. eexists; reflexivity. }
    destruct Hbranch as (m & Hbranch).
    rewrite (serve_branch_raises _ _ _ _ _ _ _ Hreq Hauth Hne Hbranch).
    split; reflexivity.
  - intros f n -> Hn.
    assert (Hint : py_int (int_nonascii E) (VFloat f) = Ok n).
    { unfold py_int. destruct f; try discriminate Hn; rewrite Hn; reflexivity. }
    destruct (if positive then n <=? 0 else n <? 0) eqn:Hb.
    + assert (Hbranch : exists dtl,
                 apply_config E (VStr key) (VFloat f) st = (Raise (HTTPException 422 dtl), st)).
      { rewrite Happ. unfold bind. rewrite update_int_setting_spec, Hint, Hb.
        eexists; reflexivity. }
      destruct Hbranch as (dtl & Hbranch).
      rewrite (serve_branch_raises _ _ _ _ _ _ _ Hreq Hauth Hne Hbranch).
      split; reflexivity.
    + assert (Hbound : if positive then 0 < n else 0 <= n)
        by (destruct positive; [apply Z.leb_gt | apply Z.ltb_ge]; exact Hb).
      destruct (int_key_assigns _ _ _ _ _ _ _ _ Hkey Hreq Hauth Hint Hbound) as (msg & ->).
      reflexivity.
Qed.

Lemma int_key_table_functional k1 a1 p1 k2 a2 p2 :
  In (k1, (a1, p1)) int_key_table -> In (k2, (a2, p2)) int_key_table ->
  (k1 = k2 -> a1 = a2) /\ (k1 <> k2 -> a1 <> a2).
Proof.
  intros H1 H2. cbn in H1, H2.
  repeat (destruct H1 as [H1|H1]; [inversion H1; subst; clear H1 |]); [.. | destruct H1];
    repeat (destruct H2 as [H2|H2]; [inversion H2; subst; clear H2 |]); try destruct H2;
    split; intros H; try reflexivity; try discriminate; try congruence.
Qed.

(** X8. Two accepted updates of integer keys, one after the other: the
    settings are the first ones with both assignments.  For the same key
    the second value replaces the first, and for two keys the order of the
    updates makes no difference to the settings. *)
Theorem int_updates_compose d1 d2 pw k1 k2 a1 a2 p1 p2 v1 v2 n1 n2 (st : State E) :
  In (k1, (a1, p1)) int_key_table ->
  In (k2, (a2, p2)) int_key_table ->
  is_config_request d1 pw k1 v1 ->
  is_config_request d2 pw k2 v2 ->
  py_int (int_nonascii E) v1 = Ok n1 ->
  py_int (int_nonascii E) v2 = Ok n2 ->
  (if p1 then 0 < n1 else 0 <= n1) ->
  (if p2 then 0 < n2 else 0 <= n2) ->
  authorized pw st ->
  authorized pw (snd (serve E (POST_update_config (VDict d1)) st)) ->
  let st2 := snd (serve E (POST_update_config (VDict d2))
                    (snd (serve E (POST_update_config (VDict d1)) st))) in
  settings st2 = <[a2 := VInt n2]> (<[a1 := VInt n1]> (settings st))
  /\ (k1 = k2 -> settings st2 = <[a2 := VInt n2]> (settings st))
  /\ (k1 <> k2 -> settings st2 = <[a1 := VInt n1]> (<[a2 := VInt n2]> (settings st))).
Proof.
  intros Hk1 Hk2 Hr1 Hr2 Hi1 Hi2 Hb1 Hb2 Hauth Hauth1.
  destruct (int_key_assigns _ _ _ _ _ _ _ _ Hk1 Hr1 Hauth Hi1 Hb1) as (m1 & Hs1).
  destruct (int_key_assigns _ _ _ _ _ _ _ _ Hk2 Hr2 Hauth1 Hi2 Hb2) as (m2 & Hs2).
  destruct (int_key_table_functional _ _ _ _ _ _ Hk1 Hk2) as (Hsame & Hdiff).
  cbv zeta. rewrite Hs2. rewrite Hs1.
  assert (Hset : settings (snd (persisted_response E k2
                   (snd (log E info m2
                      (set_settings
                         (<[a2 := VInt n2]>
                            (settings (snd (persisted_response E k1
                               (snd (log E info m1
                                  (set_settings (<[a1 := VInt n1]> (settings st)) st)))))))
                         (snd (persisted_response E k1
                            (snd (log E info m1
                               (set_settings (<[a1 := VInt n1]> (settings st)) st))))))))))
                 = <[a2 := VInt n2]> (<[a1 := VInt n1]> (settings st))) by reflexivity.
  rewrite Hset. split; [reflexivity |]. split.
  - intros Hk. rewrite (Hsame Hk). apply insert_insert_eq.
  - intros Hk. apply insert_insert_ne. intros Heq. exact (Hdiff Hk (eq_sym Heq)).
Qed.

(** X9. The keys checked with [isinstance]: a boolean key refuses every value
    that is no [bool] (the numbers 0 and 1 and [null] as well as a string),
    a string key every value that is no [str], with 422 and before
    anything is assigned. *)
Theorem typed_key_rejects_other_types d pw key value (st : State E) :
  is_config_request d pw key value ->
  authorized pw st ->
  (In key bool_keys /\ is_bool value = false)
  \/ (In key string_keys /\ is_str value = false) ->
  status (fst (serve E (POST_update_config (VDict d)) st)) = 422
  /\ snd (serve E (POST_update_config (VDict d)) st) = st.
Proof.
  intros Hreq Hauth Hcase.
  assert (Hbranch : key <> "" /\ exists dtl,
             apply_config E (VStr key) value st = (Raise (HTTPException 422 dtl), st)).
  { destruct Hcase as [(Hkey & Hv)|(Hkey & Hv)]; cbn in Hkey.
    - repeat (destruct Hkey as [<-|Hkey];
              [split; [discriminate |];
               cbn [apply_config py_eq_str String.eqb Ascii.eqb Bool.eqb];
               unfold update_fake_streaming, update_bool_setting;
               rewrite ?Hv; cbn [negb]; eexists; reflexivity |]).
      destruct Hkey.
    - repeat (destruct Hkey as [<-|Hkey];
              [split; [discriminate |];
               cbn [apply_config py_eq_str String.eqb Ascii.eqb Bool.eqb];
               unfold update_vertex_express_api_key, update_google_credentials_json;
               destruct value; try discriminate Hv; eexists; reflexivity |]).
      destruct Hkey. }
  destruct Hbranch as (Hne & dtl & Hbranch).
  rewrite (serve_branch_raises _ _ _ _ _ _ _ Hreq Hauth Hne Hbranch).
  split; reflexivity.
Qed.

(** X10. A boolean key without side effect given [true] or [false]: the
    attribute is assigned and nothing else changes; the persistence hook
    runs, and the answer is 200 when it returns. *)
Theorem plain_bool_key_accepts d pw key attr b (st : State E) :
  In (key, attr) plain_bool_key_table ->
  is_config_request d pw key (VBool b) ->
  authorized pw st ->
  let r := serve E (POST_update_config (VDict d)) st in
  settings (snd r) = <[attr := VBool b]> (settings st)
  /\ app_config (snd r) = app_config st
  /\ heap (snd r) = heap st
  /\ same_globals st (snd r)
  /\ (persistence_succeeds E ->
      fst r = {| status := 200; body := success ("配置项 " ++ key ++ " 已更新") |}).
Proof.
  intros Hkey Hreq Hauth.
  assert (Hbranch : key <> "" /\ exists lm,
             apply_config E (VStr key) (VBool b) st
             = (Ok None,
                snd (log E info lm (set_settings (<[attr := VBool b]> (settings st)) st)))).
  { cbn in Hkey.
    repeat (destruct Hkey as [Hkey|Hkey];
            [inversion Hkey; subst; split; [discriminate | eexists; reflexivity] |]).
    destruct Hkey. }
  destruct Hbranch as (Hne & lm & Hbranch).
  cbv zeta. rewrite (serve_branch_continues _ _ _ _ _ _ Hreq Hauth Hne Hbranch).
  pose proof (persisted_response_frame key
                (snd (log E info lm (set_settings (<[attr := VBool b]> (settings st)) st))))
    as (H1 & H2 & H3 & _ & H5 & H6).
  rewrite H1, H2, H3. repeat split; try apply H5. exact H6.
Qed.

(** X11. [fake_streaming] given a boolean: the setting is assigned, then the
    Vertex configuration is synchronised on a best-effort basis (lines
    239-245).  Whatever the synchronisation does, the setting holds the new
    value and the answer is 200 once the persistence hook has returned; the
    log tells whether the synchronisation went through or raised. *)
Theorem fake_streaming_sync_is_best_effort d pw b (st : State E) :
  is_config_request d pw "fake_streaming" (VBool b) ->
  authorized pw st ->
  let r := serve E (POST_update_config (VDict d)) st in
  let sync :=
    vertex_update_config E "FAKE_STREAMING" (VBool b)
      (<["FAKE_STREAMING_ENABLED" := VBool b]> (app_config st))
      (log_sink E info "假流式请求已更新为：{config_value}" (world st)) in
  settings (snd r) = <["FAKE_STREAMING" := VBool b]> (settings st)
  /\ heap (snd r) = heap st
  /\ same_globals st (snd r)
  /\ match fst (fst sync) with
     | Ok _ =>
         logs (snd r)
         = (logs st ++ [ (info, "假流式请求已更新为：{config_value}");
                         (info, "已同步更新 Vertex 中的假流式设置为：{config_value}") ])%list
     | Raise _ =>
         logs (snd r)
         = (logs st ++ [ (info, "假流式请求已更新为：{config_value}");
                         (warning, "更新 Vertex 假流式设置时出错: {str(e)}") ])%list
     end
  /\ (persistence_succeeds E ->
      fst r = {| status := 200; body := success "配置项 fake_streaming 已更新" |}).
Proof.
  intros Hreq Hauth.
  assert (Hne : "fake_streaming" <> "") by discriminate.
  set (sync := vertex_update_config E "FAKE_STREAMING" (VBool b)
                 (<["FAKE_STREAMING_ENABLED" := VBool b]> (app_config st))
                 (log_sink E info "假流式请求已更新为：{config_value}" (world st))).
  assert (Hbranch : exists st',
             apply_config E (VStr "fake_streaming") (VBool b) st = (Ok None, st')
             /\ settings st' = <["FAKE_STREAMING" := VBool b]> (settings st)
             /\ heap st' = heap st /\ same_globals st st'
             /\ logs st'
                = (logs st ++ [ (info, "假流式请求已更新为：{config_value}");
                     match fst (fst sync) with
                     | Ok _ => (info, "已同步更新 Vertex 中的假流式设置为：{config_value}")
                     | Raise _ => (warning, "更新 Vertex 假流式设置时出错: {str(e)}")
                     end ])%list).
  { cbn [apply_config py_eq_str String.eqb Ascii.eqb Bool.eqb].
    unfold update_fake_streaming. cbn [is_bool negb].
    unfold try_except, bind, setattr_settings, setattr_app_config, do_vertex_update_config,
      log, modify, ret.
    cbn [app_config set_app_config set_settings set_logs set_world world settings logs].
    fold sync.
    destruct sync as [[[[]|e] c] w]; cbn [fst snd]; eexists;
      (split; [reflexivity |]); cbn; rewrite <- app_assoc; repeat split. }
  destruct Hbranch as (st' & Hbranch & Hs & Hh & Hg & Hl).
  cbv zeta. rewrite (serve_branch_continues _ _ _ _ _ _ Hreq Hauth Hne Hbranch).
  pose proof (persisted_response_frame "fake_streaming" st') as (H1 & _ & H3 & H4 & H5 & H6).
  rewrite H1, H3, H4, Hs, Hh, Hl.
  split; [reflexivity |]. split; [reflexivity |].
  split; [apply (frame_trans E _ (same_globals_frame E) _ st'); assumption |].
  split; [destruct (fst (fst sync)); reflexivity | exact H6].
Qed.

Lemma dict_get_setitem_eq k v d : dict_get k (dict_setitem k v d) = v.
Proof.
  induction d as [| [k' v'] d IH]; cbn.
  - rewrite String.eqb_refl. reflexivity.
  - destruct (String.eqb k' k) eqn:Hk; cbn; rewrite Hk; [reflexivity | exact IH].
Qed.

Lemma dict_get_setitem_ne k k' v d :
  k' <> k -> dict_get k' (dict_setitem k v d) = dict_get k' d.
Proof.
  intros Hne. induction d as [| [k0 v0] d IH]; cbn.
  - destruct (String.eqb_spec k k'); [congruence | reflexivity].
  - destruct (String.eqb_spec k0 k) as [->|Hk]; cbn.
    + destruct (String.eqb_spec k k'); [congruence | reflexivity].
    + destruct (String.eqb k0 k'); [reflexivity | exact IH].
Qed.

(** X12. The two keys kept in the dict [settings.search]: [search_mode] given a
    boolean and [search_prompt] given a string (any string: the empty one
    and [true] are stored like the others) replace their own item of the
    dict; the other items and the other settings stay. *)
Theorem search_update_keeps_other_items d pw key value sd (st : State E) :
  is_config_request d pw key value ->
  authorized pw st ->
  (key = "search_mode" /\ is_bool value = true)
  \/ (key = "search_prompt" /\ is_str value = true) ->
  settings st !! "search" = Some (VDict sd) ->
  let r := serve E (POST_update_config (VDict d)) st in
  exists sd',
    settings (snd r) = <["search" := VDict sd']> (settings st)
    /\ dict_get key sd' = value
    /\ (forall k, k <> key -> dict_get k sd' = dict_get k sd)
    /\ (persistence_succeeds E ->
        fst r = {| status := 200; body := success ("配置项 " ++ key ++ " 已更新") |}).
Proof.
  intros Hreq Hauth Hcase Hsearch.
  assert (Hbranch : key <> "" /\ exists lm,
             apply_config E (VStr key) value st
             = (Ok None,
                snd (log E info lm
                       (set_settings (<["search" := VDict (dict_setitem key value sd)]>
                                        (settings st)) st)))).
  { destruct Hcase as [(-> & Hv)|(-> & Hv)]; (split; [discriminate |]);
      destruct value; try discriminate Hv;
      cbn [apply_config py_eq_str String.eqb Ascii.eqb Bool.eqb is_bool negb];
      unfold set_search_item, getattr_settings, bind, gets;
      rewrite Hsearch; eexists; reflexivity. }
  destruct Hbranch as (Hne & lm & Hbranch).
  cbv zeta. rewrite (serve_branch_continues _ _ _ _ _ _ Hreq Hauth Hne Hbranch).
  match goal with
  | |- context [persisted_response E key ?s] =>
      pose proof (persisted_response_frame key s) as (H1 & _ & _ & _ & _ & H6)
  end.
  exists (dict_setitem key value sd). rewrite H1.
  split; [reflexivity |]. split; [apply dict_get_setitem_eq |].
  split; [intros k Hk; apply dict_get_setitem_ne; exact Hk | exact H6].
Qed.

End Acceptance.

Section Bytes.

Lemma bytes_of_is_byte s : Forall is_byte (bytes_of s).
Proof.
  unfold bytes_of. apply List.Forall_forall. intros z Hz.
  apply in_map_iff in Hz as (c & <- & _). unfold is_byte.
  pose proof (N_ascii_bounded c) as H. lia.
Qed.

Lemma bytes_of_string_of_bytes l :
  Forall is_byte l -> bytes_of (string_of_bytes l) = l.
Proof.
  unfold bytes_of, string_of_bytes. intros H.
  rewrite list_ascii_of_string_of_list_ascii, map_map.
  induction H as [| z l Hz _ IH]; cbn; [reflexivity |]. f_equal; [| exact IH].
  unfold is_byte in Hz. rewrite N_ascii_embedding by lia. lia.
Qed.

Lemma string_of_bytes_of s : string_of_bytes (bytes_of s) = s.
Proof.
  unfold bytes_of, string_of_bytes. rewrite map_map.
  rewrite <- (string_of_list_ascii_of_string s) at 2. f_equal.
  induction (list_ascii_of_string s) as [| c l IH]; cbn; [reflexivity |].
  rewrite N2Z.id, ascii_N_embedding, IH. reflexivity.
Qed.

Lemma split_comma_aux_pieces l cur :
  Forall is_byte l -> Forall is_byte cur -> ~ In 44 cur ->
  Forall (fun p => Forall is_byte p /\ ~ In 44 p) (split_comma_aux l cur).
Proof.
  intros Hl. revert cur. induction Hl as [| c l Hc _ IH]; intros cur Hcur Hno; cbn.
  - constructor; [| constructor]. split.
    + apply List.Forall_forall. intros z Hz. apply in_rev in Hz.
      rewrite List.Forall_forall in Hcur. auto.
    + intros Hin. apply Hno. apply in_rev. exact Hin.
  - destruct (Z.eqb_spec c 44) as [->|Hne].
    + constructor.
      * split.
        -- apply List.Forall_forall. intros z Hz. apply in_rev in Hz.
           rewrite List.Forall_forall in Hcur. auto.
        -- intros Hin. apply Hno. apply in_rev. exact Hin.
      * apply IH; [constructor | intros []].
    + apply IH; [constructor; assumption |].
      intros [Heq|Hin]; [congruence | exact (Hno Hin)].
Qed.

Lemma split_comma_aux_no_comma l cur :
  ~ In 44 l -> split_comma_aux l cur = [rev cur ++ l]%list.
Proof.
  revert cur. induction l as [| c l IH]; intros cur Hno; cbn.
  - rewrite app_nil_r. reflexivity.
  - destruct (Z.eqb_spec c 44) as [->|Hne]; [exfalso; apply Hno; left; reflexivity |].
    rewrite IH by (intros Hin; apply Hno; right; exact Hin).
    cbn. rewrite <- app_assoc. reflexivity.
Qed.

Lemma lstrip_fuel_incl prefix n l : incl (lstrip_fuel prefix n l) l.
Proof.
  revert l. induction n as [| n IH]; intros l; cbn; [apply incl_refl |].
  destruct (prefix l) as [k|]; [| apply incl_refl].
  intros z Hz. apply IH in Hz.
  rewrite <- (firstn_skipn k l). apply in_or_app. right. exact Hz.
Qed.

Lemma py_strip_incl s : incl (bytes_of (py_strip s)) (bytes_of s).
Proof.
  unfold py_strip.
  set (l := bytes_of s).
  set (l1 := lstrip_fuel space_prefix (length l) l).
  set (r := lstrip_fuel space_suffix (length l1) (rev l1)).
  assert (Hr : incl (rev r) l).
  { intros z Hz. apply in_rev in Hz. apply lstrip_fuel_incl in Hz.
    apply in_rev in Hz. apply lstrip_fuel_incl in Hz. exact Hz. }
  rewrite bytes_of_string_of_bytes; [exact Hr |].
  apply List.Forall_forall. intros z Hz. apply Hr in Hz.
  pose proof (bytes_of_is_byte s) as Hb. rewrite List.Forall_forall in Hb. auto.
Qed.

Lemma has_comma_false s : has_comma s = false <-> ~ In 44 (bytes_of s).
Proof.
  unfold has_comma. split.
  - intros H Hin. assert (existsb (Z.eqb 44) (bytes_of s) = true); [| congruence].
    apply existsb_exists. exists 44. split; [exact Hin | reflexivity].
  - intros H. destruct (existsb (Z.eqb 44) (bytes_of s)) eqn:Hex; [| reflexivity].
    apply existsb_exists in Hex as (z & Hz & Heq). apply Z.eqb_eq in Heq. subst z.
    contradiction.
Qed.

(** No extracted key is empty or holds a comma, and a value without comma
    gives its stripped text as the only key, or no key when that is empty. *)
Lemma express_keys_spec s :
  Forall (fun k => k <> "" /\ has_comma k = false) (express_keys s)
  /\ (has_comma s = false ->
      express_keys s = if String.eqb (py_strip s) "" then [] else [py_strip s]).
Proof.
  split.
  - unfold express_keys. apply List.Forall_forall. intros k Hk.
    apply filter_In in Hk as (Hin & Hne). split.
    + intros ->. discriminate Hne.
    + apply in_map_iff in Hin as (piece & <- & Hpiece).
      unfold py_split_comma in Hpiece.
      apply in_map_iff in Hpiece as (p & <- & Hp).
      pose proof (split_comma_aux_pieces (bytes_of s) [] (bytes_of_is_byte s)
                    (List.Forall_nil _) (fun H => H)) as Hall.
      rewrite List.Forall_forall in Hall. destruct (Hall p Hp) as (Hbytes & Hno).
      apply has_comma_false. intros Hin. apply py_strip_incl in Hin.
      rewrite bytes_of_string_of_bytes in Hin by exact Hbytes. contradiction.
  - intros Hno. apply has_comma_false in Hno.
    unfold express_keys, py_split_comma.
    rewrite (split_comma_aux_no_comma _ [] Hno). cbn [rev app map List.filter].
    rewrite string_of_bytes_of. cbn [truthy].
    destruct (String.eqb (py_strip s) ""); reflexivity.
Qed.

End Bytes.

Section ExpressKeyAndInterval.

Variable E : Collaborators.


(** X14. [fake_streaming_interval], by what [float()] makes of the value: a
    number [<= 0] is refused with 422 and so is a string [float()] does not
    read; a value [float()] raises a [TypeError] on ([null], a list, an
    object) or an [OverflowError] on (an integer past the largest float)
    is answered by 500; in these cases nothing changes.  Any other
    number is stored, the Vertex configuration is synchronised on a
    best-effort basis, and the answer is 200 once the persistence hook has
    returned.  The test is [value <= 0], which is false on NaN: [nan] is
    stored like a positive number. *)
Theorem fake_streaming_interval_decides d pw value (st : State E) :
  is_config_request d pw "fake_streaming_interval" value ->
  authorized pw st ->
  let r := serve E (POST_update_config (VDict d)) st in
  match py_float (float_nonascii E) value with
  | Ok f =>
      if float_le_zero f
      then status (fst r) = 422 /\ snd r = st
      else settings (snd r) = <["FAKE_STREAMING_INTERVAL" := VFloat f]> (settings st)
           /\ heap (snd r) = heap st
           /\ (persistence_succeeds E ->
               fst r = {| status := 200;
                          body := success "配置项 fake_streaming_interval 已更新" |})
  | Raise e =>
      status (fst r) = (if is_ValueError e then 422 else 500) /\ snd r = st
  end.
Proof.
  intros Hreq Hauth.
  assert (Hne : "fake_streaming_interval" <> "") by discriminate.
  cbv zeta.
  destruct (py_float (float_nonascii E) value) as [f|e] eqn:Hf.
  - destruct (float_le_zero f) eqn:Hle.
    + assert (Hbranch : exists dtl,
                 apply_config E (VStr "fake_streaming_interval") value st
                 = (Raise (HTTPException 422 dtl), st)).
      { cbn [apply_config py_eq_str String.eqb Ascii.eqb Bool.eqb].
        unfold update_fake_streaming_interval, try_except, bind, lift.
        rewrite Hf, Hle. eexists; reflexivity. }
      destruct Hbranch as (dtl & Hbranch).
      rewrite (serve_branch_raises E _ _ _ _ _ _ _ Hreq Hauth Hne Hbranch).
      split; reflexivity.
    + assert (Hbranch : exists st',
                 apply_config E (VStr "fake_streaming_interval") value st = (Ok None, st')
                 /\ settings st' = <["FAKE_STREAMING_INTERVAL" := VFloat f]> (settings st)
                 /\ heap st' = heap st).
      { cbn [apply_config py_eq_str String.eqb Ascii.eqb Bool.eqb].
        unfold update_fake_streaming_interval, try_except, bind, lift.
        rewrite Hf, Hle.
        unfold setattr_settings, do_vertex_update_config, log, modify, ret.
        cbn [app_config set_app_config set_settings set_logs set_world world settings logs].
        destruct (vertex_update_config E _ _ _ _) as [[[[]|e] c] w]; cbn [fst snd];
          eexists; (split; [reflexivity |]); split; reflexivity. }
      destruct Hbranch as (st' & Hbranch & Hset & Hh).
      rewrite (serve_branch_continues E _ _ _ _ _ _ Hreq Hauth Hne Hbranch).
      pose proof (persisted_response_frame E "fake_streaming_interval" st')
        as (H1 & _ & H3 & _ & _ & H6).
      rewrite H1, H3, Hset, Hh. repeat split. exact H6.
  - assert (Hbranch :
               apply_config E (VStr "fake_streaming_interval") value st
               = (Raise (if is_ValueError e
                         then HTTPException 422 ("参数类型错误：" ++ exn_str e) else e), st)).
    { cbn [apply_config py_eq_str String.eqb Ascii.eqb Bool.eqb].
      unfold update_fake_streaming_interval, try_except, bind, lift.
      rewrite Hf. destruct (is_ValueError e); reflexivity. }
    rewrite (serve_branch_raises E _ _ _ _ _ _ _ Hreq Hauth Hne Hbranch).
    split; [| reflexivity].
    assert (He : forall m, py_float (float_nonascii E) value = Raise m ->
                           is_HTTPException m = false).
    { intros m Hm. destruct value; cbn in Hm; try (inversion Hm; reflexivity).
      - unfold float_of_Z in Hm.
        destruct (binary_normalize _ _ _ _ _); inversion Hm; reflexivity.
      - unfold float_of_Z in Hm.
        destruct (binary_normalize _ _ _ _ _); inversion Hm; reflexivity.
      - destruct (if is_ascii_string _ then _ else _); inversion Hm; reflexivity. }
    specialize (He e Hf).
    unfold error_response. destruct (is_ValueError e); cbn; [reflexivity |].
    rewrite He. reflexivity.
Qed.

End ExpressKeyAndInterval.

(** Symbolic execution of a handler: the definitions of the monad are
    unfolded, the projections of the state computed, and the scrutinee of
    an innermost stuck [match] split in its cases. *)
Ltac run_unfold :=
  unfold do_save_settings, do_refresh_models_config_cache, do_vertex_update_config,
    call_init_vertex_ai, call_with_pool, query, method, getattr_settings,
    setattr_settings, setattr_app_config, init_dashboard_router;
  unfold try_except, bind, gets, call, lift, log, modify, ret, raise.

Ltac run_simpl :=
  cbn [heap set_heap set_logs set_world set_settings set_app_config
       set_main_credential_manager set_app_state_credential_manager
       set_dashboard_globals settings app_config world logs credential_manager
       main_credential_manager app_state_credential_manager response_cache_manager
       active_requests_manager fst snd].

Ltac run_split :=
  match goal with
  | |- context [<[?l := ?o]> ?h !! ?l] => rewrite (lookup_insert_eq h l o)
  | H : ?x = _ |- context [match ?x with _ => _ end] => rewrite H
  | |- context [match ?x with _ => _ end] =>
      lazymatch x with
      | context [match _ with _ => _ end] => fail
      | _ => destruct x eqn:?
      end
  end.

Ltac run := run_unfold; run_simpl; repeat first [progress run_simpl | run_split].

(** A call of a collaborator that is known to return. *)
Ltac returned H t :=
  let a := fresh "a" in
  let Ha := fresh "Ha" in
  destruct H as (a & Ha); destruct t as [? ?]; cbn [fst] in Ha; subst.

(** ** The credential blob, beyond the format check *)

Section BlobCheck.

Variable E : Collaborators.

(** X15. The format check of the credential blob is all or nothing: a value
    that is no sentinel either passes it, or is refused and nothing is
    stored, cleared or loaded.  The refusal is a 422, whether [json.loads]
    raises a [JSONDecodeError] (lines 375-379), [json.loads] raises
    something else, as on a text nested too deep, or the parser of the
    credential manager raises (lines 382-383, where an [HTTPException] of
    the parser would go through as it is). *)
Theorem blob_passes_or_is_refused d pw s (st : State E) :
  is_config_request d pw "google_credentials_json" (VStr s) ->
  authorized pw st ->
  is_sentinel s = false ->
  let r := serve E (POST_update_config (VDict d)) st in
  precheck_passes E s
  \/ (snd r = st
      /\ (status (fst r) = 422
          \/ exists e, parse_multiple_json_credentials E s = Raise e
                       /\ is_HTTPException e = true)).
Proof.
  intros Hreq Hauth Hs. cbv zeta.
  assert (Hne : "google_credentials_json" <> "") by discriminate.
  destruct (parse_multiple_json_credentials E s) as [objs|e] eqn:Hparse.
  - destruct objs as [| o objs].
    + destruct (json_loads (json_nesting_limit E) s) as [v|e] eqn:Hj.
      * left. exists []. split; [exact Hparse |]. right. exists v. exact Hj.
      * right.
        assert (Hbranch : exists dtl,
                   apply_config E (VStr "google_credentials_json") (VStr s) st
                   = (Raise (HTTPException 422 dtl), st)).
        { rewrite (google_branch E s st Hs). unfold bind at 1.
          unfold precheck_credentials_json, try_except, bind, lift.
          rewrite Hparse. cbn [truthy negb]. rewrite Hj. cbn.
          destruct (is_JSONDecodeError e); cbn; [eexists; reflexivity |].
          rewrite (json_loads_raises_no_http _ _ _ Hj). eexists; reflexivity. }
        destruct Hbranch as (dtl & Hbranch).
        rewrite (serve_branch_raises E _ _ _ _ _ _ _ Hreq Hauth Hne Hbranch).
        split; [reflexivity | left; reflexivity].
    + left. exists (o :: objs). split; [exact Hparse | left; discriminate].
  - right.
    assert (Hbranch :
               apply_config E (VStr "google_credentials_json") (VStr s) st
               = (Raise (if is_HTTPException e then e
                         else HTTPException 422
                                ("Google Credentials JSON 预检查失败: " ++ exn_str e)), st)).
    { rewrite (google_branch E s st Hs). unfold bind at 1.
      unfold precheck_credentials_json, try_except, bind, lift.
      rewrite Hparse. destruct (is_HTTPException e); reflexivity. }
    rewrite (serve_branch_raises E _ _ _ _ _ _ _ Hreq Hauth Hne Hbranch).
    split; [reflexivity |].
    destruct (is_HTTPException e) eqn:He; [right; exists e; split; [reflexivity | exact He] |].
    left. reflexivity.
Qed.

(** X16. The update of the credential blob is not undone when it fails half
    way.  The reset of the fallback client (line 388) is called after the
    assignment of the setting and outside any [try]: when it raises, the
    answer is its error (500 with its text), the setting holds the new blob
    in memory, and the handler stops there: nothing is reloaded, the
    persistence hook is not called and Vertex is not re-initialised. *)
Theorem blob_update_failure_keeps_assignment d pw s e (st : State E) :
  is_config_request d pw "google_credentials_json" (VStr s) ->
  authorized pw st ->
  is_sentinel s = false ->
  precheck_passes E s ->
  let reset :=
    reset_global_fallback_client E
      (log_sink E info "Google Credentials JSON 设置已更新（内容未记录）。" (world st)) in
  fst reset = Raise e ->
  let r := serve E (POST_update_config (VDict d)) st in
  fst r = error_response "更新失败：" e
  /\ settings (snd r) = <["GOOGLE_CREDENTIALS_JSON" := VStr s]> (settings st)
  /\ heap (snd r) = heap st
  /\ logs (snd r)
     = (logs st ++ [(info, "Google Credentials JSON 设置已更新（内容未记录）。")])%list
  /\ world (snd r) = snd reset.
Proof.
  intros Hreq Hauth Hs Hpre reset Hreset.
  assert (Hne : "google_credentials_json" <> "") by discriminate.
  assert (Hbranch :
             apply_config E (VStr "google_credentials_json") (VStr s) st
             = (Raise e,
                set_world (snd reset)
                  (snd (log E info "Google Credentials JSON 设置已更新（内容未记录）。"
                          (set_settings (<["GOOGLE_CREDENTIALS_JSON" := VStr s]> (settings st))
                             st))))).
  { rewrite (google_branch E s st Hs).
    rewrite (bind_ok E _ _ _ _ _ (precheck_accepts E s st Hpre)).
    unfold bind at 1. unfold bind at 1. unfold bind at 1.
    unfold setattr_settings, log, modify, call. run_simpl.
    fold reset. destruct reset as [res w]. cbn [fst snd] in Hreset |- *. subst res.
    reflexivity. }
  cbv zeta. rewrite (serve_branch_raises E _ _ _ _ _ _ _ Hreq Hauth Hne Hbranch).
  repeat split.
Qed.

(** X17. After the startup of main.py the dashboard has no credential
    manager, and an update of the credential blob shows it only in the
    log: the blob passes the check, is stored and answered by 200, no
    credential manager object changes, and the log has the warning that
    the credential manager is not initialised (line 419), the warning of
    the re-initialisation (line 425) and the warning of the helper, which
    runs on a manager of its own (line 52). *)
Theorem blob_update_after_startup_only_warns (st0 st1 : State E) rs d pw s :
  lifespan_startup E st0 = (Ok tt, st1) ->
  let st := serve_all E rs st1 in
  is_config_request d pw "google_credentials_json" (VStr s) ->
  authorized pw st ->
  is_sentinel s = false ->
  precheck_passes E s ->
  persistence_succeeds E ->
  (forall w, fst (reset_global_fallback_client E w) = Ok tt) ->
  let r := serve E (POST_update_config (VDict d)) st in
  fst r = {| status := 200; body := success "配置项 google_credentials_json 已更新" |}
  /\ settings (snd r) = <["GOOGLE_CREDENTIALS_JSON" := VStr s]> (settings st)
  /\ heap (snd r) = heap st
  /\ incl [ (warning, "CredentialManager 未初始化，无法加载 Google Credentials JSON。");
            (warning, "重新初始化 Vertex AI 时发现 credential_manager 为 None");
            (warning, "Credential Manager 不存在，将创建一个新的实例用于初始化") ]
          (logs (snd r)).
Proof.
  intros Hrun st Hreq Hauth Hs Hpre Hsave Hreset.
  assert (Hne : "google_credentials_json" <> "") by discriminate.
  assert (Hcm : credential_manager st = None).
  { destruct (lifespan_startup_binds_nothing E _ _ Hrun) as (_ & _ & Hcm).
    destruct (serve_all_same_globals E rs st1) as (_ & _ & Hcm').
    fold st in Hcm'. rewrite Hcm in Hcm'. exact Hcm'. }
  clearbody st. clear Hrun.
  assert (Hbranch : exists st',
             apply_config E (VStr "google_credentials_json") (VStr s) st = (Ok None, st')
             /\ settings st' = <["GOOGLE_CREDENTIALS_JSON" := VStr s]> (settings st)
             /\ heap st' = heap st
             /\ incl [ (warning, "CredentialManager 未初始化，无法加载 Google Credentials JSON。");
                       (warning, "重新初始化 Vertex AI 时发现 credential_manager 为 None");
                       (warning, "Credential Manager 不存在，将创建一个新的实例用于初始化") ]
                     (logs st')).
  { rewrite (google_branch E s st Hs).
    rewrite (bind_ok E _ _ _ _ _ (precheck_accepts E s st Hpre)).
    unfold reload_credentials, reinitialize_vertex, announce_reinit, run_blocking_init_vertex.
    run_unfold. run_simpl.
    repeat first
      [ progress run_simpl
      | match goal with
        | |- context [reset_global_fallback_client E ?w] =>
            let H := fresh "H" in
            pose proof (Hreset w) as H;
            destruct (reset_global_fallback_client E w) as [? ?]; cbn [fst] in H; subst
        | |- context [save_settings E ?x ?w] =>
            let H := fresh "H" in
            pose proof (Hsave x w) as H;
            destruct (save_settings E x w) as [? ?]; cbn [fst] in H; subst
        end
      | run_split ];
      eexists; (split; [reflexivity |]); run_simpl;
      (split; [reflexivity |]); (split; [reflexivity |]);
      intros x Hx; rewrite !in_app_iff; cbn in Hx |- *; tauto. }
  destruct Hbranch as (st' & Hbranch & Hset & Hheap & Hlogs).
  cbv zeta. rewrite (serve_branch_continues E _ _ _ _ _ _ Hreq Hauth Hne Hbranch).
  pose proof (persisted_response_frame E "google_credentials_json" st')
    as (H1 & _ & H3 & H4 & _ & H6).
  rewrite H1, H3, H4, Hset, Hheap.
  split; [exact (H6 Hsave) |]. repeat split. exact Hlogs.
Qed.

End BlobCheck.

(** ** The re-initialisation helper, the bindings and the startup *)

Section Containment.

Variable E : Collaborators.

Lemma last_app_cons {A : Type} (l l' : list A) (a d : A) :
  List.last (l ++ a :: l') d = List.last (a :: l') d.
Proof.
  induction l as [| x l IH]; [reflexivity |].
  cbn [app]. rewrite <- IH. cbn. destruct (l ++ a :: l')%list eqn:H; [| reflexivity].
  destruct l; discriminate H.
Qed.

(** X18. The helper that re-initialises Vertex never raises and never touches
    the configuration: it returns with the settings, the Vertex
    configuration and every binding as they were; with no credential
    manager bound it works on a manager of its own and changes no
    credential manager object; and the last line it logs tells the
    outcome: success, failure, or the error it caught. *)
Theorem run_blocking_init_vertex_contained (st : State E) :
  exists st',
    run_blocking_init_vertex E st = (Ok tt, st')
    /\ settings st' = settings st
    /\ app_config st' = app_config st
    /\ same_globals st st'
    /\ (credential_manager st = None -> heap st' = heap st)
    /\ In (List.last (logs st') (info, "")) reinit_outcomes.
Proof.
  unfold run_blocking_init_vertex. run;
    eexists; (split; [reflexivity |]); run_simpl;
    (repeat split; try congruence);
    rewrite <- ?app_assoc; cbn [app];
    rewrite last_app_cons; unfold reinit_outcomes; cbn; tauto.
Qed.

Lemma same_bindings_frame : frame E same_bindings.
Proof.
  split.
  - intros st. repeat split; auto.
  - intros a b c (H1 & H2 & H3 & H4) (H5 & H6 & H7 & H8).
    split; [apply (frame_trans E _ (same_globals_frame E) _ b); assumption |].
    repeat split; [congruence .. | auto].
  - intros v st. repeat split; auto.
  - intros level message st. repeat split; auto.
Qed.

Lemma same_bindings_heap_free : heap_free E same_bindings.
Proof.
  intros l o st. repeat split. cbn. intros l' Hl'.
  destruct (decide (l = l')) as [->|Hne];
    [rewrite lookup_insert_eq; eexists; reflexivity
    | rewrite lookup_insert_ne by exact Hne; exact Hl'].
Qed.

Lemma handler_same_bindings r (st : State E) : same_bindings st (snd (handler E r st)).
Proof.
  apply (keeps_handler E same_bindings same_bindings_frame).
  - intros v st'. repeat split; auto.
  - intros v st'. repeat split; auto.
  - apply same_bindings_heap_free.
Qed.

Lemma serve_all_same_bindings rs (st : State E) : same_bindings st (serve_all E rs st).
Proof.
  revert st. induction rs as [| r rs IH]; intros st; cbn [serve_all].
  - apply (frame_refl E _ same_bindings_frame).
  - apply (frame_trans E _ same_bindings_frame _ (snd (serve E r st))); [| apply IH].
    unfold serve. pose proof (handler_same_bindings r st) as H.
    destruct (handler E r st) as [res st']. exact H.
Qed.

(** X19. No sequence of requests rebinds a credential manager: what
    [app.main], [app.state] and the dashboard module refer to is what they
    referred to before, no credential manager object goes away, and a
    dashboard reference that was to an object still is. *)
Theorem requests_keep_bindings rs (st : State E) :
  same_globals st (serve_all E rs st)
  /\ main_credential_manager (serve_all E rs st) = main_credential_manager st
  /\ app_state_credential_manager (serve_all E rs st) = app_state_credential_manager st
  /\ (forall l, is_Some (heap st !! l) -> is_Some (heap (serve_all E rs st) !! l))
  /\ (well_formed st -> well_formed (serve_all E rs st)).
Proof.
  destruct (serve_all_same_bindings rs st) as (Hg & Hm & Ha & Hh).
  repeat split; try apply Hg; try assumption.
  intros Hwf l Hl. apply Hh. apply Hwf.
  destruct Hg as (_ & _ & Hcm). rewrite <- Hcm. exact Hl.
Qed.


(** X21. When the constructor and the Vertex initialisation return, the
    startup completes whatever the credential blob of the environment
    holds: the blob is loaded on a best-effort basis (lines 28-35).  The
    credential manager it created is bound to [app.main] and [app.state],
    the settings are untouched, and a blob [json.loads] rejects leaves its
    error in the log. *)
Theorem startup_completes_whatever_the_blob blob (st : State E) :
  startup_collaborators_return E ->
  settings st !! "GOOGLE_CREDENTIALS_JSON" = Some blob ->
  exists st1 l,
    lifespan_startup E st = (Ok tt, st1)
    /\ main_credential_manager st1 = Some l
    /\ app_state_credential_manager st1 = Some l
    /\ is_Some (heap st1 !! l)
    /\ settings st1 = settings st
    /\ (forall s e, blob = VStr s -> s <> "" ->
          json_loads (json_nesting_limit E) s = Raise e ->
          In (error, "加载 Google Credentials 失败: {e}") (logs st1)).
Proof.
  intros (Hnew & Hinit) Hblob. unfold lifespan_startup.
  run_unfold; run_simpl.
  repeat first
    [ progress run_simpl
    | match goal with
      | |- context [new_CredentialManager E ?w] =>
          let p := fresh "p" in
          let Hp := fresh "Hp" in
          destruct (Hnew w) as (p & Hp);
          destruct (new_CredentialManager E w) as [? ?];
          cbn in Hp; subst
      | |- context [init_vertex_ai E ?s ?c ?p ?w] =>
          let b := fresh "b" in
          let Hb := fresh "Hb" in
          destruct (Hinit s c p w) as (b & Hb);
          destruct (init_vertex_ai E s c p w) as [[? ?] ?];
          cbn in Hb; subst
      end
    | run_split ];
    do 2 eexists; (split; [reflexivity |]); run_simpl;
    (split; [reflexivity |]); (split; [reflexivity |]);
    (split; [rewrite lookup_insert_eq; eexists; reflexivity |]);
    (split; [reflexivity |]);
    intros s0 e0 Hs Hne Hj; try discriminate Hs;
    inversion Hs; subst; try congruence;
    try (exfalso;
         match goal with
         | H : truthy (VStr _) = false |- _ =>
             cbn in H; apply negb_false_iff in H; apply String.eqb_eq in H; contradiction
         end);
    cbn; rewrite !in_app_iff; cbn; tauto.
Qed.

End Containment.

(** ** The snapshot of [GET /dashboard-data] *)

Lemma dict_getitem_get k d v : dict_getitem k d = Ok v -> dict_get k d = v.
Proof.
  induction d as [| [k' v'] d IH]; cbn; [discriminate |].
  destruct (String.eqb k' k); [intros H; inversion H; reflexivity | exact IH].
Qed.

Section Snapshot.

Variable E : Collaborators.

(** With the managers bound, the handler runs to its end. *)
Lemma get_dashboard_data_bound (st : State E) :
  managers_bound st ->
  well_formed st ->
  settings_complete (settings st) ->
  snapshot_collaborators_return E ->
  exists d st',
    get_dashboard_data E st = (Ok (VDict d), st')
    /\ only_world_differs st st'
    /\ snapshot_of E st d.
Proof.
  intros ((c & Hc) & (m & Hm)) Hwf (Hattrs & Hversion & Hsearch)
    (H1 & H2 & H3 & H4 & H5 & H6 & H7 & H8 & H9 & H10 & H11 & H12 & H13 & H14 & H15).
  destruct Hversion as (version & Hversion & Hvk).
  destruct Hsearch as (search & Hsearch & Hsk).
  destruct (Hvk "local_version") as (v1 & Hv1); [cbn; tauto |].
  destruct (Hvk "remote_version") as (v2 & Hv2); [cbn; tauto |].
  destruct (Hvk "has_update") as (v3 & Hv3); [cbn; tauto |].
  destruct (Hsk "search_mode") as (s1 & Hs1); [cbn; tauto |].
  destruct (Hsk "search_prompt") as (s2 & Hs2); [cbn; tauto |].
  assert (Ha : Forall (fun fa => exists v, settings st !! snd fa = Some v)
                 (reported_settings ++ masked_settings)).
  { apply List.Forall_forall. intros [field attr] Hin.
    destruct (Hattrs field attr Hin) as (v & Hv). exists v. exact Hv. }
  unfold reported_settings, masked_settings in Ha. cbn [app] in Ha.
  repeat match goal with
         | H : Forall _ (_ :: _) |- _ =>
             let v := fresh "v" in
             let Hv := fresh "Hv" in
             let Hrest := fresh "Hrest" in
             apply List.Forall_cons_iff in H as ((v & Hv) & Hrest); cbn [snd] in Hv
         end.
  assert (Hcm : match credential_manager st with
                | Some l => exists o n, heap st !! l = Some o /\ get_total_credentials E o = Ok n
                | None => True
                end).
  { destruct (credential_manager st) as [l|] eqn:Hl; [| exact I].
    destruct (Hwf l Hl) as (o & Ho). destruct (H15 o) as (n & Hn). eauto. }
  destruct (credential_manager st) as [l|] eqn:Hl;
    [destruct Hcm as (o & n & Ho & Hn) | clear Hcm].
  all: unfold get_dashboard_data, the_cache_manager, the_active_manager.
  all: cbn [dict_display].
  all: run_unfold; run_simpl.
  all: repeat first
    [ progress run_simpl
    | match goal with
      | |- context [maybe_cleanup E ?w] => returned (H1 w) (maybe_cleanup E w)
      | |- context [clean_expired E ?x ?w] => returned (H2 x w) (clean_expired E x w)
      | |- context [clean_completed E ?x ?w] => returned (H3 x w) (clean_completed E x w)
      | |- context [get_calls_last_24h E ?w] => returned (H4 w) (get_calls_last_24h E w)
      | |- context [get_calls_last_hour E ?t ?w] =>
          returned (H5 t w) (get_calls_last_hour E t w)
      | |- context [get_calls_last_minute E ?t ?w] =>
          returned (H6 t w) (get_calls_last_minute E t w)
      | |- context [get_tokens_last_24h E ?w] => returned (H7 w) (get_tokens_last_24h E w)
      | |- context [get_tokens_last_hour E ?t ?w] =>
          returned (H8 t w) (get_tokens_last_hour E t w)
      | |- context [get_tokens_last_minute E ?t ?w] =>
          returned (H9 t w) (get_tokens_last_minute E t w)
      | |- context [get_time_series_data E ?n ?t ?w] =>
          returned (H10 n t w) (get_time_series_data E n t w)
      | |- context [vertex_log_manager_get_recent_logs E ?n ?w] =>
          returned (H11 n w) (vertex_log_manager_get_recent_logs E n w)
      | |- context [log_manager_get_recent_logs E ?n ?w] =>
          returned (H12 n w) (log_manager_get_recent_logs E n w)
      | |- context [cur_cache_num E ?x ?w] => returned (H13 x w) (cur_cache_num E x w)
      | |- context [active_requests E ?x ?w] => returned (H14 x w) (active_requests E x w)
      | H : ?x = _ |- context [match ?x with _ => _ end] => rewrite H
      | |- context [match ?x with _ => _ end] => is_var x; destruct x
      | |- context [if truthy ?x then _ else _] => destruct (truthy x)
      | |- context [py_getitem (VDict ?d) ?k] => cbn [py_getitem]
      end ].
  all: do 2 eexists; (split; [reflexivity |]); (split; [repeat split |]).
  all: unfold snapshot_of; rewrite Hl.
  all: split; [reflexivity |].
  all: split;
    [ intros field attr Hin; cbn in Hin;
      repeat (destruct Hin as [Hin|Hin];
              [inversion Hin; subst; cbn [dict_get String.eqb Ascii.eqb Bool.eqb];
               congruence |]);
      destruct Hin |].
  all: split;
    [ intros field attr Hin; cbn in Hin;
      repeat (destruct Hin as [Hin|Hin];
              [inversion Hin; subst; cbn [dict_get String.eqb Ascii.eqb Bool.eqb];
               eexists; split; [eassumption | reflexivity] |]);
      destruct Hin |].
  all: split;
    [ intros field x Hin; cbn in Hin;
      repeat (destruct Hin as [Hin|Hin]; [inversion Hin; subst; reflexivity |]);
      destruct Hin |].
  all: split;
    [ exists search; split; [exact Hsearch |];
      rewrite (dict_getitem_get _ _ _ Hs1), (dict_getitem_get _ _ _ Hs2);
      split; reflexivity |].
  all: split; [| do 2 eexists; repeat split].
  - exists o, n. repeat split; assumption.
  - exists o, n. repeat split; assumption.
  - reflexivity.
  - reflexivity.
Qed.

(** A value of a dict that cannot be rendered keeps the dict from being
    rendered. *)
Lemma dict_get_not_compliant k (d : list (string * pyval)) :
  json_compliant (dict_get k d) = false -> json_compliant (VDict d) = false.
Proof.
  induction d as [| [k' v] d IH]; cbn [dict_get]; [discriminate |].
  intros H. cbn [json_compliant forallb snd] in *.
  destruct (String.eqb k' k).
  - rewrite H. reflexivity.
  - rewrite (IH H). apply andb_false_r.
Qed.


Lemma settings_complete_insert s attr v :
  settings_complete s -> attr <> "version" -> attr <> "search" ->
  settings_complete (<[attr := v]> s).
Proof.
  intros (Hattrs & Hversion & Hsearch) Hv Hs. split; [| split].
  - intros field a Hin. specialize (Hattrs field a Hin).
    destruct (decide (attr = a)) as [->|Hne];
      [rewrite lookup_insert_eq; eexists; reflexivity
      | rewrite lookup_insert_ne by exact Hne; exact Hattrs].
  - rewrite lookup_insert_ne by exact Hv. exact Hversion.
  - rewrite lookup_insert_ne by exact Hs. exact Hsearch.
Qed.



End Snapshot.

(** ** What each handler can change *)

Section Footprint.

Variable E : Collaborators.

Lemma same_configuration_frame : frame E same_configuration.
Proof.
  split.
  - intros st. split; reflexivity.
  - intros a b c (H1 & H2) (H3 & H4). split; congruence.
  - intros v st. split; reflexivity.
  - intros level message st. split; reflexivity.
Qed.

Lemma same_configuration_and_pools_frame : frame E same_configuration_and_pools.
Proof.
  split.
  - intros st. repeat split.
  - intros a b c ((H1 & H2) & H3) ((H4 & H5) & H6). repeat split; congruence.
  - intros v st. repeat split.
  - intros level message st. repeat split.
Qed.

Lemma serve_state r (st : State E) : snd (serve E r st) = snd (handler E r st).
Proof. unfold serve. destruct (handler E r st); reflexivity. Qed.

(** X25. Only [POST /update-config] changes the configuration: the snapshot
    and the reset of the statistics leave the settings, the Vertex
    configuration and every credential manager object as they were,
    whether they succeed or fail; the model list and the chat route leave
    the settings and the Vertex configuration as they were; the health
    check and the root change nothing at all. *)
Theorem read_only_handlers (st : State E) :
  same_configuration_and_pools st (snd (serve E GET_dashboard_data st))
  /\ (forall data, same_configuration_and_pools st (snd (serve E (POST_reset_stats data) st)))
  /\ (forall rq, same_configuration st (snd (serve E (GET_models rq) st)))
  /\ (forall body rq, same_configuration st (snd (serve E (POST_chat_completions body rq) st)))
  /\ serve E GET_health st
     = ({| status := 200;
           body := VDict [("status", VStr "healthy"); ("mode", VStr "vertex_only")] |}, st)
  /\ serve E GET_root st
     = ({| status := 200;
           body := VDict [("message", VStr "Vertex AI 中转服务运行中");
                          ("mode", VStr "vertex_only")] |}, st).
Proof.
  assert (Hheap : heap_free E same_configuration) by (intros l o st'; split; reflexivity).
  split; [| split; [| split; [| split; [| split]]]].
  - rewrite serve_state.
    apply (keeps_get_dashboard_data E _ same_configuration_and_pools_frame).
  - intros data. rewrite serve_state.
    apply (keeps_reset_stats E _ same_configuration_and_pools_frame).
  - intros rq. rewrite serve_state.
    apply (keeps_routes E _ same_configuration_frame rq Hheap).
  - intros body rq. rewrite serve_state.
    apply (keeps_routes E _ same_configuration_frame rq Hheap).
  - reflexivity.
  - reflexivity.
Qed.

End Footprint.

(** ** app/api/routes.py *)

Section Routes.

Variable E : Collaborators.

Lemma verify_user_agent_state rq (st : State E) :
  snd (verify_user_agent E rq st) = st.
Proof.
  unfold verify_user_agent. run; reflexivity.
Qed.

Lemma route_dependencies_state rq (st : State E) :
  snd (route_dependencies E rq st) = st.
Proof.
  unfold route_dependencies. unfold bind at 1.
  unfold bind, gets, lift.
  destruct (custom_verify_password E (raw_request rq) (world st)) as [[]|e];
    [apply verify_user_agent_state | reflexivity].
Qed.

(** X26. A request to the model list or to the chat route that one of the two
    dependencies refuses (the password check, then the User-Agent
    whitelist) is answered by that refusal and goes no further: the Vertex
    API is not called and nothing of the state changes. *)
Theorem route_refusal_reaches_nothing rq e (st : State E) :
  fst (route_dependencies E rq st) = Raise e ->
  serve E (GET_models rq) st = (respond (Raise e), st)
  /\ forall body, serve E (POST_chat_completions body rq) st = (respond (Raise e), st).
Proof.
  intros H. pose proof (route_dependencies_state rq st) as Hst.
  destruct (route_dependencies E rq st) as [r st'] eqn:Hdep. cbn in H, Hst. subst r st'.
  split; [| intros body]; unfold serve, handler, list_models, chat_completions;
    rewrite (bind_raise E _ _ _ _ _ Hdep); reflexivity.
Qed.

Lemma existsb_listed ua wl :
  existsb (fun y => match ua, y with
                    | Some a, VStr b => String.eqb a b
                    | None, VNone => true
                    | _, _ => false
                    end) wl = true <-> listed ua wl.
Proof.
  unfold listed. rewrite existsb_exists. split.
  - intros (y & Hin & Hy). destruct ua as [a|]; destruct y; try discriminate Hy.
    + apply String.eqb_eq in Hy. subst. exact Hin.
    + exact Hin.
  - destruct ua as [a|]; intros Hin; eexists; (split; [exact Hin |]);
      [apply String.eqb_refl | reflexivity].
Qed.

(** X27. The User-Agent whitelist, when the setting is a list: an empty list
    lets every client through, with or without the header; a list that is
    not empty lets through the clients whose header is one of its elements,
    and refuses the others, and with them (for a list of strings) a request
    without the header, with 403. *)
Theorem user_agent_whitelist rq wl (st : State E) :
  settings st !! "WHITELIST_USER_AGENT" = Some (VList wl) ->
  (wl = [] \/ listed (user_agent rq) wl ->
   verify_user_agent E rq st = (Ok tt, st))
  /\ (wl <> [] -> ~ listed (user_agent rq) wl ->
      verify_user_agent E rq st = (Raise (HTTPException 403 "Not allowed client"), st)).
Proof.
  intros Hwl. unfold verify_user_agent, getattr_settings, bind, gets, lift.
  rewrite Hwl. unfold ret, raise. cbn [ua_in]. split.
  - intros [->|Hin]; [reflexivity |].
    apply existsb_listed in Hin. rewrite Hin.
    destruct wl; reflexivity.
  - intros Hne Hnot. destruct wl as [| y wl]; [congruence |]. cbn [truthy negb].
    match goal with
    | |- context [existsb ?f (y :: wl)] => destruct (existsb f (y :: wl)) eqn:Hex
    end; [| reflexivity].
    apply existsb_listed in Hex. contradiction.
Qed.

(** X28. With Vertex disabled, the model list is empty: once the dependencies
    have let the request through, [GET /v1/models] answers 200 with no
    model, without calling the Vertex API and without changing
    anything. *)
Theorem list_models_when_vertex_disabled rq l enable_vertex (st : State E) :
  fst (route_dependencies E rq st) = Ok tt ->
  app_state_credential_manager st = Some l ->
  settings st !! "ENABLE_VERTEX" = Some enable_vertex ->
  truthy enable_vertex = false ->
  serve E (GET_models rq) st
  = ({| status := 200; body := VDict [("data", VList [])] |}, st).
Proof.
  intros Hdep Hl Hev Hfalse. pose proof (route_dependencies_state rq st) as Hst.
  destruct (route_dependencies E rq st) as [r st'] eqn:Hd. cbn in Hdep, Hst. subst r st'.
  unfold serve, handler, list_models.
  rewrite (bind_ok E _ _ _ _ _ Hd).
  unfold app_state_pool, getattr_settings, bind, gets, ret.
  rewrite Hl, Hev, Hfalse. reflexivity.
Qed.

Lemma existsb_key k (d : list (string * pyval)) :
  existsb (fun kv => String.eqb (fst kv) k) d = existsb (String.eqb k) (map fst d).
Proof.
  induction d as [| [k' v] d IH]; [reflexivity |]. cbn.
  rewrite IH, (String.eqb_sym k k'). reflexivity.
Qed.

Lemma openai_messages_map (messages : list (list (string * pyval))) :
  openai_messages (map VDict messages)
  = Ok (map VDict (map (fun m => [ ("role", item_or_empty "role" m);
                                   ("content", item_or_empty "content" m) ])
                       messages)).
Proof.
  induction messages as [| m ms IH]; [reflexivity |].
  cbn [map openai_messages get_or]. rewrite IH.
  unfold item_or_empty. rewrite !existsb_key. reflexivity.
Qed.

(** X29. The conversion of the chat messages (lines 53-60): one message of the
    Vertex request for each message of the request, in the same order,
    made of a role and a content and of nothing else; the role and the
    content are those of the message where it has them, and the empty
    string where it has not.  A message that is already of this form is
    not changed, so converting twice is converting once. *)
Theorem chat_messages_keep_role_and_content (messages : list (list (string * pyval))) :
  exists out,
    openai_messages (map VDict messages) = Ok (map VDict out)
    /\ length out = length messages
    /\ Forall2 (fun m o =>
                 map fst o = ["role"; "content"]
                 /\ forall k, In k ["role"; "content"] ->
                      dict_get k o = item_or_empty k m) messages out
    /\ openai_messages (map VDict out) = Ok (map VDict out).
Proof.
  exists (map (fun m => [ ("role", item_or_empty "role" m);
                          ("content", item_or_empty "content" m) ]) messages).
  split; [apply openai_messages_map |].
  split; [apply length_map |].
  split.
  - induction messages as [| m ms IH]; constructor; [| exact IH].
    split; [reflexivity |].
    intros k [<-|[<-|[]]]; reflexivity.
  - rewrite openai_messages_map. do 2 f_equal.
    rewrite map_map. apply map_ext. intros m. reflexivity.
Qed.

End Routes.

(** * The properties at concrete requests *)

Section OnTheReferenceProcess.

Import Examples.

Lemma reference_request key value :
  is_config_request (config_request key value) "hunter2" key value.
Proof. repeat split. Qed.

Lemma reference_authorized_started : authorized "hunter2" started.
Proof. split; [discriminate | vm_compute; reflexivity]. Qed.

Lemma reference_authorized_bound b : authorized "hunter2" (bound_in b).
Proof. split; [discriminate | reflexivity]. Qed.

Lemma reference_quiet b : quiet_collaborators (Ref.make b).
Proof.
  repeat split.
  - intros p. eexists; reflexivity.
  - intros p. cbn. destruct (Pool.clear_provenance p). eexists; reflexivity.
  - intros l p. cbn. destruct (Pool.load_entries l p). eexists; reflexivity.
Qed.

Lemma reference_well_formed b : well_formed (bound_in b).
Proof.
  intros l H. cbn in H. inversion H. subst l. cbn.
  rewrite lookup_insert_eq. eexists; reflexivity.
Qed.

Lemma reference_startup :
  lifespan_startup Ref.collaborators (Ref.boot false Ref.settings0 Ref.world0)
  = (Ok tt, started).
Proof.
  assert (H : fst (lifespan_startup Ref.collaborators
                     (Ref.boot false Ref.settings0 Ref.world0)) = Ok tt)
    by (vm_compute; reflexivity).
  unfold started.
  destruct (lifespan_startup Ref.collaborators (Ref.boot false Ref.settings0 Ref.world0))
    as [r st].
  cbn [fst snd] in *. subst r. reflexivity.
Qed.

(** The handler does return a snapshot when the dashboard is bound to a
    cache manager and an active-request tracker. *)
Example dashboard_data_when_bound :
  status (fst (serve Ref.collaborators GET_dashboard_data bound)) = 200.
Proof. vm_compute. reflexivity. Qed.

(** With Vertex out of reach an update of the blob is answered by 200, the
    blob is stored, and both errors are in the log. *)
Example update_with_vertex_out_of_reach :
  let r := serve Ref.out_of_reach (update "google_credentials_json" (VStr one_descriptor))
             (bound_in true) in
  status (fst r) = 200
  /\ settings (snd r) !! "GOOGLE_CREDENTIALS_JSON" = Some (VStr one_descriptor)
  /\ List.filter (fun e => match fst e with error => true | _ => false end) (logs (snd r))
     = [ (error, "执行 run_blocking_init_vertex 时出错: {e}");
         (error, "重新初始化 Vertex AI 服务时出错: {str(e)}") ].
Proof. vm_compute. repeat split. Qed.

(** The refusals of C3 at a request: [max_requests_per_minute] with the
    value 0. *)
Lemma positive_int_key_rejects_witness :
  status (fst (serve Ref.collaborators (update "max_requests_per_minute" (VInt 0)) started))
  = 422
  /\ snd (serve Ref.collaborators (update "max_requests_per_minute" (VInt 0)) started)
     = started.
Proof.
  apply (positive_int_key_rejects Ref.collaborators _ "hunter2"
           "max_requests_per_minute" (VInt 0) started).
  - cbn. tauto.
  - apply reference_request.
  - apply reference_authorized_started.
  - left. reflexivity.
Defined.

(** Witness of C7: [enable_vertex] with the string "true". *)
Lemma bool_key_rejects_string_witness :
  status (fst (serve Ref.collaborators (update "enable_vertex" (VStr "true")) started)) = 422
  /\ snd (serve Ref.collaborators (update "enable_vertex" (VStr "true")) started) = started.
Proof.
  apply (bool_key_rejects_string Ref.collaborators _ "hunter2" "enable_vertex" "true" started).
  - cbn. tauto.
  - apply reference_request.
  - apply reference_authorized_started.
Defined.

(** Witness of C10: [max_retry_num] with [null]. *)
Lemma int_key_type_error_is_500_witness :
  (exists m, py_int (int_nonascii Ref.collaborators) VNone = Raise (TypeError m)
             /\ is_ValueError (TypeError m) = false)
  /\ status (fst (serve Ref.collaborators (update "max_retry_num" VNone) started)) = 500
  /\ snd (serve Ref.collaborators (update "max_retry_num" VNone) started) = started.
Proof.
  apply (int_key_type_error_is_500 Ref.collaborators _ "hunter2" "max_retry_num" VNone started).
  - cbn. tauto.
  - apply reference_request.
  - apply reference_authorized_started.
  - reflexivity.
Defined.

(** Witness of C3: [max_retry_num] given minus infinity. *)
Lemma positive_int_key_minus_infinity_is_500_witness :
  let r := serve Ref.collaborators
             (update "max_retry_num" (VFloat (S754_infinity true))) started in
  float_le_zero (S754_infinity true) = true
  /\ py_int (int_nonascii Ref.collaborators) (VFloat (S754_infinity true))
     = Raise (OverflowError "cannot convert float infinity to integer")
  /\ fst r
     = {| status := 500;
          body := VDict [("detail",
                          VStr ("更新失败：" ++ "cannot convert float infinity to integer"))] |}
  /\ snd r = started.
Proof.
  apply (positive_int_key_minus_infinity_is_500 Ref.collaborators _ "hunter2"
           "max_retry_num" started).
  - cbn. tauto.
  - apply reference_request.
  - apply reference_authorized_started.
Defined.

(** The JSON numbers that arrive as minus infinity. *)
Example minus_infinity_in_a_request :
  json_loads Ref.nesting_limit "-1e999" = Ok (VFloat (S754_infinity true))
  /\ json_loads Ref.nesting_limit "-Infinity" = Ok (VFloat (S754_infinity true)).
Proof. split; vm_compute; reflexivity. Qed.

(** C5, at the request it fails on. An integer key given [null] has a
    value of the wrong type, and the answer is 500, where the claim has
    422; the state is unchanged. *)
Theorem null_for_integer_key_answers_500 :
  serve Ref.collaborators (update "max_retry_num" VNone) started
  = ({| status := 500;
        body := VDict [("detail", VStr ("更新失败：" ++ exn_str
                 (TypeError "int() argument must be a string, a bytes-like object or a real number, not 'NoneType'")))] |},
     started).
Proof.
  unfold update, serve, handler.
  rewrite (update_config_branch_raises Ref.collaborators
             (config_request "max_retry_num" VNone) "hunter2" "max_retry_num" VNone
             started started
             (TypeError "int() argument must be a string, a bytes-like object or a real number, not 'NoneType'")
             (reference_request _ _) reference_authorized_started);
    [reflexivity | discriminate | reflexivity].
Qed.

(** Witness of C8: the Express key with the value "TRUE". *)
Lemma sentinel_is_noop_witness :
  let r := serve Ref.collaborators (update "vertex_express_api_key" (VStr "TRUE")) started in
  status (fst r) = 200
  /\ settings (snd r) = settings started
  /\ app_config (snd r) = app_config started
  /\ heap (snd r) = heap started
  /\ same_globals started (snd r).
Proof.
  apply (sentinel_is_noop Ref.collaborators _ "hunter2" "vertex_express_api_key" "TRUE" started).
  - cbn. tauto.
  - apply reference_request.
  - apply reference_authorized_started.
  - right. reflexivity.
  - intros s w. reflexivity.
Defined.

(** Counterexample to C1: the dashboard is bound to a pool with one entry
    from the environment blob and one from a file; after an authorized
    update of the blob with the empty string, answered by 200, the pool
    still holds the entry from the environment blob. *)
Lemma blank_blob_keeps_environment_entries :
  status (fst (serve Ref.collaborators (update "google_credentials_json" (VStr "")) bound))
  = 200
  /\ heap (snd (serve Ref.collaborators (update "google_credentials_json" (VStr "")) bound))
       !! 0%nat
     = Some [env_entry; file_entry]
  /\ List.filter Pool.from_environment [env_entry; file_entry] = [env_entry].
Proof. split; [| split]; vm_compute; reflexivity. Qed.

(** Witness of C1 as amended, at the same request. *)
Lemma blank_blob_touches_no_entry_witness :
  let r := serve Ref.collaborators (update "google_credentials_json" (VStr "")) bound in
  heap (snd r) = heap bound
  /\ settings (snd r) = settings bound
  /\ same_globals bound (snd r)
  /\ (persistence_succeeds Ref.collaborators -> status (fst r) = 200).
Proof.
  apply (blank_blob_touches_no_entry Ref.collaborators _ "hunter2" bound).
  - apply reference_request.
  - apply reference_authorized_bound.
Defined.

(** C6 at a request it fails on, with a credential manager bound: the
    text [123] is no sentinel, is a JSON number and not a JSON object, and
    yields no object as a comma-separated list; the authorized update is
    answered by 200, the text is stored as the blob, and the pool loses its
    entry from the environment blob. *)
Lemma number_blob_is_accepted :
  json_loads Ref.nesting_limit "123" = Ok (VInt 123)
  /\ parse_multiple_json_credentials Ref.collaborators "123" = Ok []
  /\ status (fst (serve Ref.collaborators (update "google_credentials_json" (VStr "123")) bound))
     = 200
  /\ settings (snd (serve Ref.collaborators
                      (update "google_credentials_json" (VStr "123")) bound))
       !! "GOOGLE_CREDENTIALS_JSON" = Some (VStr "123")
  /\ settings bound !! "GOOGLE_CREDENTIALS_JSON" = Some (VStr "")
  /\ heap (snd (serve Ref.collaborators
                  (update "google_credentials_json" (VStr "123")) bound)) !! 0%nat
     = Some [file_entry].
Proof. repeat split; vm_compute; reflexivity. Qed.

(** Witness of C6: the text [123], a JSON number. *)
Lemma non_object_blob_is_stored_witness :
  let r := serve Ref.collaborators (update "google_credentials_json" (VStr "123")) bound in
  fst r = {| status := 200; body := success "配置项 google_credentials_json 已更新" |}
  /\ settings (snd r) = <["GOOGLE_CREDENTIALS_JSON" := VStr "123"]> (settings bound).
Proof.
  apply (non_object_blob_is_stored Ref.collaborators _ "hunter2" "123" (VInt 123) bound).
  - apply reference_request.
  - apply reference_authorized_bound.
  - reflexivity.
  - vm_compute. reflexivity.
  - vm_compute. reflexivity.
  - intros items H. discriminate H.
  - apply reference_quiet.
  - apply reference_well_formed.
Defined.

(** A text the format check does refuse: an unterminated object. *)
Lemma malformed_blob_rejected_witness :
  status (fst (serve Ref.collaborators
                 (update "google_credentials_json" (VStr "{oops")) bound)) = 422
  /\ snd (serve Ref.collaborators (update "google_credentials_json" (VStr "{oops")) bound)
     = bound.
Proof.
  apply (malformed_blob_rejected Ref.collaborators _ "hunter2" "{oops" bound).
  - apply reference_request.
  - apply reference_authorized_bound.
  - reflexivity.
  - vm_compute. reflexivity.
  - eexists. vm_compute. reflexivity.
Defined.


(** Witness of C2: the reference process, after startup and one update. *)
Lemma dashboard_data_fails_after_startup_witness :
  let st := serve_all Ref.collaborators [update "max_retry_num" (VInt 7)] started in
  (exists e, fst (get_dashboard_data Ref.collaborators st) = Raise e)
  /\ forall w, maybe_cleanup Ref.collaborators (world st) = (Ok tt, w) ->
       serve Ref.collaborators GET_dashboard_data st =
       ({| status := 500; body := VStr "Internal Server Error" |}, set_world w st).
Proof.
  apply (dashboard_data_fails_after_startup Ref.collaborators
           (Ref.boot false Ref.settings0 Ref.world0) started
           [update "max_retry_num" (VInt 7)]).
  apply reference_startup.
Defined.

(** Witness of C9: the reference process. *)
Lemma dashboard_never_bound_witness :
  (exists l, main_credential_manager started = Some l
             /\ app_state_credential_manager started = Some l
             /\ is_Some (heap started !! l))
  /\ credential_manager started = None
  /\ (forall c a cr k k' (st : State Ref.collaborators),
        init_dashboard_router Ref.collaborators c a cr k st
        = init_dashboard_router Ref.collaborators c a cr k' st)
  /\ forall rs,
       credential_manager (serve_all Ref.collaborators rs started) = None
       /\ forall config_data,
            heap (snd (serve Ref.collaborators (POST_update_config config_data)
                         (serve_all Ref.collaborators rs started)))
            = heap (serve_all Ref.collaborators rs started).
Proof.
  apply (dashboard_never_bound Ref.collaborators
           (Ref.boot false Ref.settings0 Ref.world0) started).
  apply reference_startup.
Defined.

End OnTheReferenceProcess.

(** * The further properties at concrete requests *)

Section OnTheScenarios.

Import Examples Scenarios.

Lemma reference_settings_complete : settings_complete Ref.settings0.
Proof.
  split; [| split].
  - intros field attr Hin. cbn in Hin.
    repeat (destruct Hin as [Hin|Hin];
            [inversion Hin; subst; vm_compute; eexists; reflexivity |]).
    destruct Hin.
  - eexists. split; [vm_compute; reflexivity |].
    intros k Hk. cbn in Hk.
    repeat (destruct Hk as [<-|Hk]; [eexists; reflexivity |]). destruct Hk.
  - eexists. split; [vm_compute; reflexivity |].
    intros k Hk. cbn in Hk.
    repeat (destruct Hk as [<-|Hk]; [eexists; reflexivity |]). destruct Hk.
Qed.

Lemma reference_snapshot_collaborators b : snapshot_collaborators_return (Ref.make b).
Proof. repeat split; intros; eexists; reflexivity. Qed.

Lemma reference_managers_bound b : managers_bound (bound_in b).
Proof. split; eexists; reflexivity. Qed.

(** Witness of X2: a wrong password. *)
Lemma no_change_without_password_witness :
  exists c dtl,
    In c [400; 401; 422]
    /\ serve Ref.collaborators (POST_update_config
         (VDict [("password", VStr "guess"); ("key", VStr "max_retry_num"); ("value", VInt 1)]))
         bound
       = ({| status := c; body := VDict [("detail", VStr dtl)] |}, bound)
    /\ serve Ref.collaborators (POST_reset_stats
         (VDict [("password", VStr "guess"); ("key", VStr "max_retry_num"); ("value", VInt 1)]))
         bound
       = ({| status := c; body := VDict [("detail", VStr dtl)] |}, bound).
Proof.
  apply (no_change_without_password Ref.collaborators
           (VDict [("password", VStr "guess"); ("key", VStr "max_retry_num"); ("value", VInt 1)])
           bound).
  reflexivity.
Defined.

(** Witness of X4: the reset with the password. *)
Lemma reset_stats_only_resets_witness :
  serve Ref.collaborators (POST_reset_stats (VDict [("password", VStr "hunter2")])) bound
  = (match fst (stats_reset Ref.collaborators (world bound)) with
     | Ok _ => {| status := 200; body := success "API 调用统计数据已重置" |}
     | Raise e => error_response "重置失败：" e
     end,
     set_world (snd (stats_reset Ref.collaborators (world bound))) bound).
Proof.
  apply (reset_stats_only_resets Ref.collaborators (VDict [("password", VStr "hunter2")]) bound).
  reflexivity.
Defined.

(** Witness of X5: [max_empty_responses] accepts zero. *)
Lemma int_key_accepts_witness :
  let r := serve Ref.collaborators (update "max_empty_responses" (VInt 0)) bound in
  let new := <["MAX_EMPTY_RESPONSES" := VInt 0]> (settings bound) in
  settings (snd r) = new
  /\ app_config (snd r) = app_config bound
  /\ heap (snd r) = heap bound
  /\ same_globals bound (snd r)
  /\ exists msg,
       logs (snd r) = (logs bound ++ [(info, msg)])%list
       /\ let w := log_sink Ref.collaborators info msg (world bound) in
          world (snd r) = snd (save_settings Ref.collaborators new w)
          /\ fst r = match fst (save_settings Ref.collaborators new w) with
                     | Ok _ => {| status := 200;
                                  body := success ("配置项 " ++ "max_empty_responses" ++ " 已更新") |}
                     | Raise e => error_response "更新失败：" e
                     end.
Proof.
  apply (int_key_accepts Ref.collaborators _ "hunter2" "max_empty_responses"
           "MAX_EMPTY_RESPONSES" false (VInt 0) 0 bound).
  - cbn. tauto.
  - apply reference_request.
  - apply reference_authorized_bound.
  - reflexivity.
  - cbn. lia.
Defined.

(** Witness of X6: [max_empty_responses] refuses -1. *)
Lemma nonnegative_int_key_rejects_witness :
  status (fst (serve Ref.collaborators (update "max_empty_responses" (VInt (-1))) bound)) = 422
  /\ snd (serve Ref.collaborators (update "max_empty_responses" (VInt (-1))) bound) = bound.
Proof.
  apply (nonnegative_int_key_rejects Ref.collaborators _ "hunter2" "max_empty_responses"
           (VInt (-1)) bound).
  - cbn. tauto.
  - apply reference_request.
  - apply reference_authorized_bound.
  - left. exists (-1). split; [reflexivity | lia].
Defined.

(** Witness of X7: [max_retry_num] given 2.5 stores 2. *)
Lemma int_key_given_other_numbers_witness :
  let r := serve Ref.collaborators (update "max_retry_num" (VFloat two_and_a_half)) bound in
  (VFloat two_and_a_half = VBool true ->
   settings (snd r) = <["MAX_RETRY_NUM" := VInt 1]> (settings bound))
  /\ (VFloat two_and_a_half = VFloat S754_nan -> status (fst r) = 422 /\ snd r = bound)
  /\ (forall s, VFloat two_and_a_half = VFloat (S754_infinity s) ->
        status (fst r) = 500 /\ snd r = bound)
  /\ (forall f n, VFloat two_and_a_half = VFloat f -> float_trunc f = Some n ->
        if (if true then n <=? 0 else n <? 0)
        then status (fst r) = 422 /\ snd r = bound
        else settings (snd r) = <["MAX_RETRY_NUM" := VInt n]> (settings bound)).
Proof.
  apply (int_key_given_other_numbers Ref.collaborators _ "hunter2" "max_retry_num"
           "MAX_RETRY_NUM" true (VFloat two_and_a_half) bound).
  - cbn. tauto.
  - apply reference_request.
  - apply reference_authorized_bound.
Defined.

(** The integer part of 2.5. *)
Example float_trunc_two_and_a_half : float_trunc two_and_a_half = Some 2.
Proof. reflexivity. Qed.

(** Witness of X8: [max_retry_num] set to 7 and then to 9. *)
Lemma int_updates_compose_witness :
  let st2 := snd (serve Ref.collaborators (update "max_retry_num" (VInt 9))
                    (snd (serve Ref.collaborators (update "max_retry_num" (VInt 7)) bound))) in
  settings st2 = <["MAX_RETRY_NUM" := VInt 9]> (<["MAX_RETRY_NUM" := VInt 7]> (settings bound))
  /\ ("max_retry_num" = "max_retry_num" ->
      settings st2 = <["MAX_RETRY_NUM" := VInt 9]> (settings bound))
  /\ ("max_retry_num" <> "max_retry_num" ->
      settings st2
      = <["MAX_RETRY_NUM" := VInt 7]> (<["MAX_RETRY_NUM" := VInt 9]> (settings bound))).
Proof.
  apply (int_updates_compose Ref.collaborators _ _ "hunter2" "max_retry_num" "max_retry_num"
           "MAX_RETRY_NUM" "MAX_RETRY_NUM" true true (VInt 7) (VInt 9) 7 9 bound).
  - cbn. tauto.
  - cbn. tauto.
  - apply reference_request.
  - apply reference_request.
  - reflexivity.
  - reflexivity.
  - cbn. lia.
  - cbn. lia.
  - apply reference_authorized_bound.
  - split; [discriminate | vm_compute; reflexivity].
Defined.

(** Witness of X9: [enable_vertex] refuses the number 1. *)
Lemma typed_key_rejects_other_types_witness :
  status (fst (serve Ref.collaborators (update "enable_vertex" (VInt 1)) bound)) = 422
  /\ snd (serve Ref.collaborators (update "enable_vertex" (VInt 1)) bound) = bound.
Proof.
  apply (typed_key_rejects_other_types Ref.collaborators _ "hunter2" "enable_vertex"
           (VInt 1) bound).
  - apply reference_request.
  - apply reference_authorized_bound.
  - left. split; [cbn; tauto | reflexivity].
Defined.

(** Witness of X10: [enable_vertex] given [false]. *)
Lemma plain_bool_key_accepts_witness :
  let r := serve Ref.collaborators (update "enable_vertex" (VBool false)) bound in
  settings (snd r) = <["ENABLE_VERTEX" := VBool false]> (settings bound)
  /\ app_config (snd r) = app_config bound
  /\ heap (snd r) = heap bound
  /\ same_globals bound (snd r)
  /\ (persistence_succeeds Ref.collaborators ->
      fst r = {| status := 200; body := success ("配置项 " ++ "enable_vertex" ++ " 已更新") |}).
Proof.
  apply (plain_bool_key_accepts Ref.collaborators _ "hunter2" "enable_vertex"
           "ENABLE_VERTEX" false bound).
  - cbn. tauto.
  - apply reference_request.
  - apply reference_authorized_bound.
Defined.

(** Witness of X11: [fake_streaming] given [false]. *)
Lemma fake_streaming_sync_is_best_effort_witness :
  let r := serve Ref.collaborators (update "fake_streaming" (VBool false)) bound in
  let sync :=
    vertex_update_config Ref.collaborators "FAKE_STREAMING" (VBool false)
      (<["FAKE_STREAMING_ENABLED" := VBool false]> (app_config bound))
      (log_sink Ref.collaborators info "假流式请求已更新为：{config_value}" (world bound)) in
  settings (snd r) = <["FAKE_STREAMING" := VBool false]> (settings bound)
  /\ heap (snd r) = heap bound
  /\ same_globals bound (snd r)
  /\ match fst (fst sync) with
     | Ok _ =>
         logs (snd r)
         = (logs bound ++ [ (info, "假流式请求已更新为：{config_value}");
                            (info, "已同步更新 Vertex 中的假流式设置为：{config_value}") ])%list
     | Raise _ =>
         logs (snd r)
         = (logs bound ++ [ (info, "假流式请求已更新为：{config_value}");
                            (warning, "更新 Vertex 假流式设置时出错: {str(e)}") ])%list
     end
  /\ (persistence_succeeds Ref.collaborators ->
      fst r = {| status := 200; body := success "配置项 fake_streaming 已更新" |}).
Proof.
  apply (fake_streaming_sync_is_best_effort Ref.collaborators _ "hunter2" false bound).
  - apply reference_request.
  - apply reference_authorized_bound.
Defined.

(** Witness of X12: [search_prompt] given the string [true], which is stored. *)
Lemma search_update_keeps_other_items_witness :
  let r := serve Ref.collaborators (update "search_prompt" (VStr "true")) bound in
  exists sd',
    settings (snd r) = <["search" := VDict sd']> (settings bound)
    /\ dict_get "search_prompt" sd' = VStr "true"
    /\ (forall k, k <> "search_prompt" ->
        dict_get k sd' = dict_get k [("search_mode", VBool false); ("search_prompt", VStr "")])
    /\ (persistence_succeeds Ref.collaborators ->
        fst r = {| status := 200; body := success ("配置项 " ++ "search_prompt" ++ " 已更新") |}).
Proof.
  apply (search_update_keeps_other_items Ref.collaborators _ "hunter2" "search_prompt"
           (VStr "true") [("search_mode", VBool false); ("search_prompt", VStr "")] bound).
  - apply reference_request.
  - apply reference_authorized_bound.
  - right. split; reflexivity.
  - vm_compute. reflexivity.
Defined.


(** The keys of that value. *)
Example express_keys_of_the_witness : express_keys "k1, ,k2 " = ["k1"; "k2"].
Proof. vm_compute. reflexivity. Qed.

(** Witness of X14: the string [nan] is stored as the interval. *)
Lemma fake_streaming_interval_decides_witness :
  let r := serve Ref.collaborators (update "fake_streaming_interval" (VStr "nan")) bound in
  settings (snd r) = <["FAKE_STREAMING_INTERVAL" := VFloat S754_nan]> (settings bound)
  /\ heap (snd r) = heap bound
  /\ (persistence_succeeds Ref.collaborators ->
      fst r = {| status := 200;
                 body := success "配置项 fake_streaming_interval 已更新" |}).
Proof.
  apply (fake_streaming_interval_decides Ref.collaborators _ "hunter2" (VStr "nan") bound).
  - apply reference_request.
  - apply reference_authorized_bound.
Defined.

(** Witness of X15: an unterminated object does not pass the check. *)
Lemma blob_passes_or_is_refused_witness :
  let r := serve Ref.collaborators (update "google_credentials_json" (VStr "{oops")) bound in
  precheck_passes Ref.collaborators "{oops"
  \/ (snd r = bound
      /\ (status (fst r) = 422
          \/ exists e, parse_multiple_json_credentials Ref.collaborators "{oops" = Raise e
                       /\ is_HTTPException e = true)).
Proof.
  apply (blob_passes_or_is_refused Ref.collaborators _ "hunter2" "{oops" bound).
  - apply reference_request.
  - apply reference_authorized_bound.
  - reflexivity.
Defined.

(** The blob of the witness does not pass. *)
Example unterminated_object_does_not_pass :
  parse_multiple_json_credentials Ref.collaborators "{oops" = Ok []
  /\ json_loads Ref.nesting_limit "{oops"
     = Raise (JSONDecodeError "Expecting property name enclosed in double quotes").
Proof. split; vm_compute; reflexivity. Qed.

(** Witness of X16: the reset of the fallback client raises. *)
Lemma blob_update_failure_keeps_assignment_witness :
  let reset :=
    reset_global_fallback_client fallback_broken
      (log_sink fallback_broken info "Google Credentials JSON 设置已更新（内容未记录）。"
         (world bound_broken)) in
  let r := serve fallback_broken (update "google_credentials_json" (VStr one_descriptor))
             bound_broken in
  fst r = error_response "更新失败：" (OtherError "RuntimeError" "no fallback client")
  /\ settings (snd r) = <["GOOGLE_CREDENTIALS_JSON" := VStr one_descriptor]>
                          (settings bound_broken)
  /\ heap (snd r) = heap bound_broken
  /\ logs (snd r)
     = (logs bound_broken
        ++ [(info, "Google Credentials JSON 设置已更新（内容未记录）。")])%list
  /\ world (snd r) = snd reset.
Proof.
  apply (blob_update_failure_keeps_assignment fallback_broken _ "hunter2" one_descriptor
           (OtherError "RuntimeError" "no fallback client") bound_broken).
  - apply reference_request.
  - split; [discriminate | reflexivity].
  - vm_compute. reflexivity.
  - eexists. split; [vm_compute; reflexivity | left; discriminate].
  - reflexivity.
Defined.

(** In that run the answer is 500 and nothing was persisted. *)
Example failed_blob_update_persists_nothing :
  let r := serve fallback_broken (update "google_credentials_json" (VStr one_descriptor))
             bound_broken in
  status (fst r) = 500 /\ Ref.persisted (world (snd r)) = None.
Proof. split; vm_compute; reflexivity. Qed.

(** Witness of X17: the reference process after startup, given a blob with one
    descriptor. *)
Lemma blob_update_after_startup_only_warns_witness :
  let st := serve_all Ref.collaborators [] started in
  let r := serve Ref.collaborators (update "google_credentials_json" (VStr one_descriptor))
             st in
  fst r = {| status := 200; body := success "配置项 google_credentials_json 已更新" |}
  /\ settings (snd r) = <["GOOGLE_CREDENTIALS_JSON" := VStr one_descriptor]> (settings st)
  /\ heap (snd r) = heap st
  /\ incl [ (warning, "CredentialManager 未初始化，无法加载 Google Credentials JSON。");
            (warning, "重新初始化 Vertex AI 时发现 credential_manager 为 None");
            (warning, "Credential Manager 不存在，将创建一个新的实例用于初始化") ]
          (logs (snd r)).
Proof.
  apply (blob_update_after_startup_only_warns Ref.collaborators
           (Ref.boot false Ref.settings0 Ref.world0) started [] _ "hunter2" one_descriptor).
  - apply reference_startup.
  - apply reference_request.
  - apply reference_authorized_started.
  - vm_compute. reflexivity.
  - eexists. split; [vm_compute; reflexivity | left; discriminate].
  - intros s w. reflexivity.
  - intros w. reflexivity.
Defined.


(** Witness of X21: a blob that is no JSON. *)
Lemma startup_completes_whatever_the_blob_witness :
  exists st1 l,
    lifespan_startup always_up boot_with_bad_blob = (Ok tt, st1)
    /\ main_credential_manager st1 = Some l
    /\ app_state_credential_manager st1 = Some l
    /\ is_Some (heap st1 !! l)
    /\ settings st1 = settings boot_with_bad_blob
    /\ (forall s e, VStr "{oops" = VStr s -> s <> "" ->
          json_loads (json_nesting_limit always_up) s = Raise e ->
          In (error, "加载 Google Credentials 失败: {e}") (logs st1)).
Proof.
  apply (startup_completes_whatever_the_blob always_up (VStr "{oops") boot_with_bad_blob).
  - split; intros; eexists; reflexivity.
  - apply lookup_insert_eq.
Defined.


(** In that process the snapshot is answered by 200; once "nan" is stored
    as the interval of the fake streaming (which is answered by 200), it is
    answered by 500. *)
Example stored_nan_breaks_the_snapshot :
  let st1 := snd (serve Ref.collaborators
                    (update "fake_streaming_interval" (VStr "nan")) bound) in
  status (fst (serve Ref.collaborators GET_dashboard_data bound)) = 200
  /\ status (fst (serve Ref.collaborators
                    (update "fake_streaming_interval" (VStr "nan")) bound)) = 200
  /\ settings st1 !! "FAKE_STREAMING_INTERVAL" = Some (VFloat S754_nan)
  /\ status (fst (serve Ref.collaborators GET_dashboard_data st1)) = 500.
Proof. repeat split; vm_compute; reflexivity. Qed.



(** Witness of X26: a client that is not on the whitelist. *)
Lemma route_refusal_reaches_nothing_witness :
  serve Ref.collaborators (GET_models (from_client (Some "curl/8.0"))) with_whitelist
  = (respond (Raise (HTTPException 403 "Not allowed client")), with_whitelist)
  /\ forall body,
       serve Ref.collaborators (POST_chat_completions body (from_client (Some "curl/8.0")))
         with_whitelist
       = (respond (Raise (HTTPException 403 "Not allowed client")), with_whitelist).
Proof.
  apply (route_refusal_reaches_nothing Ref.collaborators (from_client (Some "curl/8.0"))
           (HTTPException 403 "Not allowed client") with_whitelist).
  vm_compute. reflexivity.
Defined.

(** Witness of X27: the whitelist of one client, and a request without the
    header. *)
Lemma user_agent_whitelist_witness :
  ([VStr "storybox-ui/1.0"] = [] \/ listed None [VStr "storybox-ui/1.0"] ->
   verify_user_agent Ref.collaborators (from_client None) with_whitelist
   = (Ok tt, with_whitelist))
  /\ ([VStr "storybox-ui/1.0"] <> [] -> ~ listed None [VStr "storybox-ui/1.0"] ->
      verify_user_agent Ref.collaborators (from_client None) with_whitelist
      = (Raise (HTTPException 403 "Not allowed client"), with_whitelist)).
Proof.
  apply (user_agent_whitelist Ref.collaborators (from_client None)
           [VStr "storybox-ui/1.0"] with_whitelist).
  apply lookup_insert_eq.
Defined.

(** Witness of X28: Vertex disabled. *)
Lemma list_models_when_vertex_disabled_witness :
  serve Ref.collaborators (GET_models (from_client None)) vertex_disabled
  = ({| status := 200; body := VDict [("data", VList [])] |}, vertex_disabled).
Proof.
  apply (list_models_when_vertex_disabled Ref.collaborators (from_client None) 0%nat
           (VBool false) vertex_disabled).
  - vm_compute. reflexivity.
  - reflexivity.
  - apply lookup_insert_eq.
  - reflexivity.
Defined.

End OnTheScenarios.
